(** * Mzansi Speak: the duplex audio pipeline and the render pipeline

    A shallow embedding of the audio code of the repository:
    - [WavCodec]: [bufferToWav] of [src/components/TTSMode.tsx], the
      RIFF/WAVE writer with its 16-bit PCM quantisation;
    - [TTSMode]: the render pipeline of [src/components/TTSMode.tsx]
      ([handleGenerate], [handleOfflineGenerate], [handleOnlineGenerate],
      [stopPlayback]);
    - [LiveMode]: the live session component ([stopAll], [startSession] and
      the callbacks [onopen], [onaudioprocess], [onmessage], [onclose],
      [onerror]).

    Conventions.  A JavaScript number that holds a time or a sample is a
    rational ([Q]); every operation the code performs on samples
    (clamping, the scaling by 32767 or 32768 of a 32-bit float) is exact in
    IEEE double precision, so the rational model loses nothing there; NaN is
    not modelled.  Bytes are integers in 0..255.  The text to speak is a
    JavaScript string, a sequence of UTF-16 code units.  A React state
    variable or a ref is a field of the component state; a callback is a
    function from state to state; an [await] splits a handler in the part
    that runs before the suspension and the part that runs at the
    resumption. *)

From Stdlib Require Import ZArith QArith Qminmax Lia Lqa Ascii String.
From stdpp Require Import base option list gmap sets strings.

Local Open Scope Z_scope.

(** Iteration of a fallible loop body over the values of the loop
    variable, threading the loop state; it stops at the first failure. *)
Fixpoint forM {A S : Type} (body : A → S → option S) (xs : list A) (s : S)
  : option S :=
  match xs with
  | [] => Some s
  | x :: xs' => match body x s with
                | Some s' => forM body xs' s'
                | None => None
                end
  end.

(* ===================================================================== *)
(** * The WAV writer *)
(* ===================================================================== *)

Module WavCodec.

(** The Web Audio [AudioBuffer]: [bufLength] is its [length] (sample frames
    per channel), [channelData] the [Float32Array] of every channel. *)
Record AudioBuffer := {
  sampleRate : positive;
  bufLength : nat;
  channelData : list (list Q)
}.

Definition numberOfChannels (abuffer : AudioBuffer) : nat :=
  length (channelData abuffer).

(** [abuffer.getChannelData(i)]; it throws when there is no channel [i]. *)
Definition getChannelData (abuffer : AudioBuffer) (i : nat) : option (list Q) :=
  channelData abuffer !! i.

(** [abuffer.duration], in seconds. *)
Definition duration (abuffer : AudioBuffer) : Q :=
  Z.of_nat (bufLength abuffer) # sampleRate abuffer.

(** What the platform guarantees of an [AudioBuffer]. *)
Definition wf_AudioBuffer (abuffer : AudioBuffer) : Prop :=
  (1 ≤ numberOfChannels abuffer)%nat ∧
  Forall (λ ch, length ch = bufLength abuffer) (channelData abuffer).

(** ** Sample quantisation (lines 541-542) *)

(** [Math.max(-1, Math.min(1, x))] *)
Definition clamp (x : Q) : Q := Qmax (-1) (Qmin 1 x).

(** [0.5 + sample < 0 ? sample * 32768 : sample * 32767]: the addition binds
    tighter than the comparison. *)
Definition scaleSample (sample : Q) : Q :=
  match (1 # 2) + sample ?= 0 with
  | Lt => sample * 32768
  | _ => sample * 32767
  end%Q.

(** Truncation toward zero, the first step of [ToInt32]. *)
Definition Qtruncate (x : Q) : Z := Z.quot (Qnum x) (Z.pos (Qden x)).

(** [x | 0]: truncate, then wrap to a signed 32-bit integer. *)
Definition ToInt32 (x : Q) : Z := (Qtruncate x + 2 ^ 31) mod 2 ^ 32 - 2 ^ 31.

(** The value handed to [view.setInt16] for the float [x]. *)
Definition quantize (x : Q) : Z := ToInt32 (scaleSample (clamp x)).

(** The quantisation as the specification words it: a negative clamped
    sample is scaled by 32768, a non-negative one by 32767. *)
Definition spec_scaleSample (sample : Q) : Q :=
  match sample ?= 0 with
  | Lt => sample * 32768
  | _ => sample * 32767
  end%Q.

Definition spec_quantize (x : Q) : Z := ToInt32 (spec_scaleSample (clamp x)).

(** ** DataView over an ArrayBuffer *)

(** Byte [k] (0 is the least significant) of the two's complement
    representation of [v]. *)
Definition byteAt (v : Z) (k : Z) : Z := Z.land (Z.shiftr v (8 * k)) 255.

(** The view with [bytes] written at [pos]. *)
Definition splice (view : list Z) (pos : nat) (bytes : list Z) : list Z :=
  take pos view ++ bytes ++ drop (pos + length bytes) view.

(** A write of [bytes] at [pos]; a DataView throws a RangeError when the
    write does not fit. *)
Definition store (view : list Z) (pos : nat) (bytes : list Z) : option (list Z) :=
  if decide (pos + length bytes ≤ length view)%nat
  then Some (splice view pos bytes)
  else None.

(** [view.setUint16(pos, data, true)] and [view.setInt16(pos, data, true)]
    keep the low 16 bits of [data], little-endian. *)
Definition DataView_setUint16 (view : list Z) (pos : nat) (data : Z) :=
  store view pos [byteAt data 0; byteAt data 1].

Definition DataView_setInt16 (view : list Z) (pos : nat) (data : Z) :=
  store view pos [byteAt data 0; byteAt data 1].

(** [view.setUint32(pos, data, true)] *)
Definition DataView_setUint32 (view : list Z) (pos : nat) (data : Z) :=
  store view pos [byteAt data 0; byteAt data 1; byteAt data 2; byteAt data 3].

(** Readers of the little-endian fields, for stating what a header holds. *)
Definition getUint16 (view : list Z) (pos : nat) : option Z :=
  match view !! pos, view !! S pos with
  | Some b0, Some b1 => Some (b0 + 256 * b1)
  | _, _ => None
  end.

Definition getUint32 (view : list Z) (pos : nat) : option Z :=
  match view !! pos, view !! (pos + 1)%nat, view !! (pos + 2)%nat,
        view !! (pos + 3)%nat with
  | Some b0, Some b1, Some b2, Some b3 =>
      Some (b0 + 256 * b1 + 65536 * b2 + 16777216 * b3)
  | _, _, _, _ => None
  end.

Definition getInt16 (view : list Z) (pos : nat) : option Z :=
  match getUint16 view pos with
  | Some u => Some (if decide (u < 32768) then u else u - 65536)
  | None => None
  end.

(** ** bufferToWav (lines 510-560) *)

(** The writer state shared by the inner functions [setUint16] and
    [setUint32]: the view and the variable [pos]. *)
Definition Writer : Type := list Z * nat.

Definition setUint16 (data : Z) (w : Writer) : option Writer :=
  match DataView_setUint16 w.1 w.2 data with
  | Some view => Some (view, (w.2 + 2)%nat)
  | None => None
  end.

Definition setUint32 (data : Z) (w : Writer) : option Writer :=
  match DataView_setUint32 w.1 w.2 data with
  | Some view => Some (view, (w.2 + 4)%nat)
  | None => None
  end.

(** Lines 522-536. *)
Definition writeHeader (numOfChan : nat) (sampleRate : Z) (length : nat)
    (w : Writer) : option Writer :=
  w ← setUint32 0x46464952 w;
  w ← setUint32 (Z.of_nat length - 8) w;
  w ← setUint32 0x45564157 w;
  w ← setUint32 0x20746d66 w;
  w ← setUint32 16 w;
  w ← setUint16 1 w;
  w ← setUint16 (Z.of_nat numOfChan) w;
  w ← setUint32 sampleRate w;
  w ← setUint32 (sampleRate * 2 * Z.of_nat numOfChan) w;
  w ← setUint16 (Z.of_nat numOfChan * 2) w;
  w ← setUint16 16 w;
  w ← setUint32 0x61746164 w;
  setUint32 (Z.of_nat length - Z.of_nat w.2 - 4) w.

(** The body of the inner [for] loop (lines 541-544), on the view and the
    variable [offset].  Reading past the end of a channel yields
    [undefined], which the arithmetic turns into NaN and [| 0] into 0. *)
Definition writeSample (abuffer : AudioBuffer) (pos i : nat)
    (s : list Z * nat) : option (list Z * nat) :=
  match getChannelData abuffer i with
  | None => None
  | Some ch =>
      let sample := match ch !! pos with
                    | Some x => quantize x
                    | None => 0
                    end in
      match DataView_setInt16 s.1 (44 + s.2) sample with
      | Some view => Some (view, (s.2 + 2)%nat)
      | None => None
      end
  end.

(** The body of the [while] loop: one frame, channel after channel. *)
Definition writeFrame (abuffer : AudioBuffer) (numOfChan : nat) (pos : nat)
    (s : list Z * nat) : option (list Z * nat) :=
  forM (writeSample abuffer pos) (seq 0 numOfChan) s.

(** [bufferToWav(abuffer, sampleRate)]: the bytes of the Blob, or [None]
    when the code throws.  The [while] loop runs [pos] from the value the
    header writers left in it up to [abuffer.length]. *)
Definition bufferToWav (abuffer : AudioBuffer) (sampleRate : Z)
  : option (list Z) :=
  let numOfChan := numberOfChannels abuffer in
  let length := (bufLength abuffer * numOfChan * 2 + 44)%nat in
  let view := replicate length 0 in
  _ ← getChannelData abuffer 0;
  w ← writeHeader numOfChan sampleRate length (view, 0%nat);
  s ← forM (writeFrame abuffer numOfChan)
           (seq w.2 (bufLength abuffer - w.2)) (w.1, 0%nat);
  Some s.1.

(** The value the data loop stores for frame [pos] of channel [i]. *)
Definition sampleAt (abuffer : AudioBuffer) (pos i : nat) : Z :=
  match getChannelData abuffer i with
  | Some ch => match ch !! pos with
               | Some x => quantize x
               | None => 0
               end
  | None => 0
  end.

(** The 44 bytes the header writers of lines 522-536 produce, field by
    field, for a view of [length] bytes. *)
Definition le16 (v : Z) : list Z := [byteAt v 0; byteAt v 1].
Definition le32 (v : Z) : list Z :=
  [byteAt v 0; byteAt v 1; byteAt v 2; byteAt v 3].

Definition wavHeader (numOfChan : nat) (sampleRate : Z) (length : nat) : list Z :=
  le32 0x46464952 ++ le32 (Z.of_nat length - 8) ++ le32 0x45564157 ++
  le32 0x20746d66 ++ le32 16 ++ le16 1 ++ le16 (Z.of_nat numOfChan) ++
  le32 sampleRate ++ le32 (sampleRate * 2 * Z.of_nat numOfChan) ++
  le16 (Z.of_nat numOfChan * 2) ++ le16 16 ++
  le32 0x61746164 ++ le32 (Z.of_nat length - 40 - 4).

(** The bytes of the frames [frames], channels interleaved. *)
Definition frameBytes (abuffer : AudioBuffer) (pos : nat) (chans : list nat)
  : list Z :=
  chans ≫= λ i, le16 (sampleAt abuffer pos i).

Definition dataBytes (abuffer : AudioBuffer) (frames : list nat) : list Z :=
  frames ≫= λ pos, frameBytes abuffer pos (seq 0 (numberOfChannels abuffer)).

End WavCodec.

(* ===================================================================== *)
(** * The render pipeline (TTSMode) *)
(* ===================================================================== *)

Module TTSMode.
Import WavCodec.

(** ** The types of [types.ts] *)

Inductive SALanguage :=
  ENGLISH | ZULU | XHOSA | AFRIKAANS | SESOTHO | SETSWANA.

#[global] Instance SALanguage_eq_dec : EqDecision SALanguage.
Proof. solve_decision. Defined.

(** The string value of an enum member. *)
Definition SALanguage_value (l : SALanguage) : string :=
  match l with
  | ENGLISH => "English (South African)"
  | ZULU => "isiZulu"
  | XHOSA => "isiXhosa"
  | AFRIKAANS => "Afrikaans"
  | SESOTHO => "Sesotho"
  | SETSWANA => "Setswana"
  end.

Definition LANGUAGE_VOICE_MAP (l : SALanguage) : string :=
  match l with
  | ENGLISH => "Zephyr"
  | ZULU => "Kore"
  | XHOSA => "Puck"
  | AFRIKAANS => "Fenrir"
  | SESOTHO => "Charon"
  | SETSWANA => "Kore"
  end.

Record OfflinePack := {
  pack_id : string;
  language : SALanguage;
  localeCode : string;
  pack_size : string;
  downloaded : bool
}.

Definition INITIAL_OFFLINE_PACKS : list OfflinePack :=
  [ {| pack_id := "pack_en"; language := ENGLISH; localeCode := "en-ZA";
       pack_size := "45 MB"; downloaded := true |};
    {| pack_id := "pack_af"; language := AFRIKAANS; localeCode := "af-ZA";
       pack_size := "38 MB"; downloaded := false |};
    {| pack_id := "pack_zu"; language := ZULU; localeCode := "zu-ZA";
       pack_size := "42 MB"; downloaded := false |};
    {| pack_id := "pack_xh"; language := XHOSA; localeCode := "xh-ZA";
       pack_size := "40 MB"; downloaded := false |};
    {| pack_id := "pack_st"; language := SESOTHO; localeCode := "st-ZA";
       pack_size := "35 MB"; downloaded := false |};
    {| pack_id := "pack_tn"; language := SETSWANA; localeCode := "tn-ZA";
       pack_size := "36 MB"; downloaded := false |} ].

(** ** JavaScript strings

    The text to speak is a JavaScript string, a sequence of UTF-16 code
    units, on which [trim] is decided.  The other strings of the component
    (messages, identifiers, locale codes, URLs) are literals of the code or
    opaque to it, and are kept as [string]. *)
Definition JSString : Type := list N.

(** The code units of a text of ASCII characters. *)
Definition ofAscii (s : string) : JSString :=
  N_of_ascii <$> list_ascii_of_string s.

(** ** The collaborators *)

(** A [SpeechSynthesisUtterance] as [handleOfflineGenerate] configures it;
    [uLocale] is the locale its voice is looked up with. *)
Record Utterance := {
  uText : JSString;
  uLocale : string;
  uRate : Q;
  uPitch : Q
}.

(** The calls made on [window.speechSynthesis]. *)
Inductive SpeechCall :=
| SpeechCancel
| SpeechSpeak (u : Utterance).

(** The hidden [<audio>] element, the sink of the online path. *)
Record HTMLAudio := {
  paused : bool;
  currentTime : Q
}.

(** ** The component state: React state, refs and the calls made so far *)

Record State := {
  text : JSString;
  selectedLang : SALanguage;
  loading : bool;
  error : option string;
  audioUrl : option string;
  isOfflineMode : bool;
  playbackSpeed : Q;
  selectedVoiceId : string;
  offlinePacks : list OfflinePack;
  isPlaying : bool;
  audioContextRef : bool;           (* an AudioContext has been created *)
  audioRef : option HTMLAudio;      (* null while the element is not mounted *)
  speechSynthesis : list SpeechCall;  (* oldest first *)
  generateContent : list (JSString * string)  (* remote calls: text, voice *)
}.

Definition setLoading (v : bool) (st : State) : State :=
  {| text := text st; selectedLang := selectedLang st; loading := v;
     error := error st; audioUrl := audioUrl st;
     isOfflineMode := isOfflineMode st; playbackSpeed := playbackSpeed st;
     selectedVoiceId := selectedVoiceId st; offlinePacks := offlinePacks st;
     isPlaying := isPlaying st; audioContextRef := audioContextRef st;
     audioRef := audioRef st; speechSynthesis := speechSynthesis st;
     generateContent := generateContent st |}.

Definition setError (v : option string) (st : State) : State :=
  {| text := text st; selectedLang := selectedLang st; loading := loading st;
     error := v; audioUrl := audioUrl st;
     isOfflineMode := isOfflineMode st; playbackSpeed := playbackSpeed st;
     selectedVoiceId := selectedVoiceId st; offlinePacks := offlinePacks st;
     isPlaying := isPlaying st; audioContextRef := audioContextRef st;
     audioRef := audioRef st; speechSynthesis := speechSynthesis st;
     generateContent := generateContent st |}.

Definition setAudioUrl (v : option string) (st : State) : State :=
  {| text := text st; selectedLang := selectedLang st; loading := loading st;
     error := error st; audioUrl := v;
     isOfflineMode := isOfflineMode st; playbackSpeed := playbackSpeed st;
     selectedVoiceId := selectedVoiceId st; offlinePacks := offlinePacks st;
     isPlaying := isPlaying st; audioContextRef := audioContextRef st;
     audioRef := audioRef st; speechSynthesis := speechSynthesis st;
     generateContent := generateContent st |}.

Definition setIsPlaying (v : bool) (st : State) : State :=
  {| text := text st; selectedLang := selectedLang st; loading := loading st;
     error := error st; audioUrl := audioUrl st;
     isOfflineMode := isOfflineMode st; playbackSpeed := playbackSpeed st;
     selectedVoiceId := selectedVoiceId st; offlinePacks := offlinePacks st;
     isPlaying := v; audioContextRef := audioContextRef st;
     audioRef := audioRef st; speechSynthesis := speechSynthesis st;
     generateContent := generateContent st |}.

Definition setOfflinePacks (v : list OfflinePack) (st : State) : State :=
  {| text := text st; selectedLang := selectedLang st; loading := loading st;
     error := error st; audioUrl := audioUrl st;
     isOfflineMode := isOfflineMode st; playbackSpeed := playbackSpeed st;
     selectedVoiceId := selectedVoiceId st; offlinePacks := v;
     isPlaying := isPlaying st; audioContextRef := audioContextRef st;
     audioRef := audioRef st; speechSynthesis := speechSynthesis st;
     generateContent := generateContent st |}.

Definition setAudioContextRef (v : bool) (st : State) : State :=
  {| text := text st; selectedLang := selectedLang st; loading := loading st;
     error := error st; audioUrl := audioUrl st;
     isOfflineMode := isOfflineMode st; playbackSpeed := playbackSpeed st;
     selectedVoiceId := selectedVoiceId st; offlinePacks := offlinePacks st;
     isPlaying := isPlaying st; audioContextRef := v;
     audioRef := audioRef st; speechSynthesis := speechSynthesis st;
     generateContent := generateContent st |}.

Definition setAudioRef (v : option HTMLAudio) (st : State) : State :=
  {| text := text st; selectedLang := selectedLang st; loading := loading st;
     error := error st; audioUrl := audioUrl st;
     isOfflineMode := isOfflineMode st; playbackSpeed := playbackSpeed st;
     selectedVoiceId := selectedVoiceId st; offlinePacks := offlinePacks st;
     isPlaying := isPlaying st; audioContextRef := audioContextRef st;
     audioRef := v; speechSynthesis := speechSynthesis st;
     generateContent := generateContent st |}.

(** A call on [window.speechSynthesis]. *)
Definition speech (c : SpeechCall) (st : State) : State :=
  {| text := text st; selectedLang := selectedLang st; loading := loading st;
     error := error st; audioUrl := audioUrl st;
     isOfflineMode := isOfflineMode st; playbackSpeed := playbackSpeed st;
     selectedVoiceId := selectedVoiceId st; offlinePacks := offlinePacks st;
     isPlaying := isPlaying st; audioContextRef := audioContextRef st;
     audioRef := audioRef st; speechSynthesis := speechSynthesis st ++ [c];
     generateContent := generateContent st |}.

(** A call of [ai.models.generateContent]. *)
Definition remoteCall (c : JSString * string) (st : State) : State :=
  {| text := text st; selectedLang := selectedLang st; loading := loading st;
     error := error st; audioUrl := audioUrl st;
     isOfflineMode := isOfflineMode st; playbackSpeed := playbackSpeed st;
     selectedVoiceId := selectedVoiceId st; offlinePacks := offlinePacks st;
     isPlaying := isPlaying st; audioContextRef := audioContextRef st;
     audioRef := audioRef st; speechSynthesis := speechSynthesis st;
     generateContent := generateContent st ++ [c] |}.

(** ** String.prototype.trim

    The code units [trim] strips from both ends: WhiteSpace (TAB, VT, FF,
    ZWNBSP and the Unicode category Zs: SP, NBSP, U+1680, U+2000 to U+200A,
    U+202F, U+205F, U+3000) and LineTerminator (LF, CR, LS, PS).  All lie
    in the Basic Multilingual Plane, so each is one code unit. *)
Definition isWhiteSpace (c : N) : bool :=
  bool_decide (c ∈ [0x9; 0xA; 0xB; 0xC; 0xD; 0x20; 0xA0; 0x1680; 0x2028;
                    0x2029; 0x202F; 0x205F; 0x3000; 0xFEFF]%N)
  || ((0x2000 <=? c) && (c <=? 0x200A))%N.

Fixpoint trimStart (s : JSString) : JSString :=
  match s with
  | [] => []
  | c :: s' => if isWhiteSpace c then trimStart s' else s
  end.

Definition trim (s : JSString) : JSString :=
  rev (trimStart (rev (trimStart s))).

(** ** The handlers *)

(** What a suspended [handleGenerate] is waiting for. *)
Inductive Pending :=
| AwaitUtterance         (* the promise of handleOfflineGenerate *)
| AwaitGenerateContent   (* the remote synthesis call *)
| AwaitDecode.           (* decodeAudioData *)

(** The [catch] block of [handleGenerate] (lines 105-108), for an error with
    the given message. *)
Definition catchBlock (message : string) (st : State) : State :=
  let shown := if decide (message = EmptyString) then "Failed to generate speech"
               else message in
  setIsPlaying false (setError (Some shown) st).

(** The [finally] block (line 110). *)
Definition finallyBlock (st : State) : State := setLoading false st.

(** [offlinePacks.find(p => p.language === selectedLang)] *)
Definition findPack (st : State) : option OfflinePack :=
  List.find (λ p, bool_decide (language p = selectedLang st)) (offlinePacks st).

(** [handleOfflineGenerate] up to the suspension on the utterance's
    promise (lines 114-146): either the message of the error thrown, or the
    state once [speak] has been called.  The locale is
    [pack?.localeCode || 'en-US']; the voice the platform offers for it is
    not modelled. *)
Definition handleOfflineGenerate (inputText : JSString) (st : State)
  : string + State :=
  let pack := findPack st in
  match pack with
  | Some p =>
      if negb (downloaded p)
      then inl ("Please download the " +:+ SALanguage_value (selectedLang st)
                +:+ " language pack first.")
      else inr (speech (SpeechSpeak {| uText := inputText;
                                       uLocale := if decide (localeCode p = EmptyString)
                                                  then "en-US"
                                                  else localeCode p;
                                       uRate := playbackSpeed st;
                                       uPitch := 1 |}) st)
  | None =>
      inr (speech (SpeechSpeak {| uText := inputText; uLocale := "en-US";
                                  uRate := playbackSpeed st;
                                  uPitch := 1 |}) st)
  end.

(** [handleOnlineGenerate] up to the [await] of the remote call (lines
    148-170); [apiKey] tells whether [process.env.API_KEY] is set. *)
Definition handleOnlineGenerate (apiKey : bool) (inputText : JSString)
    (st : State) : string + State :=
  if negb apiKey then inl "API Key missing"
  else inr (remoteCall (inputText, selectedVoiceId st) st).

(** [handleGenerate] (lines 89-112) up to its first suspension.  An error
    thrown before any suspension reaches the [catch] and [finally] blocks
    within the same task. *)
Definition handleGenerate (apiKey : bool) (inputText : JSString) (st : State)
  : State * option Pending :=
  if decide (trim inputText = []) then (st, None)
  else
    let st := setLoading true st in
    let st := setError None st in
    let st := setAudioUrl None st in
    let st := setIsPlaying true st in
    let st := speech SpeechCancel st in
    if isOfflineMode st then
      match handleOfflineGenerate inputText st with
      | inl message => (finallyBlock (catchBlock message st), None)
      | inr st' => (st', Some AwaitUtterance)
      end
    else
      match handleOnlineGenerate apiKey inputText st with
      | inl message => (finallyBlock (catchBlock message st), None)
      | inr st' => (st', Some AwaitGenerateContent)
      end.


(** [utterance.onerror] (lines 139-142), then [catch] and [finally]. *)
Definition utterance_onerror (st : State) : State :=
  finallyBlock (catchBlock "Offline speech synthesis failed"
                  (setIsPlaying false st)).

(** The remote call returned (lines 172-186); [base64Audio] is the inline
    data of the first part, when there is one. *)
Definition generateContent_returned (base64Audio : option string)
    (st : State) : State * option Pending :=
  match base64Audio with
  | Some data =>
      if decide (data = EmptyString)
      then (finallyBlock (catchBlock "No audio data returned" st), None)
      else (setAudioContextRef true st, Some AwaitDecode)
  | None => (finallyBlock (catchBlock "No audio data returned" st), None)
  end.

(** A rejected [await]: the remote call or the decoding failed. *)
Definition await_threw (message : string) (st : State) : State :=
  finallyBlock (catchBlock message st).

(** [decodeAudioData] returned (lines 181-183); [url] is what
    [URL.createObjectURL] returns for the Blob, [message] what a throwing
    [bufferToWav] would carry. *)
Definition decode_returned (audioBuffer : AudioBuffer) (url message : string)
    (st : State) : State :=
  match bufferToWav audioBuffer 24000 with
  | Some _ => finallyBlock (setAudioUrl (Some url) st)
  | None => finallyBlock (catchBlock message st)
  end.

(** [handleDownloadPack] (lines 189-194). *)
Definition handleDownloadPack (id : string) (st : State) : State :=
  setOfflinePacks
    (map (λ p, if decide (pack_id p = id)
               then {| pack_id := pack_id p; language := language p;
                       localeCode := localeCode p; pack_size := pack_size p;
                       downloaded := true |}
               else p) (offlinePacks st)) st.

(** The [onEnded] and [onPlay] handlers of the audio element (line 462). *)
Definition audio_onEnded (st : State) : State := setIsPlaying false st.
Definition audio_onPlay (st : State) : State := setIsPlaying true st.

(** [stopPlayback] (lines 205-212). *)
Definition stopPlayback (st : State) : State :=
  let st := match audioRef st with
            | Some _ => setAudioRef (Some {| paused := true;
                                             currentTime := 0 |}) st
            | None => st
            end in
  let st := speech SpeechCancel st in
  setIsPlaying false st.

(** ** The render state the component shows

    The component has no state variable of that name; what it renders
    (lines 433-459) depends on [isPlaying] (tested first: the "Stop
    Speaking" button), then on [loading] (the spinner and "Generating..."
    on the disabled generate button), and on [error] (the message box). *)
Inductive RenderState := Idle | Generating | Playing | Error.

Definition renderState (st : State) : RenderState :=
  if isPlaying st then Playing
  else if loading st then Generating
  else match error st with
       | Some _ => Error
       | None => Idle
       end.

(** The component as it mounts. *)
Definition initialState : State :=
  {| text := []; selectedLang := ENGLISH; loading := false; error := None;
     audioUrl := None; isOfflineMode := false; playbackSpeed := 1;
     selectedVoiceId := LANGUAGE_VOICE_MAP ENGLISH;
     offlinePacks := INITIAL_OFFLINE_PACKS; isPlaying := false;
     audioContextRef := false;
     audioRef := Some {| paused := true; currentTime := 0 |};
     speechSynthesis := []; generateContent := [] |}.

(** The mounted component once the user has switched to offline mode and
    selected Afrikaans. *)
Definition setIsOfflineAfrikaans : State :=
  {| text := ofAscii "Hallo"; selectedLang := AFRIKAANS; loading := false;
     error := None; audioUrl := None; isOfflineMode := true;
     playbackSpeed := 1;
     selectedVoiceId := LANGUAGE_VOICE_MAP ENGLISH;
     offlinePacks := INITIAL_OFFLINE_PACKS; isPlaying := false;
     audioContextRef := false;
     audioRef := Some {| paused := true; currentTime := 0 |};
     speechSynthesis := []; generateContent := [] |}.

End TTSMode.

(* ===================================================================== *)
(** * The live session (LiveMode) *)
(* ===================================================================== *)

Module LiveMode.
Import WavCodec.

(** The identity of an object of the platform (a stream, a node, a
    context, a session). *)
Definition Handle : Type := nat.

(** What [onmessage] reads of a [LiveServerMessage]:
    [msg.serverContent?.modelTurn?.parts?.[0]?.inlineData?.data] and
    [msg.serverContent?.interrupted]. *)
Record ServerMessage := {
  inlineData : option string;
  interrupted : bool
}.

(** [if (base64Audio)]: defined and not the empty string. *)
Definition truthy (data : option string) : bool :=
  match data with
  | Some d => negb (bool_decide (d = EmptyString))
  | None => false
  end.

Section Component.

(** [createPcmBlob] of [utils/audioUtils] is not part of the sources at
    hand: the type of its result and the function itself are parameters. *)
Context {Blob : Type}.
Variable createPcmBlob : list Q → Blob.

(** The calls the component makes on its collaborators.  The buffer source
    node an [onmessage] invocation creates is named by the number of that
    invocation's decode call. *)
Inductive Call :=
| Alert (message : string)
| TrackStop (stream : Handle)
| Connect (node : Handle)
| Disconnect (node : Handle)
| Close (ctx : Handle)
| Start (ctx : Handle) (source : nat) (when : Q)
| Stop (source : nat)
| SendRealtimeInput (session : Handle) (media : Blob).

(** [sessionPromise]: pending with the reactions registered by [then], in
    registration order, or fulfilled.  Every reaction of the component is
    [session => session.sendRealtimeInput({ media: pcmBlob })], so a reaction
    is represented by its [pcmBlob]. *)
Inductive Promise :=
| Pending (reactions : list Blob)
| Fulfilled (session : Handle).

(** The component: its React state, its refs, the local [sessionPromise]
    of [startSession], and what the platform holds for it (the invocations
    of [onmessage] that await their decode, the ready promise reactions, the
    calls made so far, the number of objects created). *)
Record State := {
  connected : bool;
  speaking : bool;
  aiSpeaking : bool;
  logs : list string;
  inputAudioContextRef : option Handle;
  outputAudioContextRef : option Handle;
  sessionRef : option Handle;
  streamRef : option Handle;
  processorRef : option Handle;
  sourceRef : option Handle;
  nextStartTimeRef : Q;                  (* the playback cursor *)
  sourcesRef : gset nat;                 (* the active sources *)
  sessionPromise : Promise;
  decodes : nat;                         (* decodeAudioData calls so far *)
  suspended : gmap nat (Handle * ServerMessage);
                    (* by decode call: the captured outputCtx and msg *)
  microtasks : list (Handle * Blob);     (* oldest first *)
  calls : list Call;                     (* oldest first *)
  allocated : nat
}.

Definition set_connected (v : bool) (st : State) : State :=
  {| connected := v; speaking := speaking st; aiSpeaking := aiSpeaking st;
    logs := logs st; inputAudioContextRef := inputAudioContextRef st;
    outputAudioContextRef := outputAudioContextRef st;
    sessionRef := sessionRef st; streamRef := streamRef st;
    processorRef := processorRef st; sourceRef := sourceRef st;
    nextStartTimeRef := nextStartTimeRef st; sourcesRef := sourcesRef st;
    sessionPromise := sessionPromise st; decodes := decodes st;
    suspended := suspended st; microtasks := microtasks st;
    calls := calls st; allocated := allocated st |}.

Definition set_speaking (v : bool) (st : State) : State :=
  {| connected := connected st; speaking := v; aiSpeaking := aiSpeaking st;
    logs := logs st; inputAudioContextRef := inputAudioContextRef st;
    outputAudioContextRef := outputAudioContextRef st;
    sessionRef := sessionRef st; streamRef := streamRef st;
    processorRef := processorRef st; sourceRef := sourceRef st;
    nextStartTimeRef := nextStartTimeRef st; sourcesRef := sourcesRef st;
    sessionPromise := sessionPromise st; decodes := decodes st;
    suspended := suspended st; microtasks := microtasks st;
    calls := calls st; allocated := allocated st |}.

Definition set_aiSpeaking (v : bool) (st : State) : State :=
  {| connected := connected st; speaking := speaking st; aiSpeaking := v;
    logs := logs st; inputAudioContextRef := inputAudioContextRef st;
    outputAudioContextRef := outputAudioContextRef st;
    sessionRef := sessionRef st; streamRef := streamRef st;
    processorRef := processorRef st; sourceRef := sourceRef st;
    nextStartTimeRef := nextStartTimeRef st; sourcesRef := sourcesRef st;
    sessionPromise := sessionPromise st; decodes := decodes st;
    suspended := suspended st; microtasks := microtasks st;
    calls := calls st; allocated := allocated st |}.

Definition set_logs (v : list string) (st : State) : State :=
  {| connected := connected st; speaking := speaking st;
    aiSpeaking := aiSpeaking st; logs := v;
    inputAudioContextRef := inputAudioContextRef st;
    outputAudioContextRef := outputAudioContextRef st;
    sessionRef := sessionRef st; streamRef := streamRef st;
    processorRef := processorRef st; sourceRef := sourceRef st;
    nextStartTimeRef := nextStartTimeRef st; sourcesRef := sourcesRef st;
    sessionPromise := sessionPromise st; decodes := decodes st;
    suspended := suspended st; microtasks := microtasks st;
    calls := calls st; allocated := allocated st |}.

Definition set_inputAudioContextRef (v : option Handle) (st : State) : State :=
  {| connected := connected st; speaking := speaking st;
    aiSpeaking := aiSpeaking st; logs := logs st; inputAudioContextRef := v;
    outputAudioContextRef := outputAudioContextRef st;
    sessionRef := sessionRef st; streamRef := streamRef st;
    processorRef := processorRef st; sourceRef := sourceRef st;
    nextStartTimeRef := nextStartTimeRef st; sourcesRef := sourcesRef st;
    sessionPromise := sessionPromise st; decodes := decodes st;
    suspended := suspended st; microtasks := microtasks st;
    calls := calls st; allocated := allocated st |}.

Definition set_outputAudioContextRef (v : option Handle) (st : State) : State :=
  {| connected := connected st; speaking := speaking st;
    aiSpeaking := aiSpeaking st; logs := logs st;
    inputAudioContextRef := inputAudioContextRef st;
    outputAudioContextRef := v; sessionRef := sessionRef st;
    streamRef := streamRef st; processorRef := processorRef st;
    sourceRef := sourceRef st; nextStartTimeRef := nextStartTimeRef st;
    sourcesRef := sourcesRef st; sessionPromise := sessionPromise st;
    decodes := decodes st; suspended := suspended st;
    microtasks := microtasks st; calls := calls st;
    allocated := allocated st |}.

Definition set_sessionRef (v : option Handle) (st : State) : State :=
  {| connected := connected st; speaking := speaking st;
    aiSpeaking := aiSpeaking st; logs := logs st;
    inputAudioContextRef := inputAudioContextRef st;
    outputAudioContextRef := outputAudioContextRef st; sessionRef := v;
    streamRef := streamRef st; processorRef := processorRef st;
    sourceRef := sourceRef st; nextStartTimeRef := nextStartTimeRef st;
    sourcesRef := sourcesRef st; sessionPromise := sessionPromise st;
    decodes := decodes st; suspended := suspended st;
    microtasks := microtasks st; calls := calls st;
    allocated := allocated st |}.

Definition set_streamRef (v : option Handle) (st : State) : State :=
  {| connected := connected st; speaking := speaking st;
    aiSpeaking := aiSpeaking st; logs := logs st;
    inputAudioContextRef := inputAudioContextRef st;
    outputAudioContextRef := outputAudioContextRef st;
    sessionRef := sessionRef st; streamRef := v;
    processorRef := processorRef st; sourceRef := sourceRef st;
    nextStartTimeRef := nextStartTimeRef st; sourcesRef := sourcesRef st;
    sessionPromise := sessionPromise st; decodes := decodes st;
    suspended := suspended st; microtasks := microtasks st;
    calls := calls st; allocated := allocated st |}.

Definition set_processorRef (v : option Handle) (st : State) : State :=
  {| connected := connected st; speaking := speaking st;
    aiSpeaking := aiSpeaking st; logs := logs st;
    inputAudioContextRef := inputAudioContextRef st;
    outputAudioContextRef := outputAudioContextRef st;
    sessionRef := sessionRef st; streamRef := streamRef st;
    processorRef := v; sourceRef := sourceRef st;
    nextStartTimeRef := nextStartTimeRef st; sourcesRef := sourcesRef st;
    sessionPromise := sessionPromise st; decodes := decodes st;
    suspended := suspended st; microtasks := microtasks st;
    calls := calls st; allocated := allocated st |}.

Definition set_sourceRef (v : option Handle) (st : State) : State :=
  {| connected := connected st; speaking := speaking st;
    aiSpeaking := aiSpeaking st; logs := logs st;
    inputAudioContextRef := inputAudioContextRef st;
    outputAudioContextRef := outputAudioContextRef st;
    sessionRef := sessionRef st; streamRef := streamRef st;
    processorRef := processorRef st; sourceRef := v;
    nextStartTimeRef := nextStartTimeRef st; sourcesRef := sourcesRef st;
    sessionPromise := sessionPromise st; decodes := decodes st;
    suspended := suspended st; microtasks := microtasks st;
    calls := calls st; allocated := allocated st |}.

Definition set_nextStartTimeRef (v : Q) (st : State) : State :=
  {| connected := connected st; speaking := speaking st;
    aiSpeaking := aiSpeaking st; logs := logs st;
    inputAudioContextRef := inputAudioContextRef st;
    outputAudioContextRef := outputAudioContextRef st;
    sessionRef := sessionRef st; streamRef := streamRef st;
    processorRef := processorRef st; sourceRef := sourceRef st;
    nextStartTimeRef := v; sourcesRef := sourcesRef st;
    sessionPromise := sessionPromise st; decodes := decodes st;
    suspended := suspended st; microtasks := microtasks st;
    calls := calls st; allocated := allocated st |}.

Definition set_sourcesRef (v : gset nat) (st : State) : State :=
  {| connected := connected st; speaking := speaking st;
    aiSpeaking := aiSpeaking st; logs := logs st;
    inputAudioContextRef := inputAudioContextRef st;
    outputAudioContextRef := outputAudioContextRef st;
    sessionRef := sessionRef st; streamRef := streamRef st;
    processorRef := processorRef st; sourceRef := sourceRef st;
    nextStartTimeRef := nextStartTimeRef st; sourcesRef := v;
    sessionPromise := sessionPromise st; decodes := decodes st;
    suspended := suspended st; microtasks := microtasks st;
    calls := calls st; allocated := allocated st |}.

Definition set_sessionPromise (v : Promise) (st : State) : State :=
  {| connected := connected st; speaking := speaking st;
    aiSpeaking := aiSpeaking st; logs := logs st;
    inputAudioContextRef := inputAudioContextRef st;
    outputAudioContextRef := outputAudioContextRef st;
    sessionRef := sessionRef st; streamRef := streamRef st;
    processorRef := processorRef st; sourceRef := sourceRef st;
    nextStartTimeRef := nextStartTimeRef st; sourcesRef := sourcesRef st;
    sessionPromise := v; decodes := decodes st; suspended := suspended st;
    microtasks := microtasks st; calls := calls st;
    allocated := allocated st |}.

Definition set_decodes (v : nat) (st : State) : State :=
  {| connected := connected st; speaking := speaking st;
    aiSpeaking := aiSpeaking st; logs := logs st;
    inputAudioContextRef := inputAudioContextRef st;
    outputAudioContextRef := outputAudioContextRef st;
    sessionRef := sessionRef st; streamRef := streamRef st;
    processorRef := processorRef st; sourceRef := sourceRef st;
    nextStartTimeRef := nextStartTimeRef st; sourcesRef := sourcesRef st;
    sessionPromise := sessionPromise st; decodes := v;
    suspended := suspended st; microtasks := microtasks st;
    calls := calls st; allocated := allocated st |}.

Definition set_suspended (v : gmap nat (Handle * ServerMessage)) (st : State) : State :=
  {| connected := connected st; speaking := speaking st;
    aiSpeaking := aiSpeaking st; logs := logs st;
    inputAudioContextRef := inputAudioContextRef st;
    outputAudioContextRef := outputAudioContextRef st;
    sessionRef := sessionRef st; streamRef := streamRef st;
    processorRef := processorRef st; sourceRef := sourceRef st;
    nextStartTimeRef := nextStartTimeRef st; sourcesRef := sourcesRef st;
    sessionPromise := sessionPromise st; decodes := decodes st;
    suspended := v; microtasks := microtasks st; calls := calls st;
    allocated := allocated st |}.

Definition set_microtasks (v : list (Handle * Blob)) (st : State) : State :=
  {| connected := connected st; speaking := speaking st;
    aiSpeaking := aiSpeaking st; logs := logs st;
    inputAudioContextRef := inputAudioContextRef st;
    outputAudioContextRef := outputAudioContextRef st;
    sessionRef := sessionRef st; streamRef := streamRef st;
    processorRef := processorRef st; sourceRef := sourceRef st;
    nextStartTimeRef := nextStartTimeRef st; sourcesRef := sourcesRef st;
    sessionPromise := sessionPromise st; decodes := decodes st;
    suspended := suspended st; microtasks := v; calls := calls st;
    allocated := allocated st |}.

Definition set_calls (v : list Call) (st : State) : State :=
  {| connected := connected st; speaking := speaking st;
    aiSpeaking := aiSpeaking st; logs := logs st;
    inputAudioContextRef := inputAudioContextRef st;
    outputAudioContextRef := outputAudioContextRef st;
    sessionRef := sessionRef st; streamRef := streamRef st;
    processorRef := processorRef st; sourceRef := sourceRef st;
    nextStartTimeRef := nextStartTimeRef st; sourcesRef := sourcesRef st;
    sessionPromise := sessionPromise st; decodes := decodes st;
    suspended := suspended st; microtasks := microtasks st; calls := v;
    allocated := allocated st |}.

Definition set_allocated (v : nat) (st : State) : State :=
  {| connected := connected st; speaking := speaking st;
    aiSpeaking := aiSpeaking st; logs := logs st;
    inputAudioContextRef := inputAudioContextRef st;
    outputAudioContextRef := outputAudioContextRef st;
    sessionRef := sessionRef st; streamRef := streamRef st;
    processorRef := processorRef st; sourceRef := sourceRef st;
    nextStartTimeRef := nextStartTimeRef st; sourcesRef := sourcesRef st;
    sessionPromise := sessionPromise st; decodes := decodes st;
    suspended := suspended st; microtasks := microtasks st;
    calls := calls st; allocated := v |}.

Definition call (c : Call) (st : State) : State :=
  set_calls (calls st ++ [c]) st.

(** ** Promises and microtasks *)

(** [sessionPromise.then(session => session.sendRealtimeInput(...))] *)
Definition promise_then (pcmBlob : Blob) (st : State) : State :=
  match sessionPromise st with
  | Pending reactions => set_sessionPromise (Pending (reactions ++ [pcmBlob])) st
  | Fulfilled session => set_microtasks (microtasks st ++ [(session, pcmBlob)]) st
  end.

(** [resolveSession(session)]: the reactions become ready, in registration
    order; resolving a settled promise does nothing. *)
Definition resolveSession (session : Handle) (st : State) : State :=
  match sessionPromise st with
  | Pending reactions =>
      set_microtasks (microtasks st ++ ((λ b, (session, b)) <$> reactions))
        (set_sessionPromise (Fulfilled session) st)
  | Fulfilled _ => st
  end.

(** The microtask checkpoint at the end of a task: the ready reactions
    run, first in first out. *)
Definition runMicrotasks (st : State) : State :=
  fold_left (λ st job, call (SendRealtimeInput job.1 job.2) st)
            (microtasks st) (set_microtasks [] st).

(** ** The handlers *)

(** [log] (line 24): [setLogs(prev => [...prev.slice(-4), msg])] *)
Definition log (msg : string) (st : State) : State :=
  set_logs (drop (length (logs st) - 4) (logs st) ++ [msg]) st.

(** [stopAll] (lines 26-68).  The code stops the sources in the insertion
    order of the Set, the model in the order of [elements]. *)
Definition stopAll (st : State) : State :=
  let st := match streamRef st with
            | Some stream => set_streamRef None (call (TrackStop stream) st)
            | None => st
            end in
  let st := match processorRef st with
            | Some node => set_processorRef None (call (Disconnect node) st)
            | None => st
            end in
  let st := match sourceRef st with
            | Some node => set_sourceRef None (call (Disconnect node) st)
            | None => st
            end in
  let st := match inputAudioContextRef st with
            | Some ctx => set_inputAudioContextRef None (call (Close ctx) st)
            | None => st
            end in
  let st := set_calls (calls st ++ (Stop <$> elements (sourcesRef st))) st in
  let st := set_sourcesRef ∅ st in
  let st := match outputAudioContextRef st with
            | Some ctx => set_outputAudioContextRef None (call (Close ctx) st)
            | None => st
            end in
  let st := match sessionRef st with
            | Some _ => set_sessionRef None st
            | None => st
            end in
  let st := set_connected false st in
  let st := set_speaking false st in
  set_aiSpeaking false st.

(** [startSession] up to the [await] of [getUserMedia] (lines 70-86);
    [apiKey] tells whether [process.env.API_KEY] is set.  The result tells
    whether the function is suspended. *)
Definition startSession (apiKey : bool) (st : State) : State * bool :=
  if negb apiKey then (call (Alert "API Key missing") st, false)
  else
    let st := set_connected true st in
    let st := log "Initializing audio contexts..." st in
    let st := set_allocated (S (allocated st))
                (set_inputAudioContextRef (Some (allocated st)) st) in
    let st := set_allocated (S (allocated st))
                (set_outputAudioContextRef (Some (allocated st)) st) in
    let st := log "Requesting microphone..." st in
    (st, true).

(** [getUserMedia] returned (lines 87-95): a new [sessionPromise] is
    created and the connection is requested.  The component is modelled
    with the promise of one session at a time, as it is meant to be used;
    the promise of an older session, which the code keeps alive in the
    closures of that session, is forgotten here. *)
Definition getUserMedia_returned (stream : Handle) (st : State) : State :=
  let st := set_streamRef (Some stream) st in
  let st := log "Connecting to Gemini Live..." st in
  set_sessionPromise (Pending []) st.

(** [connectionPromise] was fulfilled (lines 192-194). *)
Definition connect_returned (session : Handle) (st : State) : State :=
  let st := set_sessionRef (Some session) st in
  resolveSession session st.

(** The [catch] block of [startSession] (lines 196-200). *)
Definition startSession_threw (st : State) : State :=
  let st := log "Failed to start session." st in
  set_connected false st.

(** [onopen] (lines 98-128). *)
Definition onopen (st : State) : State :=
  let st := log "Connected! Start talking." st in
  match inputAudioContextRef st with
  | None => st
  | Some _ =>
      let source := allocated st in
      let st := set_allocated (S source) (set_sourceRef (Some source) st) in
      let processor := allocated st in
      let st := set_allocated (S processor)
                  (set_processorRef (Some processor) st) in
      let st := call (Connect source) st in
      call (Connect processor) st
  end.

(** The sum of squares accumulated by the loop of line 115. *)
Definition sumSquares (inputData : list Q) : Q :=
  fold_left (λ sum x, sum + x * x)%Q inputData 0%Q.

(** [Math.sqrt(sum / inputData.length) > 0.02], decided on the squares; for
    an empty frame the quotient is NaN in the code and 0 here, and the
    comparison is false in both. *)
Definition rmsAbove (inputData : list Q) : bool :=
  match (1 # 50) * (1 # 50) ?= sumSquares inputData / inject_Z (Z.of_nat (length inputData)) with
  | Lt => true
  | _ => false
  end%Q.

(** [processor.onaudioprocess] (lines 110-124). *)
Definition onaudioprocess (inputData : list Q) (st : State) : State :=
  let st := set_speaking (rmsAbove inputData) st in
  let pcmBlob := createPcmBlob inputData in
  promise_then pcmBlob st.

(** The interruption branch of [onmessage] (lines 163-171). *)
Definition handleInterruption (msg : ServerMessage) (st : State) : State :=
  if interrupted msg then
    let st := log "Interrupted!" st in
    let st := set_calls (calls st ++ (Stop <$> elements (sourcesRef st))) st in
    let st := set_sourcesRef ∅ st in
    let st := set_nextStartTimeRef 0%Q st in
    set_aiSpeaking false st
  else st.

(** [onmessage] up to the [await] of [decodeAudioData] (lines 129-146), or
    to its end when the message carries no audio; [currentTime] is
    [outputCtx.currentTime]. *)
Definition onmessage (currentTime : Q) (msg : ServerMessage) (st : State)
  : State :=
  match outputAudioContextRef st with
  | None => st
  | Some outputCtx =>
      if truthy (inlineData msg) then
        let st := set_aiSpeaking true st in
        let st := set_nextStartTimeRef
                    (Qmax (nextStartTimeRef st) currentTime) st in
        let ticket := decodes st in
        set_decodes (S ticket)
          (set_suspended (<[ticket := (outputCtx, msg)]> (suspended st)) st)
      else handleInterruption msg st
  end.

(** The rest of an [onmessage] invocation, once its [decodeAudioData]
    returned [audioBuffer] (lines 148-171).  Of the new source only its
    [start] is recorded; its [ended] listener is the handler [ended]. *)
Definition decode_returned (ticket : nat) (audioBuffer : AudioBuffer)
    (st : State) : State :=
  match suspended st !! ticket with
  | None => st
  | Some (outputCtx, msg) =>
      let st := set_suspended (delete ticket (suspended st)) st in
      let st := call (Start outputCtx ticket (nextStartTimeRef st)) st in
      let st := set_nextStartTimeRef
                  (nextStartTimeRef st + duration audioBuffer)%Q st in
      let st := set_sourcesRef ({[ticket]} ∪ sourcesRef st) st in
      handleInterruption msg st
  end.

(** [decodeAudioData] rejected: the invocation ends there. *)
Definition decode_threw (ticket : nat) (st : State) : State :=
  set_suspended (delete ticket (suspended st)) st.

(** The [ended] listener of a source (lines 152-155). *)
Definition ended (source : nat) (st : State) : State :=
  let st := set_sourcesRef (sourcesRef st ∖ {[source]}) st in
  if decide (size (sourcesRef st) = 0%nat) then set_aiSpeaking false st else st.

(** [onclose] and [onerror] (lines 173-181). *)
Definition onclose (st : State) : State := stopAll (log "Connection closed." st).
Definition onerror (st : State) : State := stopAll (log "Error occurred." st).

(** ** The event loop *)

(** The tasks of the component: a callback invocation or the resumption of
    a suspended function. *)
Inductive Event :=
| StartSession (apiKey : bool)
| GetUserMediaReturned (stream : Handle)
| ConnectReturned (session : Handle)
| StartSessionThrew
| OnOpen
| OnAudioProcess (inputData : list Q)
| OnMessage (currentTime : Q) (msg : ServerMessage)
| DecodeReturned (ticket : nat) (audioBuffer : AudioBuffer)
| DecodeThrew (ticket : nat)
| Ended (source : nat)
| OnClose
| OnError
| StopAll.        (* the End Session button, the unmount cleanup *)

Definition handle (e : Event) (st : State) : State :=
  match e with
  | StartSession apiKey => (startSession apiKey st).1
  | GetUserMediaReturned stream => getUserMedia_returned stream st
  | ConnectReturned session => connect_returned session st
  | StartSessionThrew => startSession_threw st
  | OnOpen => onopen st
  | OnAudioProcess inputData => onaudioprocess inputData st
  | OnMessage currentTime msg => onmessage currentTime msg st
  | DecodeReturned ticket audioBuffer => decode_returned ticket audioBuffer st
  | DecodeThrew ticket => decode_threw ticket st
  | Ended source => ended source st
  | OnClose => onclose st
  | OnError => onerror st
  | StopAll => stopAll st
  end.

(** One task: the handler, then the microtask checkpoint. *)
Definition step (e : Event) (st : State) : State := runMicrotasks (handle e st).

Definition run (es : list Event) (st : State) : State :=
  fold_left (λ st e, step e st) es st.

(** The component as it mounts. *)
Definition initialState : State :=
  {| connected := false; speaking := false; aiSpeaking := false; logs := [];
     inputAudioContextRef := None; outputAudioContextRef := None;
     sessionRef := None; streamRef := None; processorRef := None;
     sourceRef := None; nextStartTimeRef := 0%Q; sourcesRef := ∅;
     sessionPromise := Pending []; decodes := 0%nat; suspended := ∅;
     microtasks := []; calls := []; allocated := 0%nat |}.

(** The sources started, with their start times, in call order. *)
Definition starts (cs : list Call) : list (nat * Q) :=
  omap (λ c, match c with
             | Start _ source when => Some (source, when)
             | _ => None
             end) cs.

(** The media handed to [sendRealtimeInput], in call order. *)
Definition sent (cs : list Call) : list (Handle * Blob) :=
  omap (λ c, match c with
             | SendRealtimeInput session media => Some (session, media)
             | _ => None
             end) cs.

(** A chunk received and decoded before the next task: the [onmessage]
    invocation, then its resumption. *)
Definition receive (chunk : Q * ServerMessage * AudioBuffer) (st : State)
  : State :=
  step (DecodeReturned (decodes st) chunk.2) (step (OnMessage chunk.1.1 chunk.1.2) st).

Definition receiveAll (chunks : list (Q * ServerMessage * AudioBuffer))
    (st : State) : State :=
  fold_left (λ st chunk, receive chunk st) chunks st.

(** An audio chunk that carries no interruption. *)
Definition audioChunk (msg : ServerMessage) : Prop :=
  truthy (inlineData msg) = true ∧ interrupted msg = false.

(** An event of a stream of audio chunks: a message with audio and no
    interruption that arrives while the clock reads 0, or the return of a
    decode. *)
Definition chunkEvent (e : Event) : Prop :=
  match e with
  | OnMessage currentTime msg => (currentTime == 0)%Q ∧ audioChunk msg
  | DecodeReturned _ _ => True
  | _ => False
  end.

(** The decodes that return in a run, in the order in which they return:
    the source each one gives and its buffer. *)
Definition decoded (es : list Event) : list (nat * AudioBuffer) :=
  omap (λ e, match e with
             | DecodeReturned ticket audioBuffer => Some (ticket, audioBuffer)
             | _ => None
             end) es.

(** What the platform guarantees of the decodes of a run: each one that
    returns was called by an invocation of [onmessage] that still awaits
    it.  [pending] are the decode calls awaited, [next] is the number of
    the next decode call. *)
Fixpoint awaited (pending : gset nat) (next : nat) (es : list Event) : bool :=
  match es with
  | [] => true
  | OnMessage _ _ :: es => awaited ({[next]} ∪ pending) (S next) es
  | DecodeReturned ticket _ :: es =>
      bool_decide (ticket ∈ pending) && awaited (pending ∖ {[ticket]}) next es
  | _ :: es => awaited pending next es
  end.

(** No interruption: in an event, and in the invocations suspended in a
    state. *)
Definition quietEvent (e : Event) : Prop :=
  match e with
  | OnMessage _ msg => interrupted msg = false
  | _ => True
  end.

Definition quietState (st : State) : Prop :=
  map_Forall (λ _ waiting, interrupted waiting.2 = false) (suspended st).

End Component.

(** The sum of a list of durations. *)
Definition Qsum (ds : list Q) : Q := fold_right Qplus 0%Q ds.

End LiveMode.

(* ===================================================================== *)
(** * Concrete runs of the live session *)
(* ===================================================================== *)

(** A stand-in for [createPcmBlob]: the blob is the frame itself. *)
Abbreviation frameBlob := (λ inputData : list Q, inputData).

(** Two messages with audio and no interruption, and the half-second buffer
    their payloads decode to. *)
Definition msgA : LiveMode.ServerMessage :=
  {| LiveMode.inlineData := Some "QUJD"; LiveMode.interrupted := false |}.
Definition msgB : LiveMode.ServerMessage :=
  {| LiveMode.inlineData := Some "REVG"; LiveMode.interrupted := false |}.
Definition halfSecond : WavCodec.AudioBuffer :=
  {| WavCodec.sampleRate := 24000; WavCodec.bufLength := Z.to_nat 12000;
     WavCodec.channelData := [replicate (Z.to_nat 12000) 0%Q] |}.
Definition tenSeconds : WavCodec.AudioBuffer :=
  {| WavCodec.sampleRate := 24000; WavCodec.bufLength := Z.to_nat 240000;
     WavCodec.channelData := [replicate (Z.to_nat 240000) 0%Q] |}.

(** The tasks that open a session. *)
Definition openSession (stream session : LiveMode.Handle)
  : list LiveMode.Event :=
  [LiveMode.StartSession true; LiveMode.GetUserMediaReturned stream;
   LiveMode.OnOpen; LiveMode.ConnectReturned session].

(** A session that is open, before any message. *)
Definition sessionOpen : @LiveMode.State (list Q) :=
  LiveMode.run frameBlob (openSession 100%nat 200%nat) LiveMode.initialState.

(** A session in which both messages arrived and neither is decoded yet. *)
Definition bothArrived : @LiveMode.State (list Q) :=
  LiveMode.run frameBlob
    (openSession 100%nat 200%nat
     ++ [LiveMode.OnMessage 0 msgA; LiveMode.OnMessage 0 msgB])
    LiveMode.initialState.

(** A first session that scheduled ten seconds of audio, torn down. *)
Definition afterFirstSession : @LiveMode.State (list Q) :=
  LiveMode.run frameBlob
    (openSession 100%nat 200%nat
     ++ [LiveMode.OnMessage 0 msgA; LiveMode.DecodeReturned 0 tenSeconds])
    LiveMode.initialState.

(* ===================================================================== *)
(** * Further concrete inputs *)
(* ===================================================================== *)

(** The mounted component once the user has switched to offline mode, with
    English still selected: its pack is downloaded. *)
Definition offlineEnglish : TTSMode.State :=
  {| TTSMode.text := TTSMode.ofAscii "Hello";
     TTSMode.selectedLang := TTSMode.ENGLISH;
     TTSMode.loading := false; TTSMode.error := None;
     TTSMode.audioUrl := None; TTSMode.isOfflineMode := true;
     TTSMode.playbackSpeed := 1;
     TTSMode.selectedVoiceId := TTSMode.LANGUAGE_VOICE_MAP TTSMode.ENGLISH;
     TTSMode.offlinePacks := TTSMode.INITIAL_OFFLINE_PACKS;
     TTSMode.isPlaying := false; TTSMode.audioContextRef := false;
     TTSMode.audioRef := Some {| TTSMode.paused := true;
                                 TTSMode.currentTime := 0 |};
     TTSMode.speechSynthesis := []; TTSMode.generateContent := [] |}.

(** Two texts, and a text of white space: a space, a no-break space, a
    line separator and an ideographic space. *)
Definition hello : TTSMode.JSString := TTSMode.ofAscii "Hello".
Definition hallo : TTSMode.JSString := TTSMode.ofAscii "Hallo".
Definition blankText : TTSMode.JSString := [0x20; 0xA0; 0x2028; 0x3000]%N.

(** The packs of English and of Afrikaans as the component mounts. *)
Definition pack_en : TTSMode.OfflinePack :=
  {| TTSMode.pack_id := "pack_en"; TTSMode.language := TTSMode.ENGLISH;
     TTSMode.localeCode := "en-ZA"; TTSMode.pack_size := "45 MB";
     TTSMode.downloaded := true |}.
Definition pack_af : TTSMode.OfflinePack :=
  {| TTSMode.pack_id := "pack_af"; TTSMode.language := TTSMode.AFRIKAANS;
     TTSMode.localeCode := "af-ZA"; TTSMode.pack_size := "38 MB";
     TTSMode.downloaded := false |}.

(** A mono buffer of 46 frames: silence, then one sample of -1/4 in frame
    45. *)
Definition lastFrameQuarter : WavCodec.AudioBuffer :=
  {| WavCodec.sampleRate := 24000; WavCodec.bufLength := 46;
     WavCodec.channelData := [replicate 45 0%Q ++ [-(1 # 4)]%Q] |}.

(** A message that carries the interrupted signal and no audio. *)
Definition interruption : LiveMode.ServerMessage :=
  {| LiveMode.inlineData := None; LiveMode.interrupted := true |}.

(** The session of [bothArrived] once both decodes returned: two sources
    are active. *)
Definition bothPlaying : @LiveMode.State (list Q) :=
  LiveMode.run frameBlob
    [LiveMode.DecodeReturned 0 halfSecond; LiveMode.DecodeReturned 1 halfSecond]
    bothArrived.

(* ===================================================================== *)
(** * Properties of the WAV writer *)
(* ===================================================================== *)

Section WavCodecFacts.
Import WavCodec.

(** ** Bytes and fields *)

Lemma byteAt_div (v k : Z) : 0 ≤ k → byteAt v k = (v / 2 ^ (8 * k)) mod 256.
Proof.
  intros Hk. unfold byteAt.
  rewrite Z.shiftr_div_pow2 by lia.
  change 255 with (Z.ones 8). rewrite Z.land_ones by lia. reflexivity.
Qed.

Lemma le16_value (v : Z) :
  byteAt v 0 + 256 * byteAt v 1 = v mod 65536.
Proof.
  rewrite !byteAt_div by lia. simpl (2 ^ _).
  Z.to_euclidean_division_equations. lia.
Qed.

Lemma le32_value (v : Z) :
  byteAt v 0 + 256 * byteAt v 1 + 65536 * byteAt v 2 + 16777216 * byteAt v 3
  = v mod 4294967296.
Proof.
  rewrite !byteAt_div by lia. simpl (2 ^ _).
  Z.to_euclidean_division_equations. lia.
Qed.

Lemma byteAt_range (v k : Z) : 0 ≤ k → 0 ≤ byteAt v k < 256.
Proof. intros Hk. rewrite byteAt_div by lia. apply Z.mod_pos_bound. lia. Qed.

(** ** Writes through the DataView *)

Lemma store_length (view : list Z) pos bytes view' :
  store view pos bytes = Some view' → length view' = length view.
Proof.
  unfold store, splice. case_decide; [|done]. intros [= <-].
  rewrite !length_app, length_take, length_drop. lia.
Qed.

(** A write inside a prefix [hd] of the view. *)
Lemma store_app (hd rest : list Z) pos bytes :
  (pos + length bytes ≤ length hd)%nat →
  store (hd ++ rest) pos bytes
  = Some ((take pos hd ++ bytes ++ drop (pos + length bytes) hd) ++ rest).
Proof.
  intros H. unfold store, splice.
  rewrite decide_True by (rewrite length_app; lia).
  rewrite take_app_le by lia. rewrite drop_app_le by lia.
  by rewrite <- !app_assoc.
Qed.

Local Arguments byteAt : simpl never.

(** The header writers on a fresh view: the header, and [pos = 44]. *)
Lemma writeHeader_fresh (numOfChan : nat) (sr : Z) (len : nat) (rest : list Z) :
  writeHeader numOfChan sr len (replicate 44 0 ++ rest, 0%nat)
  = Some (wavHeader numOfChan sr len ++ rest, 44%nat).
Proof.
  unfold writeHeader, setUint32, setUint16, DataView_setUint32,
    DataView_setUint16.
  repeat (cbn [fst snd mbind option_bind];
          rewrite store_app by (cbn; lia);
          cbn [fst snd mbind option_bind take drop app length Nat.add
               replicate]).
  reflexivity.
Qed.

(** ** The data loop *)

Lemma store_splice (view : list Z) k bytes :
  (k + length bytes ≤ length view)%nat →
  store view k bytes = Some (splice view k bytes).
Proof. intros H. unfold store. by rewrite decide_True. Qed.

Lemma length_splice (view : list Z) k bytes :
  (k + length bytes ≤ length view)%nat →
  length (splice view k bytes) = length view.
Proof.
  intros H. unfold splice. rewrite !length_app, length_take, length_drop. lia.
Qed.

Lemma splice_nil (view : list Z) k : splice view k [] = view.
Proof. unfold splice. cbn. rewrite Nat.add_0_r. apply take_drop. Qed.

(** Two writes one after the other are one write. *)
Lemma splice_splice (view : list Z) k bytes1 bytes2 :
  (k + length bytes1 + length bytes2 ≤ length view)%nat →
  splice (splice view k bytes1) (k + length bytes1) bytes2
  = splice view k (bytes1 ++ bytes2).
Proof.
  intros H. unfold splice.
  assert (Hk : length (take k view) = k) by (rewrite length_take; lia).
  rewrite (app_assoc (take k view) bytes1).
  rewrite take_app_length' by (rewrite length_app; lia).
  rewrite drop_app_ge by (rewrite length_app; lia).
  rewrite length_app, Hk.
  replace (k + length bytes1 + length bytes2 - (k + length bytes1))%nat
    with (length bytes2) by lia.
  rewrite drop_drop, length_app, <- !app_assoc.
  do 4 f_equal. lia.
Qed.

Lemma writeSample_splice (abuffer : AudioBuffer) pos i (view : list Z) offset :
  (i < numberOfChannels abuffer)%nat →
  (44 + offset + 2 ≤ length view)%nat →
  writeSample abuffer pos i (view, offset)
  = Some (splice view (44 + offset) (le16 (sampleAt abuffer pos i)),
          (offset + 2)%nat).
Proof.
  intros Hi Hfit. unfold writeSample, sampleAt, getChannelData.
  destruct (lookup_lt_is_Some_2 (channelData abuffer) i Hi) as [ch ->].
  cbn [fst snd]. unfold DataView_setInt16.
  by rewrite store_splice by (cbn; lia).
Qed.

Lemma writeFrame_splice (abuffer : AudioBuffer) pos (chans : list nat) :
  Forall (λ i, i < numberOfChannels abuffer)%nat chans →
  ∀ (view : list Z) offset,
  (44 + offset + 2 * length chans ≤ length view)%nat →
  forM (writeSample abuffer pos) chans (view, offset)
  = Some (splice view (44 + offset) (frameBytes abuffer pos chans),
          (offset + 2 * length chans)%nat).
Proof.
  induction 1 as [|i chans Hi _ IH]; intros view offset Hfit.
  - cbn [forM length]. change (frameBytes abuffer pos []) with (@nil Z).
    by rewrite splice_nil, Nat.mul_0_r, Nat.add_0_r.
  - cbn [length] in Hfit. cbn [forM].
    rewrite writeSample_splice by (done || lia).
    rewrite IH by (rewrite length_splice; cbn; lia).
    unfold frameBytes. rewrite bind_cons.
    replace (44 + (offset + 2))%nat
      with (44 + offset + length (le16 (sampleAt abuffer pos i)))%nat
      by (cbn; lia).
    rewrite splice_splice.
    + f_equal. f_equal. cbn [length]. lia.
    + fold (frameBytes abuffer pos chans).
      assert (length (frameBytes abuffer pos chans) = (2 * length chans)%nat)
        as ->; [|cbn; lia].
      clear. induction chans as [|j chans IH]; [done|].
      unfold frameBytes in *. rewrite bind_cons, length_app, IH. cbn. lia.
Qed.

Lemma length_frameBytes (abuffer : AudioBuffer) pos (chans : list nat) :
  length (frameBytes abuffer pos chans) = (2 * length chans)%nat.
Proof.
  induction chans as [|j chans IH]; [done|].
  unfold frameBytes in *. rewrite bind_cons, length_app, IH. cbn. lia.
Qed.

Lemma length_dataBytes (abuffer : AudioBuffer) (frames : list nat) :
  length (dataBytes abuffer frames)
  = (2 * numberOfChannels abuffer * length frames)%nat.
Proof.
  induction frames as [|pos frames IH]; [cbn; lia|].
  unfold dataBytes in *. rewrite bind_cons, length_app, IH.
  rewrite length_frameBytes, length_seq. cbn [length]. lia.
Qed.

Lemma writeFrames_splice (abuffer : AudioBuffer) (frames : list nat) :
  ∀ (view : list Z) offset,
  (44 + offset + 2 * numberOfChannels abuffer * length frames ≤ length view)%nat →
  ∃ offset',
    forM (writeFrame abuffer (numberOfChannels abuffer)) frames (view, offset)
    = Some (splice view (44 + offset) (dataBytes abuffer frames), offset').
Proof.
  induction frames as [|pos frames IH]; intros view offset Hfit.
  - exists offset. cbn [forM]. change (dataBytes abuffer []) with (@nil Z).
    by rewrite splice_nil.
  - cbn [length] in Hfit. cbn [forM]. unfold writeFrame at 1.
    rewrite writeFrame_splice.
    2:{ apply Forall_forall. intros i Hi. apply elem_of_seq in Hi. lia. }
    2:{ rewrite length_seq. nia. }
    rewrite length_seq.
    destruct (IH (splice view (44 + offset)
                    (frameBytes abuffer pos (seq 0 (numberOfChannels abuffer))))
                 (offset + 2 * numberOfChannels abuffer)%nat)
      as (offset' & ->).
    { rewrite length_splice; rewrite ?length_frameBytes, ?length_seq; nia. }
    exists offset'. f_equal. f_equal.
    replace (dataBytes abuffer (pos :: frames))
      with (frameBytes abuffer pos (seq 0 (numberOfChannels abuffer))
            ++ dataBytes abuffer frames) by done.
    rewrite <- splice_splice
      by (rewrite length_frameBytes, length_seq, length_dataBytes; nia).
    rewrite length_frameBytes, length_seq. f_equal; lia.
Qed.

(** What [bufferToWav] returns, byte for byte: the header, the frames from
    frame 44 on (the [while] loop starts at the [pos] the header writers
    left), and zeros for the rest of the ArrayBuffer. *)
Lemma bufferToWav_bytes (abuffer : AudioBuffer) (sr : Z) :
  (1 ≤ numberOfChannels abuffer)%nat →
  let n := bufLength abuffer in
  let c := numberOfChannels abuffer in
  bufferToWav abuffer sr
  = Some (wavHeader c sr (n * c * 2 + 44)
          ++ dataBytes abuffer (seq 44 (n - 44))
          ++ replicate (2 * c * (n `min` 44)) 0).
Proof.
  intros Hc n c. unfold bufferToWav.
  destruct (lookup_lt_is_Some_2 (channelData abuffer) 0) as [ch Hch];
    [exact Hc|].
  unfold getChannelData. rewrite Hch. cbn [mbind option_bind].
  fold n c.
  replace (replicate (n * c * 2 + 44) 0)
    with (replicate 44 0 ++ replicate (n * c * 2) 0)
    by (rewrite <- replicate_add; f_equal; lia).
  rewrite writeHeader_fresh. cbn [mbind option_bind fst snd].
  destruct (writeFrames_splice abuffer (seq 44 (n - 44))
              (wavHeader c sr (n * c * 2 + 44) ++ replicate (n * c * 2) 0)
              0%nat) as (offset & Hrun).
  { rewrite length_app, length_replicate, length_seq. fold c.
    cbn [length wavHeader le32 le16 app]. nia. }
  fold c in Hrun. rewrite Hrun. cbn [mbind option_bind fst]. f_equal.
  unfold splice. rewrite Nat.add_0_r.
  rewrite take_app_length' by done.
  rewrite drop_app_ge by (cbn [length wavHeader le32 le16 app]; lia).
  rewrite drop_replicate, length_dataBytes, length_seq. fold c.
  do 3 f_equal. cbn [length wavHeader le32 le16 app]. nia.
Qed.

(** [bufferToWav] returns for every buffer with a channel; its result has
    the length of the ArrayBuffer and starts with the header. *)
Lemma bufferToWav_header (abuffer : AudioBuffer) (sr : Z) :
  (1 ≤ numberOfChannels abuffer)%nat →
  ∃ out, bufferToWav abuffer sr = Some out
    ∧ length out = (44 + bufLength abuffer * numberOfChannels abuffer * 2)%nat
    ∧ take 44 out
      = wavHeader (numberOfChannels abuffer) sr
          (bufLength abuffer * numberOfChannels abuffer * 2 + 44).
Proof.
  intros Hc. rewrite bufferToWav_bytes by done. cbv zeta.
  eexists. split; [done|]. split.
  - rewrite !length_app, length_replicate, length_dataBytes, length_seq.
    cbn [length wavHeader le32 le16 app]. nia.
  - by rewrite take_app_length'.
Qed.

(** Every byte of the result is a byte. *)
Lemma bufferToWav_bytes_range (abuffer : AudioBuffer) (sr : Z) (out : list Z) :
  bufferToWav abuffer sr = Some out → Forall (λ b, 0 ≤ b < 256) out.
Proof.
  destruct (decide (1 ≤ numberOfChannels abuffer)%nat) as [Hc|Hc].
  - rewrite bufferToWav_bytes by done. cbv zeta. intros [= <-].
    repeat (constructor; [apply byteAt_range; lia|]).
    rewrite Forall_app. split.
    + unfold dataBytes, frameBytes.
      apply Forall_bind, Forall_true. intros pos.
      apply Forall_bind, Forall_true. intros i.
      unfold le16. repeat (constructor; [apply byteAt_range; lia|]).
      constructor.
    + apply Forall_replicate. lia.
  - unfold bufferToWav, getChannelData, numberOfChannels in *.
    destruct (channelData abuffer); [done|cbn in Hc; lia].
Qed.

(** ** Reading the header back *)

Lemma getUint16_take (view : list Z) p k :
  (p + 2 ≤ k)%nat → getUint16 (take k view) p = getUint16 view p.
Proof.
  intros H. unfold getUint16. by rewrite !lookup_take_lt by lia.
Qed.

Lemma getUint32_take (view : list Z) p k :
  (p + 4 ≤ k)%nat → getUint32 (take k view) p = getUint32 view p.
Proof.
  intros H. unfold getUint32. by rewrite !lookup_take_lt by lia.
Qed.

(** The fields of the header, modulo the width of each. *)
Lemma wavHeader_fields (numOfChan : nat) (sr : Z) (len : nat) :
  let h := wavHeader numOfChan sr len in
  getUint32 h 0 = Some 0x46464952 ∧
  getUint32 h 4 = Some ((Z.of_nat len - 8) mod 2 ^ 32) ∧
  getUint32 h 8 = Some 0x45564157 ∧
  getUint32 h 12 = Some 0x20746d66 ∧
  getUint32 h 16 = Some 16 ∧
  getUint16 h 20 = Some 1 ∧
  getUint16 h 22 = Some (Z.of_nat numOfChan mod 2 ^ 16) ∧
  getUint32 h 24 = Some (sr mod 2 ^ 32) ∧
  getUint32 h 28 = Some ((sr * 2 * Z.of_nat numOfChan) mod 2 ^ 32) ∧
  getUint16 h 32 = Some ((Z.of_nat numOfChan * 2) mod 2 ^ 16) ∧
  getUint16 h 34 = Some 16 ∧
  getUint32 h 36 = Some 0x61746164 ∧
  getUint32 h 40 = Some ((Z.of_nat len - 44) mod 2 ^ 32).
Proof.
  cbn -[Z.mul Z.add Z.sub Z.of_nat Z.pow Z.modulo].
  rewrite !le32_value, !le16_value.
  replace (Z.of_nat len - 40 - 4) with (Z.of_nat len - 44) by lia.
  repeat split.
Qed.

(** C5. For every audio buffer with n samples per channel and c channels
    (at least one, as the platform guarantees), whose header fields fit the
    widths the RIFF format gives them, [bufferToWav] returns exactly
    44 + n * c * 2 bytes, and the header holds the PCM format code 1, the
    channel count, the sample rate, the byte rate sampleRate * c * 2, the
    block align c * 2, 16 bits per sample and a data chunk of declared
    length n * c * 2. *)
Theorem C5_bufferToWav_length_and_header (abuffer : AudioBuffer) (sr : Z) :
  let n := Z.of_nat (bufLength abuffer) in
  let c := Z.of_nat (numberOfChannels abuffer) in
  1 ≤ c → c * 2 < 2 ^ 16 →
  0 ≤ sr → sr * c * 2 < 2 ^ 32 → n * c * 2 < 2 ^ 32 →
  ∃ out, bufferToWav abuffer sr = Some out
    ∧ Z.of_nat (length out) = 44 + n * c * 2
    ∧ getUint16 out 20 = Some 1
    ∧ getUint16 out 22 = Some c
    ∧ getUint32 out 24 = Some sr
    ∧ getUint32 out 28 = Some (sr * c * 2)
    ∧ getUint16 out 32 = Some (c * 2)
    ∧ getUint16 out 34 = Some 16
    ∧ getUint32 out 36 = Some 0x61746164
    ∧ getUint32 out 40 = Some (n * c * 2).
Proof.
  intros n c Hc Hc16 Hsr Hrate Hdata.
  destruct (bufferToWav_header abuffer sr) as (out & Hout & Hlen & Hhdr);
    [lia|].
  exists out. split; [done|]. split; [rewrite Hlen; lia|].
  pose proof (wavHeader_fields (numberOfChannels abuffer) sr
                (bufLength abuffer * numberOfChannels abuffer * 2 + 44))
    as Hf.
  cbv zeta in Hf. rewrite <- Hhdr in Hf.
  rewrite !getUint16_take, !getUint32_take in Hf by lia.
  destruct Hf as (_ & _ & _ & _ & _ & H20 & H22 & H24 & H28 & H32 & H34
                  & H36 & H40).
  rewrite H20, H22, H24, H28, H32, H34, H36, H40.
  fold c.
  replace (Z.of_nat (bufLength abuffer * numberOfChannels abuffer * 2 + 44) - 44)
    with (n * c * 2) by lia.
  replace (sr * 2 * c) with (sr * c * 2) by lia.
  rewrite !Z.mod_small by lia.
  repeat split.
Qed.

(** The claim at a mono buffer of three samples at 24 kHz. *)
Lemma C5_bufferToWav_length_and_header_witness :
  ∃ out, bufferToWav {| sampleRate := 24000; bufLength := 3;
                        channelData := [[0; 1 # 2; -1]%Q] |} 24000 = Some out
    ∧ Z.of_nat (length out) = 44 + 3 * 1 * 2
    ∧ getUint16 out 20 = Some 1
    ∧ getUint16 out 22 = Some 1
    ∧ getUint32 out 24 = Some 24000
    ∧ getUint32 out 28 = Some (24000 * 1 * 2)
    ∧ getUint16 out 32 = Some (1 * 2)
    ∧ getUint16 out 34 = Some 16
    ∧ getUint32 out 36 = Some 0x61746164
    ∧ getUint32 out 40 = Some (3 * 1 * 2).
Proof.
  apply (C5_bufferToWav_length_and_header
           {| sampleRate := 24000; bufLength := 3;
              channelData := [[0; 1 # 2; -1]%Q] |} 24000);
    vm_compute; congruence.
Defined.

(** ** The quantisation of a sample *)

Lemma clamp_range (x : Q) : (-1 <= clamp x <= 1)%Q.
Proof.
  unfold clamp. split; [apply Q.le_max_l|].
  apply Q.max_lub; [lra|apply Q.le_min_l].
Qed.

Lemma scaleSample_range (s : Q) :
  (-1 <= s <= 1)%Q → (-32768 <= scaleSample s <= 32767)%Q.
Proof.
  intros H. unfold scaleSample.
  destruct (Qcompare_spec ((1 # 2) + s) 0); lra.
Qed.

Lemma Qtruncate_range (q : Q) (a b : Z) :
  a ≤ 0 ≤ b → (inject_Z a <= q <= inject_Z b)%Q → a ≤ Qtruncate q ≤ b.
Proof.
  destruct q as [n d]. unfold Qtruncate, Qle. cbn [Qnum Qden inject_Z].
  intros Hab H. Z.to_euclidean_division_equations. nia.
Qed.

(** The value stored for a sample is the truncation of the scaled clamped
    sample ([| 0] does not wrap), and it fits 16 bits. *)
Lemma quantize_range (x : Q) :
  quantize x = Qtruncate (scaleSample (clamp x))
  ∧ -32768 ≤ quantize x ≤ 32767.
Proof.
  pose proof (Qtruncate_range (scaleSample (clamp x)) (-32768) 32767) as H.
  destruct H as [H1 H2]; [lia|apply scaleSample_range, clamp_range|].
  unfold quantize, ToInt32. split.
  - rewrite Z.mod_small by lia. lia.
  - rewrite Z.mod_small by lia. lia.
Qed.

(** A 16-bit value written by [setInt16] reads back unchanged. *)
Lemma setInt16_getInt16 (view view' : list Z) (pos : nat) (v : Z) :
  -32768 ≤ v ≤ 32767 →
  DataView_setInt16 view pos v = Some view' → getInt16 view' pos = Some v.
Proof.
  intros Hv. unfold DataView_setInt16, store, splice.
  case_decide as Hfit; [|done].
  intros [= <-]. cbn [length] in Hfit.
  unfold getInt16, getUint16.
  rewrite !lookup_app_r by (rewrite length_take; lia).
  rewrite !length_take.
  replace (pos - pos `min` length view)%nat with 0%nat by lia.
  replace (S pos - pos `min` length view)%nat with 1%nat by lia.
  cbn [lookup list_lookup app]. rewrite le16_value. f_equal.
  case_decide; Z.to_euclidean_division_equations; lia.
Qed.

(** The code and the wording agree on the samples that are not in
    [-1/2, 0). *)
Lemma quantize_agrees (x : Q) :
  (clamp x < -(1 # 2) ∨ 0 <= clamp x)%Q → quantize x = spec_quantize x.
Proof.
  intros H. unfold quantize, spec_quantize, scaleSample, spec_scaleSample.
  destruct (Qcompare_spec ((1 # 2) + clamp x) 0);
    destruct (Qcompare_spec (clamp x) 0); try reflexivity; lra.
Qed.

(** C4, at the sample -0.25. The clamped sample is negative, so the wording
    scales it by 32768 to -8192; the code tests [0.5 + sample < 0], scales
    it by 32767 and stores -8191 (bytes 01 E0): in a mono buffer of 45
    samples, where it is the one sample the data loop writes. *)
Theorem C4_quantize_quarter :
  clamp (-(1 # 4)) = (-(1 # 4))%Q ∧
  quantize (-(1 # 4)) = -8191 ∧
  spec_quantize (-(1 # 4)) = -8192 ∧
  ∃ out, bufferToWav {| sampleRate := 24000; bufLength := 45;
                        channelData := [replicate 45 (-(1 # 4))%Q] |} 24000
         = Some out
    ∧ getInt16 out 44 = Some (-8191).
Proof.
  split; [reflexivity|]. split; [reflexivity|]. split; [reflexivity|].
  eexists. split; [vm_compute; reflexivity|]. reflexivity.
Qed.

End WavCodecFacts.

(* ===================================================================== *)
(** * Properties of the render pipeline *)
(* ===================================================================== *)

Section TTSModeFacts.
Import TTSMode.

(** Reducing the projections of updated states. *)
Ltac fields :=
  cbn [text selectedLang loading error audioUrl isOfflineMode playbackSpeed
       selectedVoiceId offlinePacks isPlaying audioContextRef audioRef
       speechSynthesis generateContent
       setLoading setError setAudioUrl setIsPlaying setOfflinePacks
       setAudioContextRef setAudioRef speech remoteCall] in *.

Lemma TTS_State_ext (st1 st2 : State) :
  text st1 = text st2 → selectedLang st1 = selectedLang st2 →
  loading st1 = loading st2 → error st1 = error st2 →
  audioUrl st1 = audioUrl st2 → isOfflineMode st1 = isOfflineMode st2 →
  playbackSpeed st1 = playbackSpeed st2 →
  selectedVoiceId st1 = selectedVoiceId st2 →
  offlinePacks st1 = offlinePacks st2 → isPlaying st1 = isPlaying st2 →
  audioContextRef st1 = audioContextRef st2 → audioRef st1 = audioRef st2 →
  speechSynthesis st1 = speechSynthesis st2 →
  generateContent st1 = generateContent st2 → st1 = st2.
Proof. destruct st1, st2; cbn; intros; by subst. Qed.

(** The message of the error thrown for a pack that is not downloaded. *)
Lemma handleOfflineGenerate_throws (inputText : JSString) (st : State)
    (p : OfflinePack) :
  findPack st = Some p → downloaded p = false →
  handleOfflineGenerate inputText st
  = inl ("Please download the " +:+ SALanguage_value (selectedLang st)
         +:+ " language pack first.").
Proof. intros Hp Hd. unfold handleOfflineGenerate. by rewrite Hp, Hd. Qed.

(** Blank text: [handleGenerate] returns at once. *)
Lemma handleGenerate_blank (apiKey : bool) (inputText : JSString) (st : State) :
  trim inputText = [] → handleGenerate apiKey inputText st = (st, None).
Proof. intros H. unfold handleGenerate. by rewrite decide_True. Qed.

(** C8, as the code has it. An offline-mode generate call with text that is
    not blank, for a language whose pack has downloaded = false, fails with
    the pack-not-available error before any synthesis attempt:
    [handleOfflineGenerate] throws before it builds an utterance, no [speak]
    and no remote call is made, and nothing stays suspended.  The text, the
    language, the mode, the packs and the sink are as before; the call has
    cancelled the current utterance and cleared the audio URL, and it ends
    with the error message set, [loading = false] and [isPlaying = false]. *)
Theorem C8_offline_generate_pack_missing (apiKey : bool) (inputText : JSString)
    (st : State) (p : OfflinePack) :
  trim inputText ≠ [] → isOfflineMode st = true →
  findPack st = Some p → downloaded p = false →
  let message := "Please download the " +:+ SALanguage_value (selectedLang st)
                 +:+ " language pack first." in
  handleGenerate apiKey inputText st
  = ({| text := text st; selectedLang := selectedLang st; loading := false;
        error := Some message; audioUrl := None;
        isOfflineMode := isOfflineMode st; playbackSpeed := playbackSpeed st;
        selectedVoiceId := selectedVoiceId st;
        offlinePacks := offlinePacks st; isPlaying := false;
        audioContextRef := audioContextRef st; audioRef := audioRef st;
        speechSynthesis := speechSynthesis st ++ [SpeechCancel];
        generateContent := generateContent st |}, None).
Proof.
  intros Htext Hoff Hp Hd message. unfold handleGenerate.
  rewrite decide_False by done.
  fields. rewrite Hoff.
  erewrite handleOfflineGenerate_throws; [|exact Hp|exact Hd].
  unfold finallyBlock, catchBlock.
  rewrite decide_False by (cbn [String.append]; discriminate).
  fields. f_equal. apply TTS_State_ext; fields; rewrite ?Hoff; reflexivity.
Qed.

(** The claim at Afrikaans, whose pack is not downloaded when the component
    mounts. *)
Lemma C8_offline_generate_pack_missing_witness :
  let st := setIsOfflineAfrikaans in
  handleGenerate true (ofAscii "Hallo") st
  = ({| text := text st; selectedLang := AFRIKAANS; loading := false;
        error := Some "Please download the Afrikaans language pack first.";
        audioUrl := None;
        isOfflineMode := true; playbackSpeed := playbackSpeed st;
        selectedVoiceId := selectedVoiceId st;
        offlinePacks := offlinePacks st; isPlaying := false;
        audioContextRef := audioContextRef st; audioRef := audioRef st;
        speechSynthesis := speechSynthesis st ++ [SpeechCancel];
        generateContent := generateContent st |}, None).
Proof.
  apply (C8_offline_generate_pack_missing true (ofAscii "Hallo") setIsOfflineAfrikaans
           {| pack_id := "pack_af"; language := AFRIKAANS;
              localeCode := "af-ZA"; pack_size := "38 MB";
              downloaded := false |}); vm_compute; congruence.
Defined.

(** C8 as stated fails: with an audio URL from an earlier render, the
    failed offline call for the Afrikaans pack (not downloaded) makes no
    [speak] call but leaves a state that differs from the one before: the
    audio URL is gone, and an utterance in progress has been cancelled. *)
Lemma C8_state_changes :
  let st := setAudioUrl (Some "blob:1") setIsOfflineAfrikaans in
  let st' := (handleGenerate true (ofAscii "Hallo") st).1 in
  isOfflineMode st = true ∧
  (∃ p, findPack st = Some p ∧ downloaded p = false) ∧
  error st' = Some "Please download the Afrikaans language pack first." ∧
  speechSynthesis st' = [SpeechCancel] ∧
  audioUrl st = Some "blob:1" ∧ audioUrl st' = None ∧
  st' ≠ st.
Proof.
  cbv zeta. split; [reflexivity|]. split; [eexists; split; reflexivity|].
  split; [reflexivity|]. split; [reflexivity|]. split; [reflexivity|].
  split; [reflexivity|]. intros H. apply (f_equal audioUrl) in H. discriminate H.
Qed.

(** C9, as the code has it. From any state [stopPlayback] pauses and rewinds
    the sink when it is mounted, cancels the local utterance and sets
    [isPlaying] to false; it leaves [loading] and [error] as they were, so
    the render state afterwards is Idle exactly when no generation is in
    flight and no error is shown. *)
Theorem C9_stopPlayback (st : State) :
  let st' := stopPlayback st in
  isPlaying st' = false ∧
  audioRef st' = match audioRef st with
                 | Some _ => Some {| paused := true; currentTime := 0 |}
                 | None => None
                 end ∧
  speechSynthesis st' = speechSynthesis st ++ [SpeechCancel] ∧
  loading st' = loading st ∧ error st' = error st ∧
  (renderState st' = Idle ↔ loading st = false ∧ error st = None).
Proof.
  cbv zeta. unfold stopPlayback, renderState.
  destruct (audioRef st) eqn:Ha; fields;
    (repeat split; try reflexivity;
     destruct (loading st), (error st); cbn; intuition congruence).
Qed.

(** C9 as stated fails: while the online call is in flight ([loading] and
    [isPlaying] both true, the Stop button shown), [stopPlayback] leaves the
    component generating. *)
Lemma C9_stop_while_generating :
  let st := (handleGenerate true (ofAscii "Hello") initialState).1 in
  (handleGenerate true (ofAscii "Hello") initialState).2 = Some AwaitGenerateContent ∧
  loading st = true ∧ isPlaying st = true ∧
  renderState (stopPlayback st) = Generating ∧
  renderState (stopPlayback st) ≠ Idle.
Proof. cbv zeta. repeat split; try reflexivity. discriminate. Qed.

End TTSModeFacts.

(* ===================================================================== *)
(** * Properties of the live session *)
(* ===================================================================== *)

Section LiveModeFacts.
Import WavCodec LiveMode.

Context {Blob : Type}.
Variable createPcmBlob : list Q → Blob.

Local Abbreviation State := (@State Blob).

(** Reducing the projections of updated states. *)
Ltac fields :=
  cbn [connected speaking aiSpeaking logs inputAudioContextRef
       outputAudioContextRef sessionRef streamRef processorRef sourceRef
       nextStartTimeRef sourcesRef sessionPromise decodes suspended
       microtasks calls allocated
       call set_connected set_speaking set_aiSpeaking set_logs
       set_inputAudioContextRef set_outputAudioContextRef set_sessionRef
       set_streamRef set_processorRef set_sourceRef set_nextStartTimeRef
       set_sourcesRef set_sessionPromise set_decodes set_suspended
       set_microtasks set_calls set_allocated log] in *.

Lemma Live_State_ext (st1 st2 : State) :
  connected st1 = connected st2 →
  speaking st1 = speaking st2 →
  aiSpeaking st1 = aiSpeaking st2 →
  logs st1 = logs st2 →
  inputAudioContextRef st1 = inputAudioContextRef st2 →
  outputAudioContextRef st1 = outputAudioContextRef st2 →
  sessionRef st1 = sessionRef st2 →
  streamRef st1 = streamRef st2 →
  processorRef st1 = processorRef st2 →
  sourceRef st1 = sourceRef st2 →
  nextStartTimeRef st1 = nextStartTimeRef st2 →
  sourcesRef st1 = sourcesRef st2 →
  sessionPromise st1 = sessionPromise st2 →
  decodes st1 = decodes st2 →
  suspended st1 = suspended st2 →
  microtasks st1 = microtasks st2 →
  calls st1 = calls st2 →
  allocated st1 = allocated st2 →
  st1 = st2.
Proof. destruct st1, st2; cbn; intros; by subst. Qed.

(** ** The microtask checkpoint *)

Lemma runMicrotasks_jobs (jobs : list (Handle * Blob)) (st : State) :
  fold_left (λ st job, call (SendRealtimeInput job.1 job.2) st) jobs st
  = set_calls (calls st ++ ((λ job, SendRealtimeInput job.1 job.2) <$> jobs)) st.
Proof.
  revert st. induction jobs as [|job jobs IH]; intros st.
  - cbn [fold_left fmap list_fmap]. apply Live_State_ext; fields;
      rewrite ?app_nil_r; reflexivity.
  - cbn [fold_left fmap list_fmap]. rewrite IH.
    apply Live_State_ext; fields; rewrite <- ?app_assoc; reflexivity.
Qed.

Lemma runMicrotasks_eq (st : State) :
  runMicrotasks st
  = set_calls (calls st ++ ((λ job, SendRealtimeInput job.1 job.2)
                               <$> microtasks st))
      (set_microtasks [] st).
Proof.
  unfold runMicrotasks. rewrite runMicrotasks_jobs.
  apply Live_State_ext; fields; reflexivity.
Qed.

Lemma runMicrotasks_idle (st : State) :
  microtasks st = [] → runMicrotasks st = st.
Proof.
  intros H. rewrite runMicrotasks_eq, H.
  apply Live_State_ext; fields; rewrite ?app_nil_r; done.
Qed.

(** The checkpoint only appends calls and empties the queue. *)
Lemma runMicrotasks_frame (st : State) :
  let st' := runMicrotasks st in
  sourcesRef st' = sourcesRef st ∧ nextStartTimeRef st' = nextStartTimeRef st
  ∧ aiSpeaking st' = aiSpeaking st ∧ speaking st' = speaking st
  ∧ connected st' = connected st
  ∧ sessionPromise st' = sessionPromise st ∧ suspended st' = suspended st
  ∧ decodes st' = decodes st
  ∧ outputAudioContextRef st' = outputAudioContextRef st
  ∧ microtasks st' = [].
Proof. cbv zeta. rewrite runMicrotasks_eq. fields. repeat split. Qed.

Lemma starts_runMicrotasks (st : State) :
  starts (calls (runMicrotasks st)) = starts (calls st).
Proof.
  rewrite runMicrotasks_eq. fields. unfold starts. rewrite omap_app.
  induction (microtasks st) as [|job jobs IH]; [by rewrite app_nil_r|].
  cbn in *. exact IH.
Qed.

(** ** Interruption *)

(** C2. After the interruption branch of [onmessage] has run, in the task
    of a message that carries the interrupted signal alone or in the
    resumption of one whose audio has just been scheduled, [stop] has been
    called on every source that was in the active set (and on the one just
    scheduled), the set is empty, the cursor is 0 and [aiSpeaking] is false,
    however many sources were active. *)
Theorem C2_interruption (msg : ServerMessage) (st : State) (outputCtx : Handle)
    (e : Event) :
  interrupted msg = true →
  (∃ currentTime, e = OnMessage currentTime msg
     ∧ outputAudioContextRef st = Some outputCtx
     ∧ truthy (inlineData msg) = false)
  ∨ (∃ ticket audioBuffer, e = DecodeReturned ticket audioBuffer
     ∧ suspended st !! ticket = Some (outputCtx, msg)) →
  let st' := step createPcmBlob e st in
  Forall (λ source, Stop source ∈ calls st') (elements (sourcesRef st))
  ∧ match e with
    | DecodeReturned ticket _ => Stop ticket ∈ calls st'
    | _ => True
    end
  ∧ sourcesRef st' = ∅ ∧ nextStartTimeRef st' = 0%Q
  ∧ aiSpeaking st' = false.
Proof.
  intros Hint [(currentTime & -> & Hctx & Haudio)
              |(ticket & audioBuffer & -> & Hsusp)]; cbv zeta.
  - unfold step, handle, onmessage. rewrite Hctx, Haudio.
    unfold handleInterruption. rewrite Hint.
    rewrite runMicrotasks_eq. unfold log. fields.
    split; [|done].
    apply Forall_forall. intros source Hin. rewrite !elem_of_app. left. right.
    by apply list_elem_of_fmap_2.
  - unfold step, handle, decode_returned. rewrite Hsusp.
    unfold handleInterruption. fields. rewrite Hint.
    rewrite runMicrotasks_eq. unfold log. fields.
    split; [|split; [|done]].
    + apply Forall_forall. intros source Hin. rewrite !elem_of_app. left. right.
      apply list_elem_of_fmap_2. apply elem_of_elements.
      apply elem_of_elements in Hin. set_solver.
    + rewrite !elem_of_app. left. right.
      apply list_elem_of_fmap_2. apply elem_of_elements. set_solver.
Qed.

(** ** Capture and transport *)

Lemma sent_app (cs1 cs2 : list (@Call Blob)) :
  sent (cs1 ++ cs2) = sent cs1 ++ sent cs2.
Proof. apply omap_app. Qed.

Lemma sent_Stops (sources : list nat) :
  sent ((Stop <$> sources) : list (@Call Blob)) = [].
Proof. induction sources; [done|]. cbn. exact IHsources. Qed.

Lemma sent_jobs (jobs : list (Handle * Blob)) :
  sent ((λ job, SendRealtimeInput job.1 job.2) <$> jobs) = jobs.
Proof.
  induction jobs as [|[session b] jobs IH]; [done|]. cbn. f_equal. exact IH.
Qed.

(** C7. Whatever the RMS test of a captured frame says, [onaudioprocess]
    encodes the frame with [createPcmBlob] and hands the blob to the
    transport: the send is registered on a pending [sessionPromise], and on
    a fulfilled one it is queued and made by the end of the task.  The RMS
    test only sets [speaking]. *)
Theorem C7_every_frame_sent (inputData : list Q) (st : State) :
  let st' := onaudioprocess createPcmBlob inputData st in
  speaking st' = rmsAbove inputData ∧
  match sessionPromise st with
  | Pending reactions =>
      sessionPromise st' = Pending (reactions ++ [createPcmBlob inputData])
  | Fulfilled session =>
      microtasks st'
      = microtasks st ++ [(session, createPcmBlob inputData)]
      ∧ sent (calls (step createPcmBlob (OnAudioProcess inputData) st))
        = sent (calls st) ++ microtasks st
          ++ [(session, createPcmBlob inputData)]
  end.
Proof.
  cbv zeta. unfold step, handle, onaudioprocess, promise_then. fields.
  destruct (sessionPromise st) as [reactions|session] eqn:Hp; fields.
  - done.
  - split; [done|]. split; [done|].
    rewrite runMicrotasks_eq. fields. by rewrite sent_app, sent_jobs.
Qed.

(** Frames captured while the promise is pending: nothing is sent, the
    blobs wait in registration order. *)
Lemma run_frames_pending (frames : list (list Q)) :
  ∀ (st : State) reactions,
  sessionPromise st = Pending reactions → microtasks st = [] →
  let st' := run createPcmBlob (OnAudioProcess <$> frames) st in
  calls st' = calls st ∧ microtasks st' = []
  ∧ sessionPromise st' = Pending (reactions ++ (createPcmBlob <$> frames)).
Proof.
  induction frames as [|f frames IH]; intros st reactions Hp Hm; cbv zeta.
  - cbn. by rewrite app_nil_r.
  - cbn [fmap list_fmap run fold_left].
    set (st1 := step createPcmBlob (OnAudioProcess f) st).
    assert (H1 : calls st1 = calls st ∧ microtasks st1 = []
                 ∧ sessionPromise st1 = Pending (reactions ++ [createPcmBlob f])).
    { subst st1. unfold step, handle, onaudioprocess, promise_then. fields.
      rewrite Hp. rewrite runMicrotasks_eq. fields. rewrite Hm. cbn.
      by rewrite app_nil_r. }
    destruct H1 as (Hc1 & Hm1 & Hp1).
    destruct (IH st1 _ Hp1 Hm1) as (Hc & Hm' & Hp').
    fold (run createPcmBlob (OnAudioProcess <$> frames) st1).
    rewrite Hc, Hc1, Hm', Hp'. rewrite <- app_assoc. done.
Qed.

(** Frames captured once the promise is fulfilled: each is sent within its
    own task. *)
Lemma run_frames_fulfilled (frames : list (list Q)) :
  ∀ (st : State) session,
  sessionPromise st = Fulfilled session → microtasks st = [] →
  let st' := run createPcmBlob (OnAudioProcess <$> frames) st in
  calls st' = calls st ++ (SendRealtimeInput session <$> (createPcmBlob <$> frames))
  ∧ microtasks st' = [] ∧ sessionPromise st' = Fulfilled session.
Proof.
  induction frames as [|f frames IH]; intros st session Hp Hm; cbv zeta.
  - cbn. by rewrite app_nil_r.
  - cbn [fmap list_fmap run fold_left].
    set (st1 := step createPcmBlob (OnAudioProcess f) st).
    assert (H1 : calls st1 = calls st ++ [SendRealtimeInput session (createPcmBlob f)]
                 ∧ microtasks st1 = []
                 ∧ sessionPromise st1 = Fulfilled session).
    { subst st1. unfold step, handle, onaudioprocess, promise_then. fields.
      rewrite Hp. rewrite runMicrotasks_eq. fields. rewrite Hm. done. }
    destruct H1 as (Hc1 & Hm1 & Hp1).
    destruct (IH st1 _ Hp1 Hm1) as (Hc & Hm' & Hp').
    fold (run createPcmBlob (OnAudioProcess <$> frames) st1).
    rewrite Hc, Hc1, Hm', Hp'. rewrite <- app_assoc. done.
Qed.

(** The resolution: the waiting blobs are sent in registration order. *)
Lemma step_ConnectReturned_pending (st : State) session reactions :
  sessionPromise st = Pending reactions → microtasks st = [] →
  let st' := step createPcmBlob (ConnectReturned session) st in
  calls st' = calls st ++ (SendRealtimeInput session <$> reactions)
  ∧ microtasks st' = [] ∧ sessionPromise st' = Fulfilled session
  ∧ sessionRef st' = Some session.
Proof.
  intros Hp Hm. cbv zeta.
  unfold step, handle, connect_returned, resolveSession. fields.
  rewrite Hp. rewrite runMicrotasks_eq. fields. rewrite Hm. cbn.
  rewrite <- list_fmap_compose. done.
Qed.

(** ** Teardown *)

Lemma starts_app (cs1 cs2 : list (@Call Blob)) :
  starts (cs1 ++ cs2) = starts cs1 ++ starts cs2.
Proof. apply omap_app. Qed.

Lemma starts_Stops (sources : list nat) :
  starts ((Stop <$> sources) : list (@Call Blob)) = [].
Proof. induction sources; [done|]. cbn. exact IHsources. Qed.

Ltac cases_refs :=
  repeat (fields;
          match goal with
          | |- context [match ?x with Some _ => _ | None => _ end] =>
              destruct x eqn:?
          end).

(** What [stopAll] clears, and what it leaves alone. *)
Lemma stopAll_frame (st : State) :
  let st' := stopAll st in
  (streamRef st' = None ∧ processorRef st' = None ∧ sourceRef st' = None
   ∧ inputAudioContextRef st' = None ∧ outputAudioContextRef st' = None
   ∧ sessionRef st' = None ∧ sourcesRef st' = ∅
   ∧ connected st' = false ∧ speaking st' = false ∧ aiSpeaking st' = false)
  ∧ (nextStartTimeRef st' = nextStartTimeRef st
     ∧ sessionPromise st' = sessionPromise st
     ∧ microtasks st' = microtasks st ∧ suspended st' = suspended st
     ∧ decodes st' = decodes st)
  ∧ (sent (calls st') = sent (calls st)
     ∧ starts (calls st') = starts (calls st)
     ∧ ∀ source, source ∈ sourcesRef st → Stop source ∈ calls st').
Proof.
  cbv zeta. unfold stopAll. cases_refs; fields;
    (split; [done|]); (split; [done|]);
    rewrite ?sent_app, ?starts_app, ?sent_Stops, ?starts_Stops; cbn;
    rewrite ?app_nil_r;
    (split; [done|]); (split; [done|]);
    intros source Hin; rewrite !elem_of_app;
    repeat (try (right; apply list_elem_of_fmap_2, elem_of_elements, Hin); left).
Qed.

(** ** A session that never resolves *)

Lemma handle_unresolved (e : Event) (st : State) reactions :
  (∀ session, e ≠ ConnectReturned session) →
  sessionPromise st = Pending reactions → microtasks st = [] →
  let st' := handle createPcmBlob e st in
  (∃ reactions', sessionPromise st' = Pending reactions')
  ∧ microtasks st' = [] ∧ sent (calls st') = sent (calls st).
Proof.
  intros He Hp Hm. cbv zeta.
  destruct e as [apiKey|stream|session| | |inputData|currentTime msg
                 |ticket audioBuffer|ticket|source| | | ]; cbn [handle].
  - unfold startSession. destruct apiKey; cbn [negb fst]; unfold log; fields;
      rewrite ?sent_app, ?app_nil_r; eauto.
  - unfold getUserMedia_returned, log. fields. eauto.
  - by destruct (He session).
  - unfold startSession_threw, log. fields. eauto.
  - unfold onopen, log. fields.
    destruct (inputAudioContextRef st); fields;
      rewrite ?sent_app, ?app_nil_r; eauto.
  - unfold onaudioprocess, promise_then. fields. rewrite Hp. fields. eauto.
  - unfold onmessage.
    destruct (outputAudioContextRef st); [|eauto].
    destruct (truthy (inlineData msg)); fields; [eauto|].
    unfold handleInterruption, log. destruct (interrupted msg); fields;
      rewrite ?sent_app, ?sent_Stops, ?app_nil_r; eauto.
  - unfold decode_returned.
    destruct (suspended st !! ticket) as [[outputCtx msg]|]; [|eauto].
    unfold handleInterruption, log. fields.
    destruct (interrupted msg); fields;
      rewrite ?sent_app, ?sent_Stops; cbn; rewrite ?app_nil_r; eauto.
  - unfold decode_threw. fields. eauto.
  - unfold ended. fields. case_decide; fields; eauto.
  - unfold onclose.
    destruct (stopAll_frame (log "Connection closed." st))
      as (_ & (_ & -> & -> & _) & (-> & _)).
    unfold log. fields. eauto.
  - unfold onerror.
    destruct (stopAll_frame (log "Error occurred." st))
      as (_ & (_ & -> & -> & _) & (-> & _)).
    unfold log. fields. eauto.
  - destruct (stopAll_frame st) as (_ & (_ & -> & -> & _) & (-> & _)). eauto.
Qed.

Lemma run_unresolved (es : list Event) :
  ∀ (st : State) reactions,
  Forall (λ e, ∀ session, e ≠ ConnectReturned session) es →
  sessionPromise st = Pending reactions → microtasks st = [] →
  sent (calls (run createPcmBlob es st)) = sent (calls st).
Proof.
  induction es as [|e es IH]; intros st reactions Hes Hp Hm; [done|].
  apply Forall_cons in Hes as [He Hes]. cbn [run fold_left].
  destruct (handle_unresolved e st reactions He Hp Hm)
    as ((reactions' & Hp') & Hm' & Hs').
  unfold step at 2. rewrite (runMicrotasks_idle _ Hm').
  fold (run createPcmBlob es (handle createPcmBlob e st)).
  by rewrite (IH _ _ Hes Hp' Hm').
Qed.

(** C6. With the session promise pending and no reaction waiting: the sends
    of the frames captured before the resolution are deferred (no call is
    made); at the resolution they are all forwarded, in capture order; a
    frame captured after the resolution is forwarded within its own task, so
    the calls are those of all the frames in capture order; and as long as
    the promise is not resolved, whatever else happens (the connection
    fails, more frames, a teardown), nothing is ever sent. *)
Theorem C6_sends_deferred_in_order (st : State) (session : Handle)
    (pre post : list (list Q)) (es : list Event) :
  sessionPromise st = Pending [] → microtasks st = [] →
  Forall (λ e, ∀ session', e ≠ ConnectReturned session') es →
  let before := run createPcmBlob (OnAudioProcess <$> pre) st in
  let resolved := step createPcmBlob (ConnectReturned session) before in
  let after := run createPcmBlob (OnAudioProcess <$> post) resolved in
  calls before = calls st
  ∧ calls resolved
    = calls st ++ (SendRealtimeInput session <$> (createPcmBlob <$> pre))
  ∧ calls after
    = calls st
      ++ (SendRealtimeInput session <$> (createPcmBlob <$> (pre ++ post)))
  ∧ sent (calls (run createPcmBlob es before)) = sent (calls st).
Proof.
  intros Hp Hm Hes. cbv zeta.
  destruct (run_frames_pending pre st [] Hp Hm) as (Hc1 & Hm1 & Hp1).
  cbn [app] in Hp1.
  destruct (step_ConnectReturned_pending _ session _ Hp1 Hm1)
    as (Hc2 & Hm2 & Hp2 & _).
  destruct (run_frames_fulfilled post _ session Hp2 Hm2) as (Hc3 & _ & _).
  split; [done|]. split; [by rewrite Hc2, Hc1|]. split.
  - rewrite Hc3, Hc2, Hc1, !fmap_app, app_assoc. done.
  - rewrite (run_unresolved es _ _ Hes Hp1 Hm1). by rewrite Hc1.
Qed.

(** ** The playback scheduler *)

Lemma duration_nonneg (audioBuffer : AudioBuffer) : (0 <= duration audioBuffer)%Q.
Proof. unfold duration, Qle. cbn. lia. Qed.

(** The task of an [onmessage] invocation for a message with audio. *)
Lemma step_OnMessage_audio (st : State) currentTime msg outputCtx :
  outputAudioContextRef st = Some outputCtx →
  truthy (inlineData msg) = true →
  let st' := step createPcmBlob (OnMessage currentTime msg) st in
  nextStartTimeRef st' = Qmax (nextStartTimeRef st) currentTime
  ∧ suspended st' = <[decodes st := (outputCtx, msg)]> (suspended st)
  ∧ decodes st' = S (decodes st)
  ∧ starts (calls st') = starts (calls st)
  ∧ outputAudioContextRef st' = Some outputCtx
  ∧ sourcesRef st' = sourcesRef st.
Proof.
  intros Hctx Haudio. cbv zeta. unfold step.
  rewrite starts_runMicrotasks.
  destruct (runMicrotasks_frame
              (handle createPcmBlob (OnMessage currentTime msg) st))
    as (-> & -> & _ & _ & _ & _ & -> & -> & -> & _).
  unfold handle, onmessage. rewrite Hctx, Haudio. fields. done.
Qed.

(** The resumption of an invocation whose message carries no
    interruption. *)
Lemma step_DecodeReturned_quiet (st : State) ticket audioBuffer outputCtx msg :
  suspended st !! ticket = Some (outputCtx, msg) →
  interrupted msg = false →
  let st' := step createPcmBlob (DecodeReturned ticket audioBuffer) st in
  nextStartTimeRef st' = (nextStartTimeRef st + duration audioBuffer)%Q
  ∧ starts (calls st') = starts (calls st) ++ [(ticket, nextStartTimeRef st)]
  ∧ suspended st' = delete ticket (suspended st)
  ∧ decodes st' = decodes st
  ∧ outputAudioContextRef st' = outputAudioContextRef st
  ∧ sourcesRef st' = {[ticket]} ∪ sourcesRef st.
Proof.
  intros Hsusp Hint. cbv zeta. unfold step.
  rewrite starts_runMicrotasks.
  destruct (runMicrotasks_frame
              (handle createPcmBlob (DecodeReturned ticket audioBuffer) st))
    as (-> & -> & _ & _ & _ & _ & -> & -> & -> & _).
  unfold handle, decode_returned. rewrite Hsusp.
  unfold handleInterruption. fields. rewrite Hint. fields.
  rewrite starts_app. done.
Qed.

(** A chunk received and decoded at once. *)
Lemma receive_audioChunk (st : State) chunk outputCtx :
  outputAudioContextRef st = Some outputCtx →
  audioChunk chunk.1.2 →
  let st' := receive createPcmBlob chunk st in
  nextStartTimeRef st'
  = (Qmax (nextStartTimeRef st) chunk.1.1 + duration chunk.2)%Q
  ∧ starts (calls st')
    = starts (calls st) ++ [(decodes st, Qmax (nextStartTimeRef st) chunk.1.1)]
  ∧ decodes st' = S (decodes st)
  ∧ outputAudioContextRef st' = Some outputCtx
  ∧ sourcesRef st' = {[decodes st]} ∪ sourcesRef st.
Proof.
  intros Hctx [Haudio Hint]. cbv zeta. unfold receive.
  destruct (step_OnMessage_audio st chunk.1.1 chunk.1.2 outputCtx Hctx Haudio)
    as (Hn1 & Hs1 & Hd1 & Hc1 & Hctx1 & Hsrc1).
  destruct (step_DecodeReturned_quiet
              (step createPcmBlob (OnMessage chunk.1.1 chunk.1.2) st)
              (decodes st) chunk.2 outputCtx chunk.1.2)
    as (Hn2 & Hc2 & Hs2 & Hd2 & Hctx2 & Hsrc2);
    [by rewrite Hs1, lookup_insert_eq|done|].
  rewrite Hn2, Hc2, Hd2, Hctx2, Hsrc2, Hn1, Hc1, Hd1, Hctx1, Hsrc1. done.
Qed.

(** Chunks received one after the other from a cursor that is not behind
    the clock readings (all 0): each starts where the one before ends. *)
Lemma receiveAll_schedule (chunks : list (Q * ServerMessage * AudioBuffer)) :
  ∀ (st : State) outputCtx (c : Q),
  outputAudioContextRef st = Some outputCtx →
  (nextStartTimeRef st == c)%Q → (0 <= c)%Q →
  Forall (λ chunk, (chunk.1.1 == 0)%Q ∧ audioChunk chunk.1.2) chunks →
  let ds := (λ chunk, duration chunk.2) <$> chunks in
  let st' := receiveAll createPcmBlob chunks st in
  ∃ whens : list Q,
    starts (calls st')
    = starts (calls st) ++ zip (seq (decodes st) (length chunks)) whens
    ∧ length whens = length chunks
    ∧ Forall2 Qeq whens
        ((λ k, c + Qsum (take k ds))%Q <$> seq 0 (length chunks))
    ∧ (nextStartTimeRef st' == c + Qsum ds)%Q.
Proof.
  induction chunks as [|chunk chunks IH];
    intros st outputCtx c Hctx Hcur Hc Hall; cbv zeta.
  - exists []. cbn. rewrite app_nil_r.
    split; [done|]. split; [done|]. split; [constructor|]. lra.
  - apply Forall_cons in Hall as [[Hnow Hchunk] Hall].
    cbn [receiveAll fold_left].
    destruct (receive_audioChunk st chunk outputCtx Hctx Hchunk)
      as (Hn1 & Hc1 & Hd1 & Hctx1 & _).
    set (st1 := receive createPcmBlob chunk st) in *.
    assert (Hmax : (Qmax (nextStartTimeRef st) chunk.1.1 == c)%Q).
    { rewrite Q.max_l; [done|]. rewrite Hnow, Hcur. done. }
    pose proof (duration_nonneg chunk.2) as Hd.
    destruct (IH st1 outputCtx (c + duration chunk.2)%Q Hctx1)
      as (whens & Hst & Hlen & Hk & Hfin); [| |done|].
    { rewrite Hn1, Hmax. reflexivity. }
    { lra. }
    cbv zeta in Hst, Hk, Hfin.
    fold (receiveAll createPcmBlob chunks st1).
    exists (Qmax (nextStartTimeRef st) chunk.1.1 :: whens).
    split; [|split; [|split]].
    + rewrite Hst, Hc1, Hd1, <- app_assoc. done.
    + cbn. by rewrite Hlen.
    + cbn [length seq fmap list_fmap]. constructor.
      * cbn [take Qsum fold_right]. rewrite Hmax. lra.
      * rewrite <- (fmap_S_seq 0), <- list_fmap_compose.
        apply Forall2_fmap_r. rewrite Forall2_fmap_r in Hk.
        eapply Forall2_impl; [exact Hk|].
        intros when k Hw. cbn [compose fmap list_fmap take Qsum fold_right] in *.
        unfold Qsum in *. lra.
    + rewrite Hfin. cbn [fmap list_fmap Qsum fold_right]. unfold Qsum. lra.
Qed.

(** Chunks each decoded before the next arrives, from [nextStartTime = 0]
    and with [currentTime = 0] at every arrival: the k-th chunk is started
    at the sum of the durations of the chunks before it. *)
Lemma receiveAll_gapless (chunks : list (Q * ServerMessage * AudioBuffer))
    (st : State) (outputCtx : Handle) :
  outputAudioContextRef st = Some outputCtx →
  (nextStartTimeRef st == 0)%Q →
  Forall (λ chunk, (chunk.1.1 == 0)%Q ∧ audioChunk chunk.1.2) chunks →
  let ds := (λ chunk, duration chunk.2) <$> chunks in
  let st' := receiveAll createPcmBlob chunks st in
  ∃ whens : list Q,
    starts (calls st')
    = starts (calls st) ++ zip (seq (decodes st) (length chunks)) whens
    ∧ length whens = length chunks
    ∧ Forall2 Qeq whens ((λ k, Qsum (take k ds)) <$> seq 0 (length chunks))
    ∧ (nextStartTimeRef st' == Qsum ds)%Q.
Proof.
  intros Hctx Hcur Hall. cbv zeta.
  destruct (receiveAll_schedule chunks st outputCtx 0%Q Hctx Hcur) as
    (whens & Hst & Hlen & Hk & Hfin); [lra|done|].
  exists whens. split; [done|]. split; [done|]. split.
  - apply Forall2_fmap_r. rewrite Forall2_fmap_r in Hk.
    eapply Forall2_impl; [exact Hk|].
    intros when k Hw. unfold compose in *. cbn beta in *. lra.
  - cbv zeta in Hfin. rewrite Hfin. lra.
Qed.

Lemma decoded_OnMessage (currentTime : Q) (msg : ServerMessage)
    (es : list Event) :
  decoded (OnMessage currentTime msg :: es) = decoded es.
Proof. reflexivity. Qed.

Lemma decoded_DecodeReturned (ticket : nat) (audioBuffer : AudioBuffer)
    (es : list Event) :
  decoded (DecodeReturned ticket audioBuffer :: es)
  = (ticket, audioBuffer) :: decoded es.
Proof. reflexivity. Qed.

(** Any interleaving of arrivals and decode returns, from a cursor [c] that
    is not behind the clock readings (all 0): every unit is started where
    the unit started before it ends. *)
Lemma run_chunks (es : list Event) :
  ∀ (st : State) outputCtx (c : Q),
  outputAudioContextRef st = Some outputCtx → quietState st →
  (nextStartTimeRef st == c)%Q → (0 <= c)%Q →
  Forall chunkEvent es →
  awaited (dom (suspended st)) (decodes st) es = true →
  let units := decoded es in
  let ds := (λ unit, duration unit.2) <$> units in
  let st' := run createPcmBlob es st in
  ∃ whens : list Q,
    starts (calls st') = starts (calls st) ++ zip (fst <$> units) whens
    ∧ length whens = length units
    ∧ Forall2 Qeq whens
        ((λ k, c + Qsum (take k ds))%Q <$> seq 0 (length units))
    ∧ (nextStartTimeRef st' == c + Qsum ds)%Q.
Proof.
  induction es as [|e es IH];
    intros st outputCtx c Hctx Hq Hcur Hc Hall Haw; cbv zeta.
  { exists []. cbn. rewrite app_nil_r.
    split; [done|]. split; [done|]. split; [constructor|]. lra. }
  apply Forall_cons in Hall as [He Hall].
  cbn [run fold_left]. fold (run createPcmBlob es (step createPcmBlob e st)).
  destruct e as [apiKey|stream|session| | |inputData|currentTime msg
                 |ticket audioBuffer|ticket|source| | | ];
    try (by destruct He).
  - (* a chunk arrives *)
    destruct He as [Hnow [Haudio Hint]]. cbn [awaited] in Haw.
    destruct (step_OnMessage_audio st currentTime msg outputCtx Hctx Haudio)
      as (Hn1 & Hs1 & Hd1 & Hc1 & Hctx1 & _).
    set (st1 := step createPcmBlob (OnMessage currentTime msg) st) in *.
    destruct (IH st1 outputCtx c Hctx1) as (whens & Hst & Hlen & Hk & Hfin);
      [| |done|done| |].
    { unfold quietState. rewrite Hs1. by apply map_Forall_insert_2. }
    { rewrite Hn1, Q.max_l; [done|]. rewrite Hnow, Hcur. done. }
    { by rewrite Hs1, Hd1, dom_insert_L. }
    exists whens. rewrite decoded_OnMessage, Hst, Hc1. done.
  - (* a decode returns *)
    cbn [awaited] in Haw. apply andb_prop in Haw as [Hin Haw].
    apply bool_decide_eq_true, elem_of_dom in Hin as [[ctx msg] Hsusp].
    pose proof (Hq _ _ Hsusp) as Hint. cbn [snd] in Hint.
    destruct (step_DecodeReturned_quiet st ticket audioBuffer ctx msg
                Hsusp Hint) as (Hn1 & Hc1 & Hs1 & Hd1 & Hctx1 & _).
    set (st1 := step createPcmBlob (DecodeReturned ticket audioBuffer) st)
      in *.
    pose proof (duration_nonneg audioBuffer) as Hd.
    destruct (IH st1 outputCtx (c + duration audioBuffer)%Q)
      as (whens & Hst & Hlen & Hk & Hfin); [| | |lra|done| |].
    { by rewrite Hctx1. }
    { unfold quietState. rewrite Hs1. by apply map_Forall_delete. }
    { rewrite Hn1, Hcur. reflexivity. }
    { by rewrite Hs1, Hd1, dom_delete_L. }
    cbv zeta in Hst, Hk, Hfin.
    exists (nextStartTimeRef st :: whens).
    rewrite decoded_DecodeReturned.
    split; [|split; [|split]].
    + rewrite Hst, Hc1, <- app_assoc. done.
    + cbn. by rewrite Hlen.
    + cbn [length seq fmap list_fmap snd]. constructor.
      * cbn [take Qsum fold_right]. rewrite Hcur. lra.
      * rewrite <- (fmap_S_seq 0), <- list_fmap_compose.
        apply Forall2_fmap_r. rewrite Forall2_fmap_r in Hk.
        eapply Forall2_impl; [exact Hk|].
        intros when k Hw.
        cbn [compose fmap list_fmap take Qsum fold_right snd] in *.
        unfold Qsum in *. lra.
    + rewrite Hfin. cbn [fmap list_fmap Qsum fold_right snd].
      unfold Qsum. lra.
Qed.

(** C1, as the code has it. For every sequence of audio chunks handled by
    [onmessage] with no interruption, from [nextStartTime = 0] and with
    [currentTime = 0] at every arrival, whatever the order in which the
    chunks arrive and their decodes return: the k-th unit to be scheduled,
    which is that of the k-th decode to return, is started at the sum of
    the durations of the units scheduled before it, and the cursor ends at
    the sum of the durations of the units scheduled. *)
Theorem C1_gapless_in_completion_order (es : list Event) (st : State)
    (outputCtx : Handle) :
  outputAudioContextRef st = Some outputCtx → quietState st →
  (nextStartTimeRef st == 0)%Q →
  Forall chunkEvent es →
  awaited (dom (suspended st)) (decodes st) es = true →
  let units := decoded es in
  let ds := (λ unit, duration unit.2) <$> units in
  let st' := run createPcmBlob es st in
  ∃ whens : list Q,
    starts (calls st') = starts (calls st) ++ zip (fst <$> units) whens
    ∧ length whens = length units
    ∧ Forall2 Qeq whens ((λ k, Qsum (take k ds)) <$> seq 0 (length units))
    ∧ (nextStartTimeRef st' == Qsum ds)%Q.
Proof.
  intros Hctx Hq Hcur Hall Haw. cbv zeta.
  destruct (run_chunks es st outputCtx 0%Q Hctx Hq Hcur) as
    (whens & Hst & Hlen & Hk & Hfin); [lra|done|done|].
  exists whens. split; [done|]. split; [done|]. split.
  - apply Forall2_fmap_r. rewrite Forall2_fmap_r in Hk.
    eapply Forall2_impl; [exact Hk|].
    intros when k Hw. unfold compose in *. cbn beta in *. lra.
  - cbv zeta in Hfin. rewrite Hfin. lra.
Qed.

(** ** Scheduling order *)

(** Without an interruption the cursor never moves back, and the suspended
    invocations stay free of interruptions. *)
Lemma handle_quiet (e : Event) (st : State) :
  quietEvent e → quietState st →
  quietState (handle createPcmBlob e st)
  ∧ (nextStartTimeRef st <= nextStartTimeRef (handle createPcmBlob e st))%Q.
Proof.
  intros He Hst. unfold quietState in *.
  destruct e as [apiKey|stream|session| | |inputData|currentTime msg
                 |ticket audioBuffer|ticket|source| | | ]; cbn [handle].
  - unfold startSession. destruct apiKey; cbn [negb fst]; fields;
      (split; [done|apply Qle_refl]).
  - unfold getUserMedia_returned. fields. split; [done|apply Qle_refl].
  - unfold connect_returned, resolveSession. fields.
    destruct (sessionPromise st); fields; (split; [done|apply Qle_refl]).
  - unfold startSession_threw. fields. split; [done|apply Qle_refl].
  - unfold onopen. fields.
    destruct (inputAudioContextRef st); fields; (split; [done|apply Qle_refl]).
  - unfold onaudioprocess, promise_then. fields.
    destruct (sessionPromise st); fields; (split; [done|apply Qle_refl]).
  - cbn [quietEvent] in He. unfold onmessage.
    destruct (outputAudioContextRef st); [|split; [done|apply Qle_refl]].
    destruct (truthy (inlineData msg)); fields.
    + split; [|apply Q.le_max_l].
      apply map_Forall_insert_2; done.
    + unfold handleInterruption. rewrite He. split; [done|apply Qle_refl].
  - unfold decode_returned.
    destruct (suspended st !! ticket) as [[outputCtx msg]|] eqn:Hsusp;
      [|split; [done|apply Qle_refl]].
    pose proof (Hst _ _ Hsusp) as Hq. cbn [snd] in Hq.
    unfold handleInterruption. fields. rewrite Hq. fields. split.
    + by apply map_Forall_delete.
    + pose proof (duration_nonneg audioBuffer). lra.
  - unfold decode_threw. fields. split; [|apply Qle_refl].
    by apply map_Forall_delete.
  - unfold ended. fields. case_decide; fields; (split; [done|apply Qle_refl]).
  - unfold onclose.
    destruct (stopAll_frame (log "Connection closed." st))
      as (_ & (-> & _ & _ & -> & _) & _).
    fields. split; [done|apply Qle_refl].
  - unfold onerror.
    destruct (stopAll_frame (log "Error occurred." st))
      as (_ & (-> & _ & _ & -> & _) & _).
    fields. split; [done|apply Qle_refl].
  - destruct (stopAll_frame st) as (_ & (-> & _ & _ & -> & _) & _).
    split; [done|apply Qle_refl].
Qed.

Lemma run_quiet (es : list Event) :
  ∀ st : State,
  Forall quietEvent es → quietState st →
  quietState (run createPcmBlob es st)
  ∧ (nextStartTimeRef st <= nextStartTimeRef (run createPcmBlob es st))%Q.
Proof.
  induction es as [|e es IH]; intros st Hes Hst.
  - split; [done|apply Qle_refl].
  - apply Forall_cons in Hes as [He Hes]. cbn [run fold_left].
    fold (run createPcmBlob es (step createPcmBlob e st)).
    destruct (handle_quiet e st He Hst) as [Hq Hle].
    destruct (runMicrotasks_frame (handle createPcmBlob e st))
      as (_ & Hn & _ & _ & _ & _ & Hs & _).
    destruct (IH (step createPcmBlob e st) Hes) as [Hq' Hle'].
    { unfold quietState, step. by rewrite Hs. }
    split; [done|]. unfold step in Hle' at 1. rewrite Hn in Hle'.
    eapply Qle_trans; eassumption.
Qed.

(** C3, as the code has it. Units are scheduled in the order in which
    their decodes complete, whatever the order of arrival: each is started
    at the cursor as it stands when its own [decodeAudioData] returns, and
    the cursor then advances by the duration of the unit.  With no
    interruption in between, when the decode of a chunk [a] returns before
    that of a chunk [b], [a] is started at the earlier cursor position and
    [b] no earlier than the end of [a]. *)
Theorem C3_scheduled_in_completion_order (st : State) (es : list Event)
    (a b : nat) (bufA bufB : AudioBuffer) (ctxA ctxB : Handle)
    (msgA msgB : ServerMessage) :
  quietState st → Forall quietEvent es →
  suspended st !! a = Some (ctxA, msgA) →
  suspended (run createPcmBlob es
               (step createPcmBlob (DecodeReturned a bufA) st)) !! b
  = Some (ctxB, msgB) →
  let st1 := step createPcmBlob (DecodeReturned a bufA) st in
  let st2 := run createPcmBlob es st1 in
  let st3 := step createPcmBlob (DecodeReturned b bufB) st2 in
  starts (calls st1) = starts (calls st) ++ [(a, nextStartTimeRef st)]
  ∧ nextStartTimeRef st1 = (nextStartTimeRef st + duration bufA)%Q
  ∧ starts (calls st3) = starts (calls st2) ++ [(b, nextStartTimeRef st2)]
  ∧ nextStartTimeRef st3 = (nextStartTimeRef st2 + duration bufB)%Q
  ∧ (nextStartTimeRef st <= nextStartTimeRef st2)%Q
  ∧ (nextStartTimeRef st + duration bufA <= nextStartTimeRef st2)%Q.
Proof.
  intros Hst Hes Ha Hb. cbv zeta.
  pose proof (Hst _ _ Ha) as HqA. cbn [snd] in HqA.
  destruct (step_DecodeReturned_quiet st a bufA ctxA msgA Ha HqA)
    as (Hn1 & Hc1 & Hs1 & _).
  set (st1 := step createPcmBlob (DecodeReturned a bufA) st) in *.
  assert (Hq1 : quietState st1).
  { unfold quietState. rewrite Hs1. by apply map_Forall_delete. }
  destruct (run_quiet es st1 Hes Hq1) as [Hq2 Hle].
  set (st2 := run createPcmBlob es st1) in *.
  pose proof (Hq2 _ _ Hb) as HqB. cbn [snd] in HqB.
  destruct (step_DecodeReturned_quiet st2 b bufB ctxB msgB Hb HqB)
    as (Hn3 & Hc3 & _).
  split; [exact Hc1|]. split; [exact Hn1|]. split; [exact Hc3|].
  split; [exact Hn3|].
  rewrite Hn1 in Hle. pose proof (duration_nonneg bufA). split; lra.
Qed.

(** ** Teardown and the cursor *)

(** The tasks that open a session do not touch the cursor. *)
Lemma newSession_cursor (st : State) (stream session : Handle) :
  let st' := run createPcmBlob
               [StartSession true; GetUserMediaReturned stream; OnOpen;
                ConnectReturned session] st in
  nextStartTimeRef st' = nextStartTimeRef st
  ∧ ∃ outputCtx, outputAudioContextRef st' = Some outputCtx.
Proof.
  cbv zeta. cbn [run fold_left]. unfold step.
  repeat match goal with
  | |- context [runMicrotasks ?x] =>
      lazymatch x with
      | context [runMicrotasks] => fail
      | _ => destruct (runMicrotasks_frame x)
               as (_ & ? & _ & _ & _ & _ & _ & _ & ? & _);
             generalize dependent (runMicrotasks x); intros
      end
  end.
  cbn [handle] in *.
  unfold connect_returned, resolveSession, onopen, getUserMedia_returned,
    startSession in *.
  cbn [negb fst] in *. fields.
  repeat match goal with
  | H : context [match ?x with _ => _ end] |- _ => destruct x
  end; fields;
    (split; [congruence|];
     exists (S (allocated st)); do 3 (etrans; [eassumption|]); eassumption).
Qed.

(** The teardown and the cursor. [stopAll] clears the microphone stream,
    the processor, the source node, both audio contexts, the session reference,
    the active sources and the connected and speaking flags, and it leaves
    the cursor [nextStartTime] as it was.  The first audio chunk of the next
    session is started at the larger of that retained cursor and the
    [currentTime] read by [onmessage]: never before [currentTime], at
    [currentTime] when the retained cursor is not ahead of it, and at the
    retained cursor otherwise. *)
Theorem C10_stopAll_keeps_cursor (st : State) (stream session : Handle)
    (chunk : Q * ServerMessage * AudioBuffer) :
  audioChunk chunk.1.2 →
  let torn := stopAll st in
  let st2 := run createPcmBlob
               [StartSession true; GetUserMediaReturned stream; OnOpen;
                ConnectReturned session] torn in
  let st3 := receive createPcmBlob chunk st2 in
  (streamRef torn = None ∧ processorRef torn = None ∧ sourceRef torn = None
   ∧ inputAudioContextRef torn = None ∧ outputAudioContextRef torn = None
   ∧ sessionRef torn = None ∧ sourcesRef torn = ∅
   ∧ connected torn = false ∧ speaking torn = false
   ∧ aiSpeaking torn = false)
  ∧ nextStartTimeRef torn = nextStartTimeRef st
  ∧ nextStartTimeRef st2 = nextStartTimeRef st
  ∧ ∃ when : Q,
      starts (calls st3) = starts (calls st2) ++ [(decodes st2, when)]
      ∧ when = Qmax (nextStartTimeRef st) chunk.1.1
      ∧ (chunk.1.1 <= when)%Q
      ∧ ((nextStartTimeRef st <= chunk.1.1 ∧ when == chunk.1.1)
         ∨ (chunk.1.1 < nextStartTimeRef st ∧ when == nextStartTimeRef st))%Q.
Proof.
  intros Hchunk. cbv zeta.
  destruct (stopAll_frame st) as (Hclear & (Hcur & _) & _).
  destruct (newSession_cursor (stopAll st) stream session)
    as (Hcur2 & outputCtx & Hctx).
  destruct (receive_audioChunk _ chunk outputCtx Hctx Hchunk)
    as (_ & Hstarts & _).
  split; [exact Hclear|]. split; [exact Hcur|].
  split; [by rewrite Hcur2|].
  eexists. split; [exact Hstarts|]. rewrite Hcur2, Hcur.
  split; [done|]. split; [apply Q.le_max_r|].
  destruct (Qlt_le_dec chunk.1.1 (nextStartTimeRef st)) as [Hlt|Hle].
  - right. split; [done|]. apply Q.max_l. lra.
  - left. split; [done|]. by apply Q.max_r.
Qed.

End LiveModeFacts.

(* ===================================================================== *)
(** * The live session at concrete inputs *)
(* ===================================================================== *)


(** C2 for an interrupted signal that arrives while two sources are
    active. *)
Lemma C2_interruption_witness :
  let msg := {| LiveMode.inlineData := None; LiveMode.interrupted := true |} in
  let st := LiveMode.set_sourcesRef {[ 3%nat; 4%nat ]}
              (LiveMode.set_outputAudioContextRef (Some 1%nat)
                 (LiveMode.set_nextStartTimeRef (5 # 2)
                    (@LiveMode.initialState (list Q)))) in
  let st' := LiveMode.step frameBlob (LiveMode.OnMessage (2 # 5) msg) st in
  Forall (λ source, LiveMode.Stop source ∈ LiveMode.calls st')
         (elements (LiveMode.sourcesRef st))
  ∧ True
  ∧ LiveMode.sourcesRef st' = ∅ ∧ LiveMode.nextStartTimeRef st' = 0%Q
  ∧ LiveMode.aiSpeaking st' = false.
Proof.
  intros msg st.
  apply (C2_interruption frameBlob msg st 1%nat
           (LiveMode.OnMessage (2 # 5) msg)).
  - reflexivity.
  - left. exists (2 # 5)%Q. repeat split; reflexivity.
Defined.

(** Two chunks of half a second, each decoded before the next arrives:
    the units start at 0 and 1/2 and the cursor ends at 1. *)
Lemma receiveAll_gapless_witness :
  let chunks := [(0%Q, msgA, halfSecond); (0%Q, msgB, halfSecond)] in
  let st := LiveMode.set_outputAudioContextRef (Some 1%nat)
              (@LiveMode.initialState (list Q)) in
  let ds := (λ chunk, WavCodec.duration chunk.2) <$> chunks in
  let st' := LiveMode.receiveAll frameBlob chunks st in
  ∃ whens : list Q,
    LiveMode.starts (LiveMode.calls st')
    = LiveMode.starts (LiveMode.calls st)
      ++ zip (seq (LiveMode.decodes st) (length chunks)) whens
    ∧ length whens = length chunks
    ∧ Forall2 Qeq whens
        ((λ k, LiveMode.Qsum (take k ds)) <$> seq 0 (length chunks))
    ∧ (LiveMode.nextStartTimeRef st' == LiveMode.Qsum ds)%Q.
Proof.
  intros chunks st.
  apply (receiveAll_gapless frameBlob chunks st 1%nat).
  - reflexivity.
  - reflexivity.
  - repeat constructor.
Defined.

(** C1, as the code has it, in an open session: [msgA] and [msgB] arrive
    while the clock reads 0, the decode of [msgB] returns first, with ten
    seconds of audio, then that of [msgA], with half a second. *)
Lemma C1_gapless_in_completion_order_witness :
  let es := [LiveMode.OnMessage 0 msgA; LiveMode.OnMessage 0 msgB;
             LiveMode.DecodeReturned 1 tenSeconds;
             LiveMode.DecodeReturned 0 halfSecond] in
  let st := sessionOpen in
  let units := LiveMode.decoded es in
  let ds := (λ unit, WavCodec.duration unit.2) <$> units in
  let st' := LiveMode.run frameBlob es st in
  ∃ whens : list Q,
    LiveMode.starts (LiveMode.calls st')
    = LiveMode.starts (LiveMode.calls st) ++ zip (fst <$> units) whens
    ∧ length whens = length units
    ∧ Forall2 Qeq whens
        ((λ k, LiveMode.Qsum (take k ds)) <$> seq 0 (length units))
    ∧ (LiveMode.nextStartTimeRef st' == LiveMode.Qsum ds)%Q.
Proof.
  intros es st.
  apply (C1_gapless_in_completion_order frameBlob es st 1%nat).
  - vm_compute. reflexivity.
  - unfold LiveMode.quietState. compute_done.
  - reflexivity.
  - repeat constructor.
  - vm_compute. reflexivity.
Defined.

(** C1 as stated fails: [msgA] arrives before [msgB], both while the cursor
    and the clock are 0 and with no interruption; the decode of [msgB]
    returns first, with ten seconds of audio, then that of [msgA], with half
    a second.  The unit of the first chunk is started at 10 and not at 0,
    that of the second chunk at 0 and not at 1/2, the duration of the
    first. *)
Lemma C1_arrival_order_fails :
  ∃ whenA whenB : Q,
    LiveMode.nextStartTimeRef sessionOpen = 0%Q
    ∧ bothArrived
      = LiveMode.run frameBlob
          [LiveMode.OnMessage 0 msgA; LiveMode.OnMessage 0 msgB] sessionOpen
    ∧ LiveMode.suspended bothArrived !! 0%nat = Some (1%nat, msgA)
    ∧ LiveMode.suspended bothArrived !! 1%nat = Some (1%nat, msgB)
    ∧ LiveMode.starts
        (LiveMode.calls
           (LiveMode.run frameBlob
              [LiveMode.DecodeReturned 1 tenSeconds;
               LiveMode.DecodeReturned 0 halfSecond] bothArrived))
      = [(1%nat, whenB); (0%nat, whenA)]
    ∧ (whenB == 0)%Q ∧ (whenA == 10)%Q
    ∧ ¬ (whenA == 0)%Q
    ∧ ¬ (whenB == WavCodec.duration halfSecond)%Q.
Proof.
  eexists _, _. split; [vm_compute; reflexivity|].
  split; [vm_compute; reflexivity|].
  split; [vm_compute; reflexivity|].
  split; [vm_compute; reflexivity|].
  split; [vm_compute; reflexivity|].
  split; [reflexivity|]. split; [reflexivity|].
  split; vm_compute; discriminate.
Qed.

(** C3 as stated fails: [msgA] arrives before [msgB], the decode of [msgB]
    returns first, and the unit of [msgB] is started at 0, that of [msgA]
    after it, at 1/2. *)
Lemma C3_completion_order_decides :
  ∃ whenA whenB : Q,
    LiveMode.suspended bothArrived !! 0%nat = Some (1%nat, msgA)
    ∧ LiveMode.suspended bothArrived !! 1%nat = Some (1%nat, msgB)
    ∧ LiveMode.starts
        (LiveMode.calls
           (LiveMode.run frameBlob
              [LiveMode.DecodeReturned 1 halfSecond;
               LiveMode.DecodeReturned 0 halfSecond] bothArrived))
      = [(1%nat, whenB); (0%nat, whenA)]
    ∧ (whenB == 0)%Q ∧ (whenA == 1 # 2)%Q ∧ (whenB < whenA)%Q.
Proof.
  eexists _, _. split; [vm_compute; reflexivity|].
  split; [vm_compute; reflexivity|].
  split; [vm_compute; reflexivity|].
  split; [reflexivity|]. split; reflexivity.
Qed.

(** C3, as the code has it, at the same run: the decode of [msgB] returns
    before that of [msgA]. *)
Lemma C3_scheduled_in_completion_order_witness :
  let st := bothArrived in
  let st1 := LiveMode.step frameBlob (LiveMode.DecodeReturned 1 halfSecond)
               st in
  let st2 := LiveMode.run frameBlob [] st1 in
  let st3 := LiveMode.step frameBlob (LiveMode.DecodeReturned 0 halfSecond)
               st2 in
  LiveMode.starts (LiveMode.calls st1)
  = LiveMode.starts (LiveMode.calls st)
    ++ [(1%nat, LiveMode.nextStartTimeRef st)]
  ∧ LiveMode.nextStartTimeRef st1
    = (LiveMode.nextStartTimeRef st + WavCodec.duration halfSecond)%Q
  ∧ LiveMode.starts (LiveMode.calls st3)
    = LiveMode.starts (LiveMode.calls st2)
      ++ [(0%nat, LiveMode.nextStartTimeRef st2)]
  ∧ LiveMode.nextStartTimeRef st3
    = (LiveMode.nextStartTimeRef st2 + WavCodec.duration halfSecond)%Q
  ∧ (LiveMode.nextStartTimeRef st <= LiveMode.nextStartTimeRef st2)%Q
  ∧ (LiveMode.nextStartTimeRef st + WavCodec.duration halfSecond
     <= LiveMode.nextStartTimeRef st2)%Q.
Proof.
  apply (C3_scheduled_in_completion_order frameBlob bothArrived []
           1%nat 0%nat halfSecond halfSecond 1%nat 1%nat msgB msgA).
  - unfold LiveMode.quietState. compute_done.
  - constructor.
  - vm_compute. reflexivity.
  - vm_compute. reflexivity.
Defined.

(** C6 for two frames captured before the resolution and one after it; the
    events of the failing run are the connection failure and one more
    frame. *)
Lemma C6_sends_deferred_in_order_witness :
  let st := @LiveMode.initialState (list Q) in
  let pre := [[1 # 10; 0]; [0; 0]]%Q in
  let post := [[1 # 2; 1 # 3]]%Q in
  let es := [LiveMode.StartSessionThrew; LiveMode.OnAudioProcess [0%Q]] in
  let before := LiveMode.run frameBlob (LiveMode.OnAudioProcess <$> pre) st in
  let resolved := LiveMode.step frameBlob (LiveMode.ConnectReturned 7%nat)
                    before in
  let after := LiveMode.run frameBlob (LiveMode.OnAudioProcess <$> post)
                 resolved in
  LiveMode.calls before = LiveMode.calls st
  ∧ LiveMode.calls resolved
    = LiveMode.calls st
      ++ (LiveMode.SendRealtimeInput 7%nat <$> (frameBlob <$> pre))
  ∧ LiveMode.calls after
    = LiveMode.calls st
      ++ (LiveMode.SendRealtimeInput 7%nat <$> (frameBlob <$> (pre ++ post)))
  ∧ LiveMode.sent (LiveMode.calls (LiveMode.run frameBlob es before))
    = LiveMode.sent (LiveMode.calls st).
Proof.
  intros st pre post es.
  apply (C6_sends_deferred_in_order frameBlob st 7%nat pre post es).
  - reflexivity.
  - reflexivity.
  - repeat constructor; intros session' H; discriminate H.
Defined.

(** The teardown of [afterFirstSession] and the session that follows it. *)
Lemma C10_stopAll_keeps_cursor_witness :
  let st := afterFirstSession in
  let chunk := (1%Q, msgB, halfSecond) in
  let torn := LiveMode.stopAll st in
  let st2 := LiveMode.run frameBlob (openSession 101%nat 201%nat) torn in
  let st3 := LiveMode.receive frameBlob chunk st2 in
  (LiveMode.streamRef torn = None ∧ LiveMode.processorRef torn = None
   ∧ LiveMode.sourceRef torn = None
   ∧ LiveMode.inputAudioContextRef torn = None
   ∧ LiveMode.outputAudioContextRef torn = None
   ∧ LiveMode.sessionRef torn = None ∧ LiveMode.sourcesRef torn = ∅
   ∧ LiveMode.connected torn = false ∧ LiveMode.speaking torn = false
   ∧ LiveMode.aiSpeaking torn = false)
  ∧ LiveMode.nextStartTimeRef torn = LiveMode.nextStartTimeRef st
  ∧ LiveMode.nextStartTimeRef st2 = LiveMode.nextStartTimeRef st
  ∧ ∃ when : Q,
      LiveMode.starts (LiveMode.calls st3)
      = LiveMode.starts (LiveMode.calls st2)
        ++ [(LiveMode.decodes st2, when)]
      ∧ when = Qmax (LiveMode.nextStartTimeRef st) chunk.1.1
      ∧ (chunk.1.1 <= when)%Q
      ∧ ((LiveMode.nextStartTimeRef st <= chunk.1.1 ∧ when == chunk.1.1)
         ∨ (chunk.1.1 < LiveMode.nextStartTimeRef st
            ∧ when == LiveMode.nextStartTimeRef st))%Q.
Proof.
  intros st chunk.
  apply (C10_stopAll_keeps_cursor frameBlob st 101%nat 201%nat chunk).
  split; reflexivity.
Defined.

(** C10. The first chunk of a new session is not scheduled correctly by
    the raise of the cursor to [max(nextStartTime, clock.now())] when the
    cursor retained across [stopAll] is ahead of the clock of the new
    context: the first session scheduled ten seconds of audio and was torn
    down; the first chunk of the next session arrives when the clock of its
    new context reads 1, and it is started at 10, nine seconds later, where
    a component that has just mounted starts the same chunk at 1. *)
Lemma C10_stale_cursor_delays :
  ∃ whenStale whenFresh : Q,
    LiveMode.nextStartTimeRef (LiveMode.stopAll afterFirstSession)
    = LiveMode.nextStartTimeRef afterFirstSession
    ∧ LiveMode.starts
        (LiveMode.calls
           (LiveMode.run frameBlob
              (openSession 101%nat 201%nat
               ++ [LiveMode.OnMessage 1 msgB;
                   LiveMode.DecodeReturned 1 halfSecond])
              (LiveMode.stopAll afterFirstSession)))
      = [(0%nat, 0%Q); (1%nat, whenStale)]
    ∧ LiveMode.starts
        (LiveMode.calls
           (LiveMode.run frameBlob
              (openSession 101%nat 201%nat
               ++ [LiveMode.OnMessage 1 msgB;
                   LiveMode.DecodeReturned 0 halfSecond])
              (@LiveMode.initialState (list Q))))
      = [(0%nat, whenFresh)]
    ∧ (whenStale == 10)%Q ∧ (whenFresh == 1)%Q.
Proof.
  eexists _, _. split; [vm_compute; reflexivity|].
  split; [vm_compute; reflexivity|].
  split; [vm_compute; reflexivity|].
  split; reflexivity.
Qed.

(* ===================================================================== *)
(** * Further properties of the WAV writer *)
(* ===================================================================== *)

Section WavCodecMore.
Import WavCodec.

(** X1. [bufferToWav] throws exactly for a buffer without channels (the
    [getChannelData(0)] of line 516). *)
Theorem bufferToWav_throws_iff (abuffer : AudioBuffer) (sr : Z) :
  bufferToWav abuffer sr = None ↔ numberOfChannels abuffer = 0%nat.
Proof.
  split.
  - intros Hnone.
    destruct (decide (1 ≤ numberOfChannels abuffer)%nat) as [Hc|Hc]; [|lia].
    rewrite bufferToWav_bytes in Hnone by done. discriminate Hnone.
  - unfold bufferToWav, getChannelData, numberOfChannels.
    destruct (channelData abuffer); [done|discriminate].
Qed.

(** X2. The result, byte for byte: the 44 bytes of the header, then the frames
    from frame 44 on (the data loop starts at the [pos] the header writers
    left), then zeros up to the length of the ArrayBuffer: the first 44
    frames of every channel are not written, and a buffer of at most 44
    frames gives a data section of zeros. *)
Theorem bufferToWav_layout (abuffer : AudioBuffer) (sr : Z) :
  (1 ≤ numberOfChannels abuffer)%nat →
  let n := bufLength abuffer in
  let c := numberOfChannels abuffer in
  bufferToWav abuffer sr
  = Some (wavHeader c sr (n * c * 2 + 44)
          ++ dataBytes abuffer (seq 44 (n - 44))
          ++ replicate (2 * c * (n `min` 44)) 0)
  ∧ length (dataBytes abuffer (seq 44 (n - 44))) = (2 * c * (n - 44))%nat.
Proof.
  intros Hc n c. split; [by apply bufferToWav_bytes|].
  by rewrite length_dataBytes, length_seq.
Qed.

(** Lookup in a concatenation of blocks of one length. *)
Lemma lookup_bind_uniform {A : Type} (f : A → list Z) (L : nat)
    (xs : list A) :
  (∀ y, length (f y) = L) →
  ∀ k j x, xs !! k = Some x → (j < L)%nat →
  (xs ≫= f) !! (k * L + j)%nat = f x !! j.
Proof.
  intros HL. induction xs as [|y xs IH]; intros k j x Hk Hj; [done|].
  rewrite bind_cons. destruct k as [|k].
  - injection Hk as ->. cbn [Nat.mul Nat.add].
    by rewrite lookup_app_l by (rewrite HL; lia).
  - cbn [lookup list_lookup] in Hk.
    rewrite lookup_app_r by (rewrite HL; lia). rewrite HL.
    replace (S k * L + j - L)%nat with (k * L + j)%nat by lia.
    by apply IH.
Qed.

Lemma sampleAt_range (abuffer : AudioBuffer) (pos i : nat) :
  -32768 ≤ sampleAt abuffer pos i ≤ 32767.
Proof.
  unfold sampleAt. destruct (getChannelData abuffer i) as [ch|]; [|lia].
  destruct (ch !! pos) as [x|]; [|lia]. apply quantize_range.
Qed.

Lemma length_frameBytes_seq (abuffer : AudioBuffer) (pos : nat) :
  length (frameBytes abuffer pos (seq 0 (numberOfChannels abuffer)))
  = (2 * numberOfChannels abuffer)%nat.
Proof. by rewrite length_frameBytes, length_seq. Qed.

(** The byte [b] (0 or 1) of the sample of frame [p], channel [i]. *)
Lemma dataBytes_lookup (abuffer : AudioBuffer) (n p i b : nat) :
  (44 ≤ p < n)%nat → (i < numberOfChannels abuffer)%nat → (b < 2)%nat →
  dataBytes abuffer (seq 44 (n - 44))
    !! (2 * ((p - 44) * numberOfChannels abuffer + i) + b)%nat
  = le16 (sampleAt abuffer p i) !! b.
Proof.
  intros Hp Hi Hb. unfold dataBytes.
  replace (2 * ((p - 44) * numberOfChannels abuffer + i) + b)%nat
    with ((p - 44) * (2 * numberOfChannels abuffer) + (i * 2 + b))%nat by lia.
  rewrite (lookup_bind_uniform _ (2 * numberOfChannels abuffer) _
             (λ pos, length_frameBytes_seq abuffer pos) (p - 44) _ p).
  - unfold frameBytes.
    rewrite (lookup_bind_uniform (λ i, le16 (sampleAt abuffer p i)) 2
               (seq 0 (numberOfChannels abuffer)) (λ _, eq_refl) i b i);
      [done| |done].
    rewrite lookup_seq. split; [done|lia].
  - rewrite lookup_seq. split; lia.
  - nia.
Qed.

(** X3. A frame from 44 on reads back from the data section as the quantised
    sample, 44 frames earlier than its position in the buffer: frame [p] of
    channel [i] is the 16-bit value at data offset 2 * ((p - 44) * c + i). *)
Theorem bufferToWav_sample (abuffer : AudioBuffer) (sr : Z) (out : list Z)
    (ch : list Q) (x : Q) (p i : nat) :
  bufferToWav abuffer sr = Some out →
  getChannelData abuffer i = Some ch → ch !! p = Some x →
  (44 ≤ p < bufLength abuffer)%nat →
  getInt16 out (44 + 2 * ((p - 44) * numberOfChannels abuffer + i))
  = Some (quantize x).
Proof.
  intros Hout Hch Hx Hp.
  assert (Hi : (i < numberOfChannels abuffer)%nat).
  { unfold getChannelData, numberOfChannels in *. by eapply lookup_lt_Some. }
  rewrite bufferToWav_bytes in Hout by lia. cbv zeta in Hout.
  apply (inj Some) in Hout.
  set (n := bufLength abuffer) in *. set (c := numberOfChannels abuffer) in *.
  set (m := (2 * ((p - 44) * c + i))%nat).
  assert (Hlen : length (wavHeader c sr (n * c * 2 + 44)) = 44%nat) by done.
  assert (Hbyte : ∀ b, (b < 2)%nat →
            out !! (44 + m + b)%nat = le16 (sampleAt abuffer p i) !! b).
  { intros b Hb. rewrite <- Hout.
    rewrite lookup_app_r by (rewrite Hlen; lia). rewrite Hlen.
    replace (44 + m + b - 44)%nat with (m + b)%nat by lia.
    rewrite lookup_app_l
      by (rewrite length_dataBytes, length_seq; fold c; subst m; nia).
    subst m c. by apply dataBytes_lookup. }
  unfold getInt16, getUint16.
  pose proof (Hbyte 0%nat) as H0. pose proof (Hbyte 1%nat) as H1.
  rewrite Nat.add_0_r in H0.
  replace (S (44 + m)) with (44 + m + 1)%nat by lia.
  rewrite H0, H1 by lia. cbn [le16 lookup list_lookup].
  rewrite le16_value.
  assert (Hs : sampleAt abuffer p i = quantize x).
  { unfold sampleAt. by rewrite Hch, Hx. }
  pose proof (sampleAt_range abuffer p i) as Hr. rewrite Hs in *.
  f_equal. case_decide; Z.to_euclidean_division_equations; lia.
Qed.

(** X4. The tags and sizes of the RIFF and [fmt ] chunks (lines 522-527): the
    RIFF size is the length of the file less 8. *)
Theorem bufferToWav_riff_fields (abuffer : AudioBuffer) (sr : Z) (out : list Z) :
  bufferToWav abuffer sr = Some out →
  Z.of_nat (length out) < 2 ^ 32 →
  getUint32 out 0 = Some 0x46464952
  ∧ getUint32 out 4 = Some (Z.of_nat (length out) - 8)
  ∧ getUint32 out 8 = Some 0x45564157
  ∧ getUint32 out 12 = Some 0x20746d66
  ∧ getUint32 out 16 = Some 16.
Proof.
  intros Hout Hfit.
  destruct (decide (1 ≤ numberOfChannels abuffer)%nat) as [Hc|Hc].
  2:{ unfold bufferToWav, getChannelData, numberOfChannels in *.
      destruct (channelData abuffer); [discriminate Hout|cbn in Hc; lia]. }
  destruct (bufferToWav_header abuffer sr Hc) as (out' & Hout' & Hlen & Hhdr).
  rewrite Hout in Hout'. injection Hout' as <-.
  pose proof (wavHeader_fields (numberOfChannels abuffer) sr
                (bufLength abuffer * numberOfChannels abuffer * 2 + 44))
    as Hf.
  cbv zeta in Hf. rewrite <- Hhdr in Hf.
  rewrite !getUint16_take, !getUint32_take in Hf by lia.
  destruct Hf as (H0 & H4 & H8 & H12 & H16 & _).
  rewrite H0, H4, H8, H12, H16.
  replace (Z.of_nat (bufLength abuffer * numberOfChannels abuffer * 2 + 44))
    with (Z.of_nat (length out)) by lia.
  rewrite Z.mod_small by lia. done.
Qed.

(** ** Order of the quantised samples *)

Lemma clamp_mono (x y : Q) : (x <= y)%Q → (clamp x <= clamp y)%Q.
Proof.
  intros H. unfold clamp.
  apply Q.max_le_compat_l, Q.min_le_compat_l, H.
Qed.

Lemma scaleSample_mono (s t : Q) :
  (s <= t)%Q → (scaleSample s <= scaleSample t)%Q.
Proof.
  intros H. unfold scaleSample.
  destruct (Qcompare_spec ((1 # 2) + s) 0);
    destruct (Qcompare_spec ((1 # 2) + t) 0); lra.
Qed.

(** Truncation against an integer bound. *)
Lemma Qtruncate_ge (q : Q) (k : Z) :
  k ≤ Qtruncate q ↔ (if decide (0 < k) then (inject_Z k <= q)%Q
                      else (inject_Z (k - 1) < q)%Q).
Proof.
  destruct q as [n d]. unfold Qtruncate, Qle, Qlt. cbn [Qnum Qden inject_Z].
  case_decide; split; intros; Z.to_euclidean_division_equations; nia.
Qed.

Lemma Qtruncate_mono (q1 q2 : Q) :
  (q1 <= q2)%Q → Qtruncate q1 ≤ Qtruncate q2.
Proof.
  intros H. apply Qtruncate_ge.
  pose proof (proj1 (Qtruncate_ge q1 (Qtruncate q1)) (Z.le_refl _)) as H1.
  case_decide; lra.
Qed.

(** X5. The quantisation keeps the order of the samples, across the switch of
    the scale at -1/2 too. *)
Theorem quantize_mono (x y : Q) : (x <= y)%Q → quantize x ≤ quantize y.
Proof.
  intros H.
  rewrite (proj1 (quantize_range x)), (proj1 (quantize_range y)).
  by apply Qtruncate_mono, scaleSample_mono, clamp_mono.
Qed.

(** X6. Samples outside [-1, 1] are not rejected: they are stored as the
    extremes 32767 and -32768. *)
Theorem quantize_saturates (x : Q) :
  (1 <= x ∨ x <= -1)%Q →
  quantize x = if Qle_bool 1 x then 32767 else -32768.
Proof.
  assert (Hval : ∀ q (k : Z), (q == k # 1)%Q → Qtruncate q = k).
  { intros [n d] k. unfold Qtruncate, Qeq. cbn [Qnum Qden].
    intros. Z.to_euclidean_division_equations. nia. }
  rewrite !(proj1 (quantize_range x)).
  intros H. destruct (Qle_bool 1 x) eqn:Hb.
  - apply Qle_bool_iff in Hb. apply Hval. unfold scaleSample, clamp.
    assert (Hc : (Qmax (-1) (Qmin 1 x) == 1)%Q).
    { rewrite Q.min_l by done. apply Q.max_r. lra. }
    destruct (Qcompare_spec ((1 # 2) + Qmax (-1) (Qmin 1 x)) 0); lra.
  - assert (Hx : (x <= -1)%Q).
    { destruct H as [H|H]; [|done]. apply Qle_bool_iff in H. congruence. }
    apply Hval. unfold scaleSample, clamp.
    assert (Hc : (Qmax (-1) (Qmin 1 x) == -1)%Q).
    { rewrite Q.min_r by lra. apply Q.max_l. done. }
    destruct (Qcompare_spec ((1 # 2) + Qmax (-1) (Qmin 1 x)) 0); lra.
Qed.

End WavCodecMore.

(* ===================================================================== *)
(** * Further properties of the render pipeline *)
(* ===================================================================== *)

Section TTSModeMore.
Import TTSMode.

Ltac fields :=
  cbn [text selectedLang loading error audioUrl isOfflineMode playbackSpeed
       selectedVoiceId offlinePacks isPlaying audioContextRef audioRef
       speechSynthesis generateContent
       setLoading setError setAudioUrl setIsPlaying setOfflinePacks
       setAudioContextRef setAudioRef speech remoteCall
       finallyBlock catchBlock] in *.

(** ** Blank text *)

Lemma trimStart_blank (s : JSString) :
  Forall (λ c, isWhiteSpace c = true) s → trimStart s = [].
Proof.
  induction s as [|c s IH]; [done|]. cbn [trimStart].
  intros H. apply Forall_cons in H as [-> H]. by apply IH.
Qed.

(** What [trimStart] leaves starts with a code unit that is not white
    space. *)
Lemma trimStart_head (s : JSString) (c : N) (s' : JSString) :
  trimStart s = c :: s' → isWhiteSpace c = false.
Proof.
  induction s as [|d s IH]; [done|]. cbn [trimStart].
  destruct (isWhiteSpace d) eqn:Hd; [done|]. by intros [= <- _].
Qed.

Lemma trimStart_empty (s : JSString) :
  trimStart s = [] → Forall (λ c, isWhiteSpace c = true) s.
Proof.
  induction s as [|c s IH]; [constructor|]. cbn [trimStart].
  destruct (isWhiteSpace c) eqn:Hc; [|done]. intros H. constructor; auto.
Qed.

(** [trim] leaves nothing exactly of the texts made of white space and
    line terminators. *)
Lemma trim_blank (s : JSString) :
  trim s = [] ↔ Forall (λ c, isWhiteSpace c = true) s.
Proof.
  unfold trim. split.
  - intros H. apply (f_equal (@rev N)) in H. rewrite rev_involutive in H.
    cbn [rev] in H. apply trimStart_empty in H.
    apply Forall_rev in H. rewrite rev_involutive in H.
    apply trimStart_empty.
    destruct (trimStart s) as [|c s'] eqn:Hs; [done|].
    apply trimStart_head in Hs. apply Forall_cons in H as [H _]. congruence.
  - intros H. by rewrite (trimStart_blank s H).
Qed.

(** X7. A text made of white space only (the empty text too) is ignored:
    [handleGenerate] returns without a state change, without a call on the
    synthesizer or the remote service, and with nothing pending. *)
Theorem handleGenerate_whitespace (apiKey : bool) (inputText : JSString)
    (st : State) :
  Forall (λ c, isWhiteSpace c = true) inputText →
  handleGenerate apiKey inputText st = (st, None).
Proof. intros H. apply handleGenerate_blank. by apply trim_blank. Qed.

(** ** The calls of a render *)

(** X8. The calls of [handleGenerate] for a text that is not blank: on
    [speechSynthesis] a [cancel()] comes first, followed by at most one
    [speak], and only in offline mode; at most one remote request is made,
    and only in online mode; a [speak] and a request are never both
    made. *)
Theorem handleGenerate_calls_made (apiKey : bool) (inputText : JSString)
    (st : State) :
  trim inputText ≠ [] →
  let st' := (handleGenerate apiKey inputText st).1 in
  ∃ spoken requested,
    speechSynthesis st' = speechSynthesis st ++ SpeechCancel :: spoken
    ∧ generateContent st' = generateContent st ++ requested
    ∧ (length spoken + length requested ≤ 1)%nat
    ∧ (if isOfflineMode st then requested = [] else spoken = []).
Proof.
  intros Htext. cbv zeta. unfold handleGenerate.
  rewrite decide_False by done. fields.
  destruct (isOfflineMode st) eqn:Hoff.
  - unfold handleOfflineGenerate, findPack. fields.
    destruct (List.find _ (offlinePacks st)) as [p|];
      [destruct (downloaded p)|]; cbn [negb fst]; fields.
    + eexists [_], []. rewrite <- app_assoc, app_nil_r. done.
    + exists [], []. rewrite !app_nil_r. repeat split; cbn; lia.
    + eexists [_], []. rewrite <- app_assoc, app_nil_r. done.
  - unfold handleOnlineGenerate. destruct apiKey; cbn [negb fst]; fields.
    + eexists [], [_]. done.
    + exists [], []. rewrite !app_nil_r. repeat split; cbn; lia.
Qed.

(** ** The online path *)

(** X9. Without an API key the online call fails before the remote service is
    contacted: the error message is shown and the component is idle
    again. *)
Theorem handleGenerate_no_api_key (inputText : JSString) (st : State) :
  trim inputText ≠ [] → isOfflineMode st = false →
  let r := handleGenerate false inputText st in
  r.2 = None
  ∧ error r.1 = Some "API Key missing"
  ∧ generateContent r.1 = generateContent st
  ∧ loading r.1 = false ∧ isPlaying r.1 = false ∧ audioUrl r.1 = None
  ∧ renderState r.1 = Error.
Proof.
  intros Htext Hoff. cbv zeta. unfold handleGenerate, renderState.
  rewrite decide_False by done. fields. rewrite Hoff.
  cbn [handleOnlineGenerate negb fst snd]. fields. done.
Qed.

(** X10. A successful online render, from the click to the Blob URL: one remote
    call with the text and the selected voice; once the payload is decoded
    to a buffer with a channel, the URL is installed, no error is shown and
    [loading] is false.  [isPlaying] is still true, as set at the click: the
    component shows the Stop button until the sink ends or the user
    stops. *)
Theorem online_render_succeeds (inputText : JSString)
    (data url message : string)
    (audioBuffer : WavCodec.AudioBuffer) (st : State) :
  trim inputText ≠ [] → isOfflineMode st = false →
  data ≠ EmptyString →
  (1 ≤ WavCodec.numberOfChannels audioBuffer)%nat →
  let r1 := handleGenerate true inputText st in
  let r2 := generateContent_returned (Some data) r1.1 in
  let st3 := decode_returned audioBuffer url message r2.1 in
  r1.2 = Some AwaitGenerateContent ∧ r2.2 = Some AwaitDecode
  ∧ generateContent st3
    = generateContent st ++ [(inputText, selectedVoiceId st)]
  ∧ speechSynthesis st3 = speechSynthesis st ++ [SpeechCancel]
  ∧ audioUrl st3 = Some url ∧ error st3 = None
  ∧ loading st3 = false ∧ isPlaying st3 = true
  ∧ renderState st3 = Playing
  ∧ renderState (audio_onEnded st3) = Idle
  ∧ renderState (stopPlayback st3) = Idle.
Proof.
  intros Htext Hoff Hdata Hc. cbv zeta.
  unfold handleGenerate. rewrite decide_False by done. fields. rewrite Hoff.
  cbn [handleOnlineGenerate negb fst snd]. unfold generateContent_returned.
  rewrite decide_False by done. cbn [fst snd].
  unfold decode_returned.
  destruct (WavCodec.bufferToWav audioBuffer 24000) eqn:Hwav.
  2:{ rewrite bufferToWav_bytes in Hwav by done. discriminate Hwav. }
  unfold renderState, audio_onEnded, stopPlayback. fields.
  destruct (audioRef st); fields; done.
Qed.

(** X11. A response without audio (no inline data, or an empty payload) ends
    the render with the error "No audio data returned". *)
Theorem online_render_no_audio (inputText : JSString)
    (base64Audio : option string)
    (st : State) :
  trim inputText ≠ [] → isOfflineMode st = false →
  base64Audio = None ∨ base64Audio = Some EmptyString →
  let r1 := handleGenerate true inputText st in
  let r2 := generateContent_returned base64Audio r1.1 in
  r2.2 = None
  ∧ error r2.1 = Some "No audio data returned"
  ∧ audioUrl r2.1 = None ∧ audioContextRef r2.1 = audioContextRef st
  ∧ loading r2.1 = false ∧ isPlaying r2.1 = false
  ∧ renderState r2.1 = Error.
Proof.
  intros Htext Hoff Hresp. cbv zeta.
  unfold handleGenerate. rewrite decide_False by done. fields. rewrite Hoff.
  cbn [handleOnlineGenerate negb fst snd]. unfold generateContent_returned.
  destruct Hresp as [-> | ->]; [|rewrite decide_True by done];
    cbn [fst snd]; unfold renderState; fields; done.
Qed.

(** X12. There is no cancellation of a render in flight: after a stop during
    the remote call the response is still decoded and its URL installed;
    the component ends idle with the new audio URL. *)
Theorem stop_does_not_cancel_render (inputText : JSString)
    (data url message : string)
    (audioBuffer : WavCodec.AudioBuffer) (st : State) :
  trim inputText ≠ [] → isOfflineMode st = false →
  data ≠ EmptyString →
  (1 ≤ WavCodec.numberOfChannels audioBuffer)%nat →
  let st1 := stopPlayback (handleGenerate true inputText st).1 in
  let st3 := decode_returned audioBuffer url message
               (generateContent_returned (Some data) st1).1 in
  renderState st1 = Generating
  ∧ audioUrl st3 = Some url ∧ loading st3 = false ∧ isPlaying st3 = false
  ∧ error st3 = None ∧ renderState st3 = Idle.
Proof.
  intros Htext Hoff Hdata Hc. cbv zeta.
  unfold handleGenerate. rewrite decide_False by done. fields. rewrite Hoff.
  cbn [handleOnlineGenerate negb fst snd]. unfold generateContent_returned.
  rewrite decide_False by done. cbn [fst snd].
  unfold decode_returned.
  destruct (WavCodec.bufferToWav audioBuffer 24000) eqn:Hwav.
  2:{ rewrite bufferToWav_bytes in Hwav by done. discriminate Hwav. }
  unfold renderState, stopPlayback. fields.
  destruct (audioRef st); fields; done.
Qed.

(** ** The offline path *)

(** [handleGenerate] in offline mode, for a pack that is downloaded. *)
Lemma handleGenerate_offline_speaks (apiKey : bool) (inputText : JSString)
    (st : State) (p : OfflinePack) :
  trim inputText ≠ [] → isOfflineMode st = true →
  findPack st = Some p → downloaded p = true →
  handleGenerate apiKey inputText st
  = (speech (SpeechSpeak {| uText := inputText;
                            uLocale := if decide (localeCode p = EmptyString)
                                       then "en-US" else localeCode p;
                            uRate := playbackSpeed st; uPitch := 1 |})
       (speech SpeechCancel
          (setIsPlaying true
             (setAudioUrl None (setError None (setLoading true st))))),
     Some AwaitUtterance).
Proof.
  intros Htext Hoff Hp Hd. unfold handleGenerate.
  rewrite decide_False by done. fields. rewrite Hoff.
  unfold handleOfflineGenerate.
  replace (findPack _) with (Some p) by (rewrite <- Hp; reflexivity).
  rewrite Hd. cbn [negb]. fields. reflexivity.
Qed.


(** X14. When the utterance fails, the error "Offline speech synthesis failed"
    is shown and nothing is left playing or loading. *)
Theorem offline_render_fails (apiKey : bool) (inputText : JSString)
    (st : State) (p : OfflinePack) :
  trim inputText ≠ [] → isOfflineMode st = true →
  findPack st = Some p → downloaded p = true →
  let failed := utterance_onerror (handleGenerate apiKey inputText st).1 in
  error failed = Some "Offline speech synthesis failed"
  ∧ loading failed = false ∧ isPlaying failed = false
  ∧ renderState failed = Error.
Proof.
  intros Htext Hoff Hp Hd. cbv zeta.
  rewrite (handleGenerate_offline_speaks apiKey inputText st p) by done.
  cbn [fst snd]. unfold renderState, utterance_onerror. fields. done.
Qed.


(** ** Downloading a pack *)

Lemma find_language_map (lang : SALanguage) (g : OfflinePack → OfflinePack)
    (packs : list OfflinePack) :
  (∀ p, language (g p) = language p) →
  List.find (λ p, bool_decide (language p = lang)) (map g packs)
  = g <$> List.find (λ p, bool_decide (language p = lang)) packs.
Proof.
  intros Hg. induction packs as [|p packs IH]; [done|].
  cbn [map List.find]. rewrite Hg.
  destruct (bool_decide (language p = lang)); [done|exact IH].
Qed.

(** X16. [handleDownloadPack] marks the packs with the given id and changes
    nothing else: the packs keep their place, id, language, locale and
    size, a pack that was downloaded stays so, and a second download of
    the same id changes nothing more. *)
Theorem handleDownloadPack_marks (id : string) (st : State) :
  let st' := handleDownloadPack id st in
  Forall2 (λ p p', pack_id p' = pack_id p ∧ language p' = language p
                   ∧ localeCode p' = localeCode p
                   ∧ pack_size p' = pack_size p
                   ∧ downloaded p'
                     = downloaded p || bool_decide (pack_id p = id))
          (offlinePacks st) (offlinePacks st')
  ∧ handleDownloadPack id st' = st'
  ∧ setOfflinePacks (offlinePacks st) st' = st.
Proof.
  cbv zeta. unfold handleDownloadPack. fields. split; [|split].
  - induction (offlinePacks st) as [|p packs IH]; [constructor|].
    cbn [map]. constructor; [|exact IH].
    case_decide as Hid.
    + rewrite bool_decide_eq_true_2 by done. cbn. by rewrite orb_true_r.
    + rewrite bool_decide_eq_false_2 by done. by rewrite orb_false_r.
  - apply TTS_State_ext; fields; try reflexivity.
    rewrite map_map. apply map_ext. intros p.
    destruct (decide (pack_id p = id)) as [Hid|Hid]; cbn [pack_id].
    + by rewrite decide_True.
    + by rewrite decide_False.
  - apply TTS_State_ext; fields; reflexivity.
Qed.

(** X17. After the pack of the selected language has been downloaded, an
    offline render of that language is no longer refused: it reaches
    [speak]. *)
Theorem download_enables_offline (apiKey : bool) (inputText : JSString)
    (st : State) (p : OfflinePack) :
  trim inputText ≠ [] → isOfflineMode st = true →
  findPack st = Some p →
  let r := handleGenerate apiKey inputText
             (handleDownloadPack (pack_id p) st) in
  r.2 = Some AwaitUtterance ∧ error r.1 = None
  ∧ ∃ u, speechSynthesis r.1 = speechSynthesis st ++ [SpeechCancel; SpeechSpeak u]
         ∧ uText u = inputText.
Proof.
  intros Htext Hoff Hp. cbv zeta.
  set (p' := {| pack_id := pack_id p; language := language p;
                localeCode := localeCode p; pack_size := pack_size p;
                downloaded := true |}).
  assert (Hp' : findPack (handleDownloadPack (pack_id p) st) = Some p').
  { unfold findPack, handleDownloadPack in *. fields.
    rewrite find_language_map by (intros q; by case_decide).
    rewrite Hp. cbn [fmap option_fmap option_map]. by rewrite decide_True. }
  rewrite (handleGenerate_offline_speaks apiKey inputText _ p') by done.
  cbn [fst snd]. unfold handleDownloadPack. fields.
  split; [done|]. split; [done|].
  eexists. rewrite <- app_assoc. split; [reflexivity|done].
Qed.

End TTSModeMore.

(* ===================================================================== *)
(** * Further properties of the live session *)
(* ===================================================================== *)

Section LiveModeMore.
Import WavCodec LiveMode.

Context {Blob : Type}.
Variable createPcmBlob : list Q → Blob.

Local Abbreviation State := (@State Blob).

Ltac fields :=
  cbn [connected speaking aiSpeaking logs inputAudioContextRef
       outputAudioContextRef sessionRef streamRef processorRef sourceRef
       nextStartTimeRef sourcesRef sessionPromise decodes suspended
       microtasks calls allocated
       call set_connected set_speaking set_aiSpeaking set_logs
       set_inputAudioContextRef set_outputAudioContextRef set_sessionRef
       set_streamRef set_processorRef set_sourceRef set_nextStartTimeRef
       set_sourcesRef set_sessionPromise set_decodes set_suspended
       set_microtasks set_calls set_allocated log] in *.

Ltac cases_refs :=
  repeat (fields;
          match goal with
          | |- context [match ?x with Some _ => _ | None => _ end] =>
              destruct x eqn:?
          end).

(** ** Teardown *)

(** A component that is torn down is left alone by [stopAll]. *)
Lemma stopAll_torn (st : State) :
  streamRef st = None → processorRef st = None → sourceRef st = None →
  inputAudioContextRef st = None → outputAudioContextRef st = None →
  sessionRef st = None → sourcesRef st = ∅ →
  connected st = false → speaking st = false → aiSpeaking st = false →
  stopAll st = st.
Proof.
  intros H1 H2 H3 H4 H5 H6 H7 H8 H9 H10. unfold stopAll.
  rewrite H1. fields. rewrite H2. fields. rewrite H3. fields.
  rewrite H4. fields. rewrite H5. fields. rewrite H6. fields.
  apply Live_State_ext; fields; try done.
  rewrite H7, elements_empty. cbn. by rewrite app_nil_r.
Qed.

(** X18. [stopAll] is idempotent: a second teardown (a close after an error,
    the unmount after the End Session button) makes no call and changes
    nothing. *)
Theorem stopAll_idempotent (st : State) : stopAll (stopAll st) = stopAll st.
Proof.
  destruct (stopAll_frame st)
    as ((H1 & H2 & H3 & H4 & H5 & H6 & H7 & H8 & H9 & H10) & _).
  by apply stopAll_torn.
Qed.

Lemma stopAll_logs (st : State) :
  logs (stopAll st) = logs st ∧ allocated (stopAll st) = allocated st.
Proof. unfold stopAll. cases_refs; fields; done. Qed.

(** The handlers on a component without audio contexts. *)
Lemma onmessage_without_context (currentTime : Q) (msg : ServerMessage)
    (st : State) :
  outputAudioContextRef st = None →
  handle createPcmBlob (OnMessage currentTime msg) st = st.
Proof. intros H. cbn [handle]. unfold onmessage. by rewrite H. Qed.

Lemma onopen_without_context (st : State) :
  inputAudioContextRef st = None →
  handle createPcmBlob OnOpen st = log "Connected! Start talking." st.
Proof. intros H. cbn [handle]. unfold onopen. fields. by rewrite H. Qed.

(** X19. A message that arrives after the teardown is dropped, with its
    interrupted signal: the handler returns at the null check of the output
    context. *)
Theorem onmessage_after_stopAll (currentTime : Q) (msg : ServerMessage)
    (st : State) :
  handle createPcmBlob (OnMessage currentTime msg) (stopAll st) = stopAll st.
Proof.
  apply onmessage_without_context.
  exact (proj1 (proj2 (proj2 (proj2 (proj2 (proj1 (stopAll_frame st))))))).
Qed.

(** An [onopen] on a component without input context and capture chain
    only logs. *)
Lemma onopen_idle (st : State) :
  inputAudioContextRef st = None →
  processorRef st = None → sourceRef st = None →
  processorRef (handle createPcmBlob OnOpen st) = None
  ∧ sourceRef (handle createPcmBlob OnOpen st) = None
  ∧ calls (handle createPcmBlob OnOpen st) = calls st
  ∧ allocated (handle createPcmBlob OnOpen st) = allocated st
  ∧ set_logs (logs st) (handle createPcmBlob OnOpen st) = st.
Proof.
  intros Hctx Hp Hs. rewrite (onopen_without_context st Hctx).
  split; [exact Hp|]. split; [exact Hs|]. split; [reflexivity|].
  split; [reflexivity|]. apply Live_State_ext; reflexivity.
Qed.

(** X20. An [onopen] that fires after the teardown attaches no capture chain:
    it only logs. *)
Theorem onopen_after_stopAll (st : State) :
  let st' := handle createPcmBlob OnOpen (stopAll st) in
  processorRef st' = None ∧ sourceRef st' = None
  ∧ calls st' = calls (stopAll st) ∧ allocated st' = allocated st
  ∧ set_logs (logs (stopAll st)) st' = stopAll st.
Proof.
  destruct (stopAll_frame st) as ((_ & Hp & Hs & Hctx & _) & _).
  destruct (stopAll_logs st) as [_ Ha].
  destruct (onopen_idle (stopAll st) Hctx Hp Hs) as (H1 & H2 & H3 & H4 & H5).
  exact (conj H1 (conj H2 (conj H3 (conj (eq_trans H4 Ha) H5)))).
Qed.

(** The resumption of an invocation on a component without sources. *)
Lemma decode_returned_idle (st : State) (ticket : nat)
    (audioBuffer : AudioBuffer) (outputCtx : Handle) (msg : ServerMessage) :
  suspended st !! ticket = Some (outputCtx, msg) →
  interrupted msg = false → sourcesRef st = ∅ →
  let st' := step createPcmBlob (DecodeReturned ticket audioBuffer) st in
  starts (calls st') = starts (calls st) ++ [(ticket, nextStartTimeRef st)]
  ∧ sourcesRef st' = {[ticket]}
  ∧ nextStartTimeRef st' = (nextStartTimeRef st + duration audioBuffer)%Q
  ∧ outputAudioContextRef st' = outputAudioContextRef st
  ∧ aiSpeaking st' = aiSpeaking st.
Proof.
  intros Hsusp Hq Hsrc. cbv zeta.
  destruct (step_DecodeReturned_quiet createPcmBlob st ticket
              audioBuffer outputCtx msg Hsusp Hq)
    as (Hn & Hc & _ & _ & Hctx' & Hsrc').
  rewrite Hn, Hc, Hctx', Hsrc', Hsrc.
  split; [reflexivity|]. split; [apply (right_id_L ∅ (∪))|].
  split; [reflexivity|]. split; [reflexivity|].
  unfold step. destruct (runMicrotasks_frame
    (handle createPcmBlob (DecodeReturned ticket audioBuffer) st))
    as (_ & _ & -> & _).
  cbn [handle]. unfold decode_returned. rewrite Hsusp.
  unfold handleInterruption. fields. rewrite Hq. fields. reflexivity.
Qed.

(** X21. The teardown does not cancel a decode in flight: when it returns, its
    unit is still started (on the context the invocation captured, which
    the teardown closed), the cursor advances and the active set is no
    longer empty, while [aiSpeaking] stays false. *)
Theorem decode_after_stopAll (st : State) (ticket : nat)
    (audioBuffer : AudioBuffer) (outputCtx : Handle) (msg : ServerMessage) :
  suspended st !! ticket = Some (outputCtx, msg) →
  interrupted msg = false →
  let torn := stopAll st in
  let st' := step createPcmBlob (DecodeReturned ticket audioBuffer) torn in
  starts (calls st') = starts (calls torn) ++ [(ticket, nextStartTimeRef st)]
  ∧ sourcesRef st' = {[ticket]}
  ∧ nextStartTimeRef st' = (nextStartTimeRef st + duration audioBuffer)%Q
  ∧ outputAudioContextRef st' = None
  ∧ aiSpeaking st' = false.
Proof.
  intros Hsusp Hq. cbv zeta.
  destruct (stopAll_frame st)
    as ((_ & _ & _ & _ & Hctx & _ & Hsrc & _ & _ & Hai)
        & (Hcur & _ & _ & Hs & _) & _).
  rewrite <- Hs in Hsusp.
  destruct (decode_returned_idle (stopAll st) ticket audioBuffer outputCtx
              msg Hsusp Hq Hsrc) as (H1 & H2 & H3 & H4 & H5).
  rewrite H1, H2, H3, H4, H5, Hcur, Hctx, Hai. done.
Qed.

(** ** The log panel *)

Lemma runMicrotasks_logs (st : State) :
  logs (runMicrotasks st) = logs st ∧ allocated (runMicrotasks st) = allocated st
  ∧ inputAudioContextRef (runMicrotasks st) = inputAudioContextRef st.
Proof. rewrite runMicrotasks_eq. fields. done. Qed.

Ltac log_length :=
  repeat first [rewrite length_app | rewrite length_drop]; cbn [length]; lia.

Lemma handle_logs (e : Event) (st : State) :
  (length (logs (handle createPcmBlob e st)) ≤ 5 `max` length (logs st))%nat.
Proof.
  destruct e as [apiKey|stream|session| | |inputData|currentTime msg
                 |ticket audioBuffer|ticket|source| | | ]; cbn [handle].
  - unfold startSession. destruct apiKey; cbn [negb fst]; fields;
      log_length.
  - unfold getUserMedia_returned. fields.
    log_length.
  - unfold connect_returned, resolveSession. fields.
    destruct (sessionPromise st); fields; lia.
  - unfold startSession_threw. fields.
    log_length.
  - unfold onopen. fields.
    destruct (inputAudioContextRef st); fields;
      log_length.
  - unfold onaudioprocess, promise_then. fields.
    destruct (sessionPromise st); fields; lia.
  - unfold onmessage.
    destruct (outputAudioContextRef st); [|lia].
    destruct (truthy (inlineData msg)); fields; [lia|].
    unfold handleInterruption. destruct (interrupted msg); fields;
      log_length.
  - unfold decode_returned.
    destruct (suspended st !! ticket) as [[outputCtx msg]|]; [|lia].
    unfold handleInterruption. fields.
    destruct (interrupted msg); fields;
      log_length.
  - unfold decode_threw. fields. lia.
  - unfold ended. fields. case_decide; fields; lia.
  - unfold onclose.
    destruct (stopAll_logs (log "Connection closed." st)) as [-> _].
    fields. log_length.
  - unfold onerror.
    destruct (stopAll_logs (log "Error occurred." st)) as [-> _].
    fields. log_length.
  - destruct (stopAll_logs st) as [-> _]. lia.
Qed.

(** X22. The log never grows beyond five lines, whatever the component goes
    through: every handler that logs keeps the last four lines and adds
    one. *)
Theorem logs_bounded (es : list Event) (st : State) :
  (length (logs (run createPcmBlob es st)) ≤ 5 `max` length (logs st))%nat.
Proof.
  revert st. induction es as [|e es IH]; intros st; [cbn; lia|].
  cbn [run fold_left]. fold (run createPcmBlob es (step createPcmBlob e st)).
  etrans; [apply IH|]. unfold step.
  destruct (runMicrotasks_logs (handle createPcmBlob e st)) as (-> & _).
  pose proof (handle_logs e st). lia.
Qed.

(** ** A start that fails *)

(** X23. When [startSession] fails after the microphone was granted (the
    connection is rejected), the [catch] block only logs and clears
    [connected]: the stream and both audio contexts stay referenced, no
    track is stopped and no context closed.  The Start button is shown
    again, and the next start replaces the two context references without
    a [close] of the old contexts. *)
Theorem failed_start_releases_nothing (stream : Handle) (st : State) :
  let failed := run createPcmBlob
                  [StartSession true; GetUserMediaReturned stream;
                   StartSessionThrew] st in
  let retry := step createPcmBlob (StartSession true) failed in
  connected failed = false
  ∧ streamRef failed = Some stream
  ∧ inputAudioContextRef failed = Some (allocated st)
  ∧ outputAudioContextRef failed = Some (S (allocated st))
  ∧ calls failed = calls st ++ ((λ job, SendRealtimeInput job.1 job.2)
                                  <$> microtasks st)
  ∧ inputAudioContextRef retry = Some (S (S (allocated st)))
  ∧ outputAudioContextRef retry = Some (S (S (S (allocated st))))
  ∧ calls retry = calls failed.
Proof.
  cbv zeta. cbn [run fold_left]. unfold step. cbn [handle].
  unfold startSession, getUserMedia_returned, startSession_threw.
  cbn [negb fst].
  rewrite !runMicrotasks_eq. fields. rewrite !app_nil_r. done.
Qed.

(** ** The end of playback *)

Lemma ended_sources (sources : list nat) :
  ∀ st : State,
  let st' := run createPcmBlob (Ended <$> sources) st in
  sourcesRef st' = sourcesRef st ∖ list_to_set sources
  ∧ match sources with
    | [] => True
    | _ => sourcesRef st ⊆ list_to_set sources → aiSpeaking st' = false
    end.
Proof.
  induction sources as [|source sources IH]; intros st; cbv zeta.
  { split; [|done]. cbn [fmap list_fmap run fold_left].
    rewrite list_to_set_nil. apply set_eq. intros x.
    rewrite elem_of_difference, elem_of_empty. tauto. }
  cbn [fmap list_fmap run fold_left].
  fold (run createPcmBlob (Ended <$> sources)
          (step createPcmBlob (Ended source) st)).
  set (st1 := step createPcmBlob (Ended source) st).
  assert (sourcesRef st1 = sourcesRef st ∖ {[source]}
          ∧ (sourcesRef st ⊆ {[source]} → aiSpeaking st1 = false))
    as [Hs1 Ha1].
  { unfold st1, step.
    destruct (runMicrotasks_frame (handle createPcmBlob (Ended source) st))
      as (-> & _ & -> & _).
    cbn [handle]. unfold ended. fields. case_decide as Hsize; fields.
    - done.
    - split; [done|]. intros Hsub. destruct Hsize.
      apply size_empty_iff, elem_of_equiv_empty.
      intros x [Hx Hne]%elem_of_difference. apply Hne, Hsub, Hx. }
  destruct (IH st1) as [Hs Ha]. rewrite Hs, Hs1. split.
  { rewrite list_to_set_cons. apply set_eq. intros x.
    rewrite !elem_of_difference, elem_of_union. tauto. }
  intros Hsub. destruct sources as [|source' sources].
  - cbn. apply Ha1. intros x Hx. specialize (Hsub x Hx).
    rewrite list_to_set_cons, list_to_set_nil, elem_of_union in Hsub.
    destruct Hsub as [Hin|Hin]; [done|]. by apply elem_of_empty in Hin.
  - apply Ha. rewrite Hs1. intros x [Hx Hne]%elem_of_difference.
    specialize (Hsub x Hx).
    rewrite list_to_set_cons, elem_of_union in Hsub.
    destruct Hsub as [Hin|Hin]; done.
Qed.

(** X24. Once the [ended] listener has run for every source of the active set
    (in any order, more than once, or for sources that were stopped
    before), the set is empty and [aiSpeaking] is false. *)
Theorem ended_for_all_sources (sources : list nat) (st : State) :
  sources ≠ [] → sourcesRef st ⊆ list_to_set sources →
  let st' := run createPcmBlob (Ended <$> sources) st in
  sourcesRef st' = ∅ ∧ aiSpeaking st' = false.
Proof.
  intros Hne Hsub. cbv zeta.
  destruct (ended_sources sources st) as [Hs Ha]. split.
  - rewrite Hs. apply leibniz_equiv, elem_of_equiv_empty.
    intros x [Hx Hnin]%elem_of_difference. apply Hnin, Hsub, Hx.
  - destruct sources; [done|]. by apply Ha.
Qed.

(** ** A decode that fails *)

(** X25. When [decodeAudioData] rejects, the invocation of [onmessage] ends at
    the [await]: no unit is started, and the interruption branch is not
    reached either, so an interrupted signal on that message stops
    nothing.  [aiSpeaking], set before the [await], stays true, also when
    no source is left whose [ended] could clear it. *)
Theorem decode_failure (st : State) (currentTime : Q) (msg : ServerMessage)
    (outputCtx : Handle) :
  outputAudioContextRef st = Some outputCtx →
  truthy (inlineData msg) = true →
  let st' := run createPcmBlob
               [OnMessage currentTime msg; DecodeThrew (decodes st)] st in
  aiSpeaking st' = true
  ∧ sourcesRef st' = sourcesRef st
  ∧ calls st' = calls st ++ ((λ job, SendRealtimeInput job.1 job.2)
                               <$> microtasks st)
  ∧ nextStartTimeRef st' = Qmax (nextStartTimeRef st) currentTime
  ∧ suspended st' !! decodes st = None.
Proof.
  intros Hctx Haudio. cbv zeta. cbn [run fold_left]. unfold step.
  cbn [handle]. unfold onmessage, decode_threw. rewrite Hctx, Haudio.
  rewrite !runMicrotasks_eq. fields. rewrite !app_nil_r.
  repeat (split; [reflexivity|]). apply lookup_delete_eq.
Qed.

(** ** An interruption while a chunk is being decoded *)

(** X26. The interruption branch stops the sources of the active set; a chunk
    whose decode has not returned yet is not in it.  When its decode
    returns after the interruption, the unit is started at the reset
    cursor and joins the emptied set, and [aiSpeaking], just cleared, is
    not set again. *)
Theorem interruption_misses_decoding (st : State) (ticket : nat)
    (audioBuffer : AudioBuffer) (outputCtx ctx : Handle)
    (msg interruption : ServerMessage) (currentTime : Q) :
  suspended st !! ticket = Some (outputCtx, msg) →
  interrupted msg = false →
  outputAudioContextRef st = Some ctx →
  truthy (inlineData interruption) = false →
  interrupted interruption = true →
  let st' := run createPcmBlob
               [OnMessage currentTime interruption;
                DecodeReturned ticket audioBuffer] st in
  starts (calls st') = starts (calls st) ++ [(ticket, 0%Q)]
  ∧ sourcesRef st' = {[ticket]}
  ∧ nextStartTimeRef st' = (0 + duration audioBuffer)%Q
  ∧ aiSpeaking st' = false.
Proof.
  intros Hsusp Hq Hctx Hna Hi. cbv zeta. cbn [run fold_left].
  set (st1 := step createPcmBlob (OnMessage currentTime interruption) st).
  assert (suspended st1 = suspended st ∧ sourcesRef st1 = ∅
          ∧ nextStartTimeRef st1 = 0%Q ∧ aiSpeaking st1 = false
          ∧ starts (calls st1) = starts (calls st))
    as (Hs1 & Hsrc1 & Hn1 & Ha1 & Hc1).
  { unfold st1, step. rewrite starts_runMicrotasks.
    destruct (runMicrotasks_frame
                (handle createPcmBlob (OnMessage currentTime interruption) st))
      as (-> & -> & -> & _ & _ & _ & -> & _).
    cbn [handle]. unfold onmessage. rewrite Hctx, Hna.
    unfold handleInterruption. rewrite Hi. fields.
    rewrite starts_app, starts_Stops, app_nil_r. done. }
  clearbody st1. rewrite <- Hs1 in Hsusp.
  destruct (decode_returned_idle st1 ticket audioBuffer outputCtx msg
              Hsusp Hq Hsrc1) as (H1 & H2 & H3 & _ & H5).
  rewrite H1, H2, H3, H5, Hn1, Ha1, Hc1. done.
Qed.

(** ** The voice-activity flag *)

Lemma sumSquares_acc (inputData : list Q) (acc : Q) :
  (fold_left (λ sum x, sum + x * x) inputData acc
   == acc + sumSquares inputData)%Q.
Proof.
  unfold sumSquares. revert acc.
  induction inputData as [|x xs IH]; intros acc; cbn [fold_left].
  - lra.
  - rewrite (IH (acc + x * x)%Q), (IH (0 + x * x)%Q). lra.
Qed.

Lemma sumSquares_cons (x : Q) (xs : list Q) :
  (sumSquares (x :: xs) == x * x + sumSquares xs)%Q.
Proof.
  unfold sumSquares at 1. cbn [fold_left]. rewrite sumSquares_acc. lra.
Qed.

Lemma sumSquares_bounds (inputData : list Q) (b : Q) :
  (0 <= b)%Q →
  (Forall (λ x, -b <= x ∧ x <= b)%Q inputData →
   (sumSquares inputData <= inject_Z (Z.of_nat (length inputData)) * (b * b))%Q)
  ∧ (Forall (λ x, b < x ∨ x < -b)%Q inputData → inputData ≠ [] →
     (inject_Z (Z.of_nat (length inputData)) * (b * b) < sumSquares inputData)%Q).
Proof.
  intros Hb. induction inputData as [|x xs [IHle IHlt]].
  { split; [intros _|done]. unfold sumSquares.
    cbn [fold_left length].
    change (inject_Z (Z.of_nat 0)) with 0%Q. lra. }
  assert (inject_Z (Z.of_nat (length (x :: xs)))
          == 1 + inject_Z (Z.of_nat (length xs)))%Q as Hlen.
  { cbn [length]. rewrite Nat2Z.inj_succ, <- Z.add_1_l, inject_Z_plus.
    reflexivity. }
  split.
  - intros Hall. apply Forall_cons in Hall as [[Hx1 Hx2] Hxs].
    rewrite sumSquares_cons, Hlen. specialize (IHle Hxs). nra.
  - intros Hall _. apply Forall_cons in Hall as [Hx Hxs].
    rewrite sumSquares_cons, Hlen.
    assert (b * b < x * x)%Q by (destruct Hx; nra).
    destruct xs as [|x' xs'].
    + unfold sumSquares. cbn [fold_left].
      change (inject_Z (Z.of_nat (@length Q []))) with 0%Q. lra.
    + specialize (IHlt Hxs ltac:(done)). lra.
Qed.

Lemma frame_length_nonneg (inputData : list Q) :
  (0 <= inject_Z (Z.of_nat (length inputData)))%Q.
Proof. rewrite <- (Zle_Qle 0). lia. Qed.

(** X27. The flag behind the speaking indicator is not raised by a frame whose
    samples all lie within 0.02 of zero, the empty frame among them. *)
Theorem rmsAbove_quiet (inputData : list Q) :
  Forall (λ x, -(1 # 50) <= x ∧ x <= 1 # 50)%Q inputData →
  rmsAbove inputData = false.
Proof.
  intros Hall.
  destruct (sumSquares_bounds inputData (1 # 50) ltac:(lra)) as [Hle _].
  specialize (Hle Hall). pose proof (frame_length_nonneg inputData) as Hn.
  unfold rmsAbove.
  set (n := inject_Z (Z.of_nat (length inputData))) in *.
  assert (sumSquares inputData / n <= (1 # 50) * (1 # 50))%Q as Hq.
  { destruct (Qeq_dec n 0) as [Hz|Hnz].
    - unfold Qdiv. rewrite Hz.
      assert (/ 0 == 0)%Q as -> by reflexivity. lra.
    - apply Qle_shift_div_r; lra. }
  destruct (Qcompare_spec ((1 # 50) * (1 # 50)) (sumSquares inputData / n))
    as [?|Hc|?]; [done| |done].
  lra.
Qed.

(** X28. It is raised by every frame with a sample whose samples all lie
    further than 0.02 from zero. *)
Theorem rmsAbove_loud (inputData : list Q) :
  Forall (λ x, 1 # 50 < x ∨ x < -(1 # 50))%Q inputData → inputData ≠ [] →
  rmsAbove inputData = true.
Proof.
  intros Hall Hne.
  destruct (sumSquares_bounds inputData (1 # 50) ltac:(lra)) as [_ Hlt].
  specialize (Hlt Hall Hne). unfold rmsAbove.
  set (n := inject_Z (Z.of_nat (length inputData))) in *.
  assert (0 < n)%Q as Hpos.
  { unfold n. rewrite <- (Zlt_Qlt 0). destruct inputData; [done|cbn; lia]. }
  assert ((1 # 50) * (1 # 50) < sumSquares inputData / n)%Q as Hq.
  { apply Qlt_shift_div_l; lra. }
  destruct (Qcompare_spec ((1 # 50) * (1 # 50)) (sumSquares inputData / n))
    as [Hc|?|Hc]; [|done|]; exfalso; lra.
Qed.

End LiveModeMore.

(* ===================================================================== *)
(** * The further properties at concrete inputs *)
(* ===================================================================== *)

(** The layout for [lastFrameQuarter]: of its 46 frames the last two are
    written, and 88 bytes of zeros follow. *)
Lemma bufferToWav_layout_witness :
  let n := WavCodec.bufLength lastFrameQuarter in
  let c := WavCodec.numberOfChannels lastFrameQuarter in
  WavCodec.bufferToWav lastFrameQuarter 24000
  = Some (WavCodec.wavHeader c 24000 (n * c * 2 + 44)
          ++ WavCodec.dataBytes lastFrameQuarter (seq 44 (n - 44))
          ++ replicate (2 * c * (n `min` 44)) 0)
  ∧ length (WavCodec.dataBytes lastFrameQuarter (seq 44 (n - 44)))
    = (2 * c * (n - 44))%nat.
Proof. apply (bufferToWav_layout lastFrameQuarter 24000). vm_compute. lia. Defined.

(** Frame 45 of [lastFrameQuarter] reads back at data offset 2. *)
Lemma bufferToWav_sample_witness :
  ∃ out, WavCodec.bufferToWav lastFrameQuarter 24000 = Some out
    ∧ WavCodec.getInt16 out
        (44 + 2 * ((45 - 44) * WavCodec.numberOfChannels lastFrameQuarter + 0))
      = Some (WavCodec.quantize (-(1 # 4))).
Proof.
  eexists. split; [vm_compute; reflexivity|].
  apply (bufferToWav_sample lastFrameQuarter 24000 _
           (replicate 45 0%Q ++ [-(1 # 4)]%Q) (-(1 # 4)) 45 0).
  - vm_compute. reflexivity.
  - reflexivity.
  - reflexivity.
  - vm_compute. lia.
Defined.

Lemma bufferToWav_riff_fields_witness :
  ∃ out, WavCodec.bufferToWav lastFrameQuarter 24000 = Some out
    ∧ WavCodec.getUint32 out 0 = Some 0x46464952
    ∧ WavCodec.getUint32 out 4 = Some (Z.of_nat (length out) - 8)
    ∧ WavCodec.getUint32 out 8 = Some 0x45564157
    ∧ WavCodec.getUint32 out 12 = Some 0x20746d66
    ∧ WavCodec.getUint32 out 16 = Some 16.
Proof.
  eexists. split; [vm_compute; reflexivity|].
  apply (bufferToWav_riff_fields lastFrameQuarter 24000).
  - vm_compute. reflexivity.
  - vm_compute. reflexivity.
Defined.

Lemma quantize_mono_witness :
  WavCodec.quantize (-(1 # 4)) ≤ WavCodec.quantize (1 # 2).
Proof. apply (quantize_mono (-(1 # 4)) (1 # 2)). vm_compute. congruence. Defined.

Lemma quantize_saturates_witness :
  WavCodec.quantize (3 # 2) = if Qle_bool 1 (3 # 2) then 32767 else -32768.
Proof.
  apply (quantize_saturates (3 # 2)). left. vm_compute. congruence.
Defined.

(** A text of a space, a no-break space, a line separator and an
    ideographic space. *)
Lemma handleGenerate_whitespace_witness :
  TTSMode.handleGenerate true blankText TTSMode.initialState
  = (TTSMode.initialState, None).
Proof.
  apply (handleGenerate_whitespace true blankText TTSMode.initialState).
  repeat constructor.
Defined.

Lemma handleGenerate_calls_made_witness :
  let st := offlineEnglish in
  let st' := (TTSMode.handleGenerate true hello st).1 in
  ∃ spoken requested,
    TTSMode.speechSynthesis st'
    = TTSMode.speechSynthesis st ++ TTSMode.SpeechCancel :: spoken
    ∧ TTSMode.generateContent st' = TTSMode.generateContent st ++ requested
    ∧ (length spoken + length requested ≤ 1)%nat
    ∧ (if TTSMode.isOfflineMode st then requested = [] else spoken = []).
Proof.
  apply (handleGenerate_calls_made true hello offlineEnglish).
  vm_compute. congruence.
Defined.

Lemma handleGenerate_no_api_key_witness :
  let r := TTSMode.handleGenerate false hello TTSMode.initialState in
  r.2 = None
  ∧ TTSMode.error r.1 = Some "API Key missing"
  ∧ TTSMode.generateContent r.1
    = TTSMode.generateContent TTSMode.initialState
  ∧ TTSMode.loading r.1 = false ∧ TTSMode.isPlaying r.1 = false
  ∧ TTSMode.audioUrl r.1 = None
  ∧ TTSMode.renderState r.1 = TTSMode.Error.
Proof.
  apply (handleGenerate_no_api_key hello TTSMode.initialState).
  - vm_compute. congruence.
  - reflexivity.
Defined.

Lemma online_render_succeeds_witness :
  let st := TTSMode.initialState in
  let r1 := TTSMode.handleGenerate true hello st in
  let r2 := TTSMode.generateContent_returned (Some "QUJD") r1.1 in
  let st3 := TTSMode.decode_returned lastFrameQuarter "blob:1"
               "Failed to generate speech" r2.1 in
  r1.2 = Some TTSMode.AwaitGenerateContent
  ∧ r2.2 = Some TTSMode.AwaitDecode
  ∧ TTSMode.generateContent st3
    = TTSMode.generateContent st ++ [(hello, TTSMode.selectedVoiceId st)]
  ∧ TTSMode.speechSynthesis st3
    = TTSMode.speechSynthesis st ++ [TTSMode.SpeechCancel]
  ∧ TTSMode.audioUrl st3 = Some "blob:1" ∧ TTSMode.error st3 = None
  ∧ TTSMode.loading st3 = false ∧ TTSMode.isPlaying st3 = true
  ∧ TTSMode.renderState st3 = TTSMode.Playing
  ∧ TTSMode.renderState (TTSMode.audio_onEnded st3) = TTSMode.Idle
  ∧ TTSMode.renderState (TTSMode.stopPlayback st3) = TTSMode.Idle.
Proof.
  apply (online_render_succeeds hello "QUJD" "blob:1"
           "Failed to generate speech" lastFrameQuarter TTSMode.initialState).
  - vm_compute. congruence.
  - reflexivity.
  - vm_compute. congruence.
  - vm_compute. lia.
Defined.

Lemma online_render_no_audio_witness :
  let st := TTSMode.initialState in
  let r1 := TTSMode.handleGenerate true hello st in
  let r2 := TTSMode.generateContent_returned None r1.1 in
  r2.2 = None
  ∧ TTSMode.error r2.1 = Some "No audio data returned"
  ∧ TTSMode.audioUrl r2.1 = None
  ∧ TTSMode.audioContextRef r2.1 = TTSMode.audioContextRef st
  ∧ TTSMode.loading r2.1 = false ∧ TTSMode.isPlaying r2.1 = false
  ∧ TTSMode.renderState r2.1 = TTSMode.Error.
Proof.
  apply (online_render_no_audio hello None TTSMode.initialState).
  - vm_compute. congruence.
  - reflexivity.
  - left. reflexivity.
Defined.

Lemma stop_does_not_cancel_render_witness :
  let st1 := TTSMode.stopPlayback
               (TTSMode.handleGenerate true hello TTSMode.initialState).1 in
  let st3 := TTSMode.decode_returned lastFrameQuarter "blob:1"
               "Failed to generate speech"
               (TTSMode.generateContent_returned (Some "QUJD") st1).1 in
  TTSMode.renderState st1 = TTSMode.Generating
  ∧ TTSMode.audioUrl st3 = Some "blob:1" ∧ TTSMode.loading st3 = false
  ∧ TTSMode.isPlaying st3 = false ∧ TTSMode.error st3 = None
  ∧ TTSMode.renderState st3 = TTSMode.Idle.
Proof.
  apply (stop_does_not_cancel_render hello "QUJD" "blob:1"
           "Failed to generate speech" lastFrameQuarter TTSMode.initialState).
  - vm_compute. congruence.
  - reflexivity.
  - vm_compute. congruence.
  - vm_compute. lia.
Defined.


Lemma offline_render_fails_witness :
  let failed := TTSMode.utterance_onerror
                  (TTSMode.handleGenerate true hello offlineEnglish).1 in
  TTSMode.error failed = Some "Offline speech synthesis failed"
  ∧ TTSMode.loading failed = false ∧ TTSMode.isPlaying failed = false
  ∧ TTSMode.renderState failed = TTSMode.Error.
Proof.
  apply (offline_render_fails true hello offlineEnglish pack_en).
  - vm_compute. congruence.
  - reflexivity.
  - reflexivity.
  - reflexivity.
Defined.


(** Afrikaans, refused as the component mounts, after its pack was
    downloaded. *)
Lemma download_enables_offline_witness :
  let st := TTSMode.setIsOfflineAfrikaans in
  let r := TTSMode.handleGenerate true hallo
             (TTSMode.handleDownloadPack (TTSMode.pack_id pack_af) st) in
  r.2 = Some TTSMode.AwaitUtterance ∧ TTSMode.error r.1 = None
  ∧ ∃ u, TTSMode.speechSynthesis r.1
         = TTSMode.speechSynthesis st
           ++ [TTSMode.SpeechCancel; TTSMode.SpeechSpeak u]
         ∧ TTSMode.uText u = hallo.
Proof.
  apply (download_enables_offline true hallo TTSMode.setIsOfflineAfrikaans
           pack_af).
  - vm_compute. congruence.
  - reflexivity.
  - reflexivity.
Defined.

(** The decode of [msgA] returns after the session of [bothArrived] was
    torn down. *)
Lemma decode_after_stopAll_witness :
  let torn := LiveMode.stopAll bothArrived in
  let st' := LiveMode.step frameBlob (LiveMode.DecodeReturned 0 halfSecond)
               torn in
  LiveMode.starts (LiveMode.calls st')
  = LiveMode.starts (LiveMode.calls torn)
    ++ [(0%nat, LiveMode.nextStartTimeRef bothArrived)]
  ∧ LiveMode.sourcesRef st' = {[0%nat]}
  ∧ LiveMode.nextStartTimeRef st'
    = (LiveMode.nextStartTimeRef bothArrived
       + WavCodec.duration halfSecond)%Q
  ∧ LiveMode.outputAudioContextRef st' = None
  ∧ LiveMode.aiSpeaking st' = false.
Proof.
  apply (decode_after_stopAll frameBlob bothArrived 0%nat halfSecond 1%nat
           msgA).
  - vm_compute. reflexivity.
  - reflexivity.
Defined.

(** Both sources of [bothPlaying] end, the later one first. *)
Lemma ended_for_all_sources_witness :
  let st' := LiveMode.run frameBlob (LiveMode.Ended <$> [1%nat; 0%nat])
               bothPlaying in
  LiveMode.sourcesRef st' = ∅ ∧ LiveMode.aiSpeaking st' = false.
Proof.
  apply (ended_for_all_sources frameBlob [1%nat; 0%nat] bothPlaying).
  - discriminate.
  - compute_done.
Defined.

(** The decode of a third message fails in the session of
    [bothArrived]. *)
Lemma decode_failure_witness :
  let st := bothArrived in
  let st' := LiveMode.run frameBlob
               [LiveMode.OnMessage (1 # 4) msgA;
                LiveMode.DecodeThrew (LiveMode.decodes st)] st in
  LiveMode.aiSpeaking st' = true
  ∧ LiveMode.sourcesRef st' = LiveMode.sourcesRef st
  ∧ LiveMode.calls st'
    = LiveMode.calls st ++ ((λ job, LiveMode.SendRealtimeInput job.1 job.2)
                              <$> LiveMode.microtasks st)
  ∧ LiveMode.nextStartTimeRef st'
    = Qmax (LiveMode.nextStartTimeRef st) (1 # 4)
  ∧ LiveMode.suspended st' !! LiveMode.decodes st = None.
Proof.
  apply (decode_failure frameBlob bothArrived (1 # 4) msgA 1%nat).
  - vm_compute. reflexivity.
  - reflexivity.
Defined.

(** An interruption arrives in the session of [bothArrived], then the
    decode of [msgA] returns. *)
Lemma interruption_misses_decoding_witness :
  let st' := LiveMode.run frameBlob
               [LiveMode.OnMessage (1 # 4) interruption;
                LiveMode.DecodeReturned 0 halfSecond] bothArrived in
  LiveMode.starts (LiveMode.calls st')
  = LiveMode.starts (LiveMode.calls bothArrived) ++ [(0%nat, 0%Q)]
  ∧ LiveMode.sourcesRef st' = {[0%nat]}
  ∧ LiveMode.nextStartTimeRef st' = (0 + WavCodec.duration halfSecond)%Q
  ∧ LiveMode.aiSpeaking st' = false.
Proof.
  apply (interruption_misses_decoding frameBlob bothArrived 0%nat halfSecond
           1%nat 1%nat msgA interruption (1 # 4)).
  - vm_compute. reflexivity.
  - reflexivity.
  - vm_compute. reflexivity.
  - reflexivity.
  - reflexivity.
Defined.

Lemma rmsAbove_quiet_witness :
  LiveMode.rmsAbove [1 # 100; -(1 # 100); 0]%Q = false.
Proof.
  apply (rmsAbove_quiet [1 # 100; -(1 # 100); 0]%Q).
  repeat (apply Forall_cons; split; [split; vm_compute; congruence|]).
  constructor.
Defined.

Lemma rmsAbove_loud_witness :
  LiveMode.rmsAbove [1 # 10; -(1 # 5)]%Q = true.
Proof.
  apply (rmsAbove_loud [1 # 10; -(1 # 5)]%Q).
  - apply Forall_cons; split; [left; reflexivity|].
    apply Forall_cons; split; [right; reflexivity|]. constructor.
  - discriminate.
Defined.
